(** * Embedding resolution and stdio RPC bridges of qdrant_qwen

    A shallow embedding of the decision logic of
      - [embedding_service.py]      (module [EmbeddingService]),
      - [openai_compatible_api.py]  (module [OpenAICompat]),
      - [localai_mcp_server.py]     (module [LocalAI]),
      - [qdrant_mcp_server.py]      (module [Qdrant]),
    followed by the properties of the specification that were checked
    against it.

    Conventions.  A Python [str] is the [string] of its UTF-8 encoding,
    one [ascii] per byte, so that a text and the bytes that are hashed of it
    are the same string; the operations that go by characters ([strip],
    [split], [len] and iteration of a JSON string) go by the characters so
    encoded ([Py.chars]).  Python integers are [Z].  A Python [float] is an
    IEEE-754 binary64 [float] of the kernel.
    The libraries the program calls (hashlib, numpy, requests, aiohttp,
    json) are not code of the repository: MD5 is written out from RFC 1321,
    the others are taken as parameters of the sections that use them. *)

From Stdlib Require Import ZArith List String Ascii Bool Lia PrimFloat Uint63 Reals Lra.
Import ListNotations.

Local Open Scope Z_scope.
Local Open Scope string_scope.

(** ** Python values shared by the four programs *)

Module Py.

(** Exceptions, by the classes the [except] clauses of the program tell
    apart.  [HTTPException] is FastAPI's; [RequestException] is the root of
    the exceptions of [requests]; every other class ([Exception] itself,
    [TypeError], [AttributeError], [ValueError], aiohttp's errors ...) is
    only ever caught by [except Exception] and keeps its message. *)
Inductive exn : Type :=
| HTTPException (status_code : Z) (detail : string)
| RequestException (msg : string)
| OtherException (msg : string).

Inductive result (A : Type) : Type :=
| Ok (a : A)
| Raise (e : exn).
Arguments Ok {A} a.
Arguments Raise {A} e.

(** Decimal rendering of a non-negative integer, as [str(n)] gives it. *)
Fixpoint dec_digits (fuel : nat) (n : Z) (acc : string) : string :=
  match fuel with
  | O => acc
  | S fuel' =>
      let acc' := String (ascii_of_nat (48 + Z.to_nat (n mod 10))) acc in
      if (n / 10 =? 0)%Z then acc' else dec_digits fuel' (n / 10) acc'
  end.

Definition str_of_Z (n : Z) : string :=
  if (n <? 0)%Z then "-" ++ dec_digits (S (Z.to_nat (Z.log2 (- n)))) (- n) ""
  else dec_digits (S (Z.to_nat (Z.log2 n))) n "".

(** [str(e)].  Starlette's [HTTPException.__str__] is
    "<status_code>: <detail>"; the others print their message. *)
Definition str_of_exn (e : exn) : string :=
  match e with
  | HTTPException c d => str_of_Z c ++ ": " ++ d
  | RequestException m => m
  | OtherException m => m
  end.

(** [s * n] for a string [s] and an integer [n]: empty when [n <= 0]. *)
Fixpoint str_repeat (s : string) (n : nat) : string :=
  match n with
  | O => ""
  | S n' => s ++ str_repeat s n'
  end.

Definition str_mul (s : string) (n : Z) : string := str_repeat s (Z.to_nat n).

(** [len(s)], [s[lo:hi]] and [s[lo:]] (for [0 <= lo]) of a string of ASCII
    characters, where a character is a byte: the program takes them of
    hexadecimal digests only (lemma [hexdigest_hex] below).  A slice is
    clipped to the string the way Python clips it. *)
Definition len (s : string) : Z := Z.of_nat (String.length s).

Definition slice (s : string) (lo hi : Z) : string :=
  substring (Z.to_nat lo) (Z.to_nat (hi - lo)) s.

Definition slice_from (s : string) (lo : Z) : string :=
  substring (Z.to_nat lo) (String.length s) s.

(** The value of one hexadecimal digit, either case. *)
Definition hex_value (c : ascii) : option Z :=
  let n := Z.of_nat (nat_of_ascii c) in
  if ((48 <=? n) && (n <=? 57))%Z then Some (n - 48)
  else if ((97 <=? n) && (n <=? 102))%Z then Some (n - 87)
  else if ((65 <=? n) && (n <=? 70))%Z then Some (n - 55)
  else None.

Fixpoint int16_acc (acc : Z) (s : string) : option Z :=
  match s with
  | EmptyString => Some acc
  | String c s' =>
      match hex_value c with
      | Some v => int16_acc (16 * acc + v) s'
      | None => None
      end
  end.

(** [int(s, 16)] on a string of hexadecimal digits; [None] stands for
    [ValueError] (the empty string, or a character that is not a digit).
    Signs, white space, underscores and a [0x] prefix, which Python also
    accepts, do not occur in the strings the program converts (lemma
    [hexdigest_hex] below). *)
Definition int16 (s : string) : option Z :=
  match s with
  | EmptyString => None
  | _ => int16_acc 0 s
  end.

(** The characters of a string.  A byte [10xxxxxx] continues the character
    that the bytes before it began, every other byte begins one;
    [continues ch] says so of the first byte of [ch]. *)
Definition continuation (c : ascii) : bool :=
  let n := nat_of_ascii c in
  ((128 <=? n) && (n <? 192))%nat.

Definition continues (ch : string) : bool :=
  match ch with
  | String c _ => continuation c
  | EmptyString => false
  end.

Fixpoint chars (s : string) : list string :=
  match s with
  | EmptyString => []
  | String c s' =>
      match chars s' with
      | [] => [String c ""]
      | ch :: rest =>
          if continues ch then String c ch :: rest
          else String c "" :: ch :: rest
      end
  end.

(** [''.join(l)] *)
Definition join (l : list string) : string := fold_right append "" l.

(** [chr(cp)]: the UTF-8 encoding of the code point [cp]. *)
Definition chr (cp : Z) : string :=
  let byte (n : Z) := String (ascii_of_nat (Z.to_nat n)) "" in
  if (cp <? 0x80)%Z then byte cp
  else if (cp <? 0x800)%Z then
    byte (0xC0 + cp / 64) ++ byte (0x80 + cp mod 64)
  else if (cp <? 0x10000)%Z then
    byte (0xE0 + cp / 4096) ++ byte (0x80 + cp / 64 mod 64)
      ++ byte (0x80 + cp mod 64)
  else
    byte (0xF0 + cp / 262144) ++ byte (0x80 + cp / 4096 mod 64)
      ++ byte (0x80 + cp / 64 mod 64) ++ byte (0x80 + cp mod 64).

(** The code points of white space, those [str.isspace] holds of; they are
    what [str.strip] removes and where [str.split] splits. *)
Definition whitespace : list Z :=
  [ 0x09; 0x0A; 0x0B; 0x0C; 0x0D; 0x1C; 0x1D; 0x1E; 0x1F; 0x20;
    0x85; 0xA0; 0x1680;
    0x2000; 0x2001; 0x2002; 0x2003; 0x2004; 0x2005; 0x2006; 0x2007;
    0x2008; 0x2009; 0x200A;
    0x2028; 0x2029; 0x202F; 0x205F; 0x3000 ].

(** [ch.isspace()] for one character. *)
Definition is_space (ch : string) : bool :=
  existsb (fun cp => (ch =? chr cp)%string) whitespace.

(** The characters left when the white space a list of characters begins
    with, or ends with, is removed. *)
Fixpoint drop_leading (l : list string) : list string :=
  match l with
  | [] => []
  | ch :: l' => if is_space ch then drop_leading l' else l
  end.

Fixpoint drop_trailing (l : list string) : list string :=
  match l with
  | [] => []
  | ch :: l' =>
      match drop_trailing l' with
      | [] => if is_space ch then [] else [ch]
      | t => ch :: t
      end
  end.

(** [s.lstrip()], [s.rstrip()] and [s.strip()] *)
Definition lstrip (s : string) : string := join (drop_leading (chars s)).

Definition rstrip (s : string) : string := join (drop_trailing (chars s)).

Definition strip (s : string) : string :=
  join (drop_trailing (drop_leading (chars s))).

(** [s.split()]: the maximal runs of characters that are not white space. *)
Fixpoint words (l : list string) : list string :=
  match l with
  | [] => []
  | ch :: l' =>
      if is_space ch then words l'
      else
        match l' with
        | [] => [ch]
        | ch' :: _ =>
            if is_space ch' then ch :: words l'
            else
              match words l' with
              | w :: ws => (ch ++ w) :: ws
              | [] => [ch]
              end
        end
  end.

Definition split (s : string) : list string := words (chars s).

(** [range(start, stop, step)] for a positive [step]. *)
Definition range (start stop step : Z) : list Z :=
  map (fun k => start + step * Z.of_nat k)
      (seq 0 (Z.to_nat ((stop - start + step - 1) / step))).

End Py.

(** ** JSON values *)

Set Warnings "-register-all".

Module Json.

(** What [json.loads] and [response.json()] return and what the handlers
    build: [None], [bool],
    [int], [float], [str], [list] and [dict] (an association list: the
    order of the keys is the order [json.dumps] prints). *)
Inductive value : Type :=
| Null
| Bool (b : bool)
| Int (z : Z)
| Float (f : float)
| Str (s : string)
| Arr (l : list value)
| Obj (kv : list (string * value)).

Fixpoint assoc (key : string) (kv : list (string * value)) : option value :=
  match kv with
  | [] => None
  | (k, v) :: kv' => if (k =? key)%string then Some v else assoc key kv'
  end.

(** The name [type(v).__name__] that Python's error messages quote. *)
Definition type_name (v : value) : string :=
  match v with
  | Null => "NoneType"
  | Bool _ => "bool"
  | Int _ => "int"
  | Float _ => "float"
  | Str _ => "str"
  | Arr _ => "list"
  | Obj _ => "dict"
  end.

(** [d.get(key, default)]: only a [dict] has the method. *)
Definition get (d : value) (key : string) (default : value) : Py.result value :=
  match d with
  | Obj kv =>
      match assoc key kv with
      | Some v => Py.Ok v
      | None => Py.Ok default
      end
  | _ => Py.Raise (Py.OtherException
                     ("'" ++ type_name d ++ "' object has no attribute 'get'"))
  end.

(** [len(v)]. *)
Definition len (v : value) : Py.result Z :=
  match v with
  | Arr l => Py.Ok (Z.of_nat (List.length l))
  | Str s => Py.Ok (Z.of_nat (List.length (Py.chars s)))
  | Obj kv => Py.Ok (Z.of_nat (List.length kv))
  | _ => Py.Raise (Py.OtherException
                     ("object of type '" ++ type_name v ++ "' has no len()"))
  end.

(** The items [iter(v)] yields: the elements of a list, the characters of
    a string, the keys of a dict. *)
Definition iter (v : value) : Py.result (list value) :=
  match v with
  | Arr l => Py.Ok l
  | Str s => Py.Ok (map Str (Py.chars s))
  | Obj kv => Py.Ok (map (fun p => Str (fst p)) kv)
  | _ => Py.Raise (Py.OtherException
                     ("'" ++ type_name v ++ "' object is not iterable"))
  end.

(** [zip(a, b)], which asks both arguments for an iterator, left to right,
    before it yields anything. *)
Definition zip (a b : value) : Py.result (list (value * value)) :=
  match iter a with
  | Py.Raise e => Py.Raise e
  | Py.Ok la =>
      match iter b with
      | Py.Raise e => Py.Raise e
      | Py.Ok lb => Py.Ok (combine la lb)
      end
  end.

(** [bool(v)], the test of [x if v else y]. *)
Definition truthy (v : value) : bool :=
  match v with
  | Null => false
  | Bool b => b
  | Int z => negb (z =? 0)%Z
  | Float f => negb (PrimFloat.eqb f 0%float)
  | Str s => negb (s =? "")%string
  | Arr l => match l with [] => false | _ => true end
  | Obj kv => match kv with [] => false | _ => true end
  end.

(** [v[0]]. *)
Definition item0 (v : value) : Py.result value :=
  match v with
  | Arr (x :: _) => Py.Ok x
  | Arr [] => Py.Raise (Py.OtherException "list index out of range")
  | Str s =>
      match Py.chars s with
      | ch :: _ => Py.Ok (Str ch)
      | [] => Py.Raise (Py.OtherException "string index out of range")
      end
  | Obj _ => Py.Raise (Py.OtherException "0")
  | _ => Py.Raise (Py.OtherException
                     ("'" ++ type_name v ++ "' object is not subscriptable"))
  end.

(** [v == s] for a string literal [s]. *)
Definition eq_str (v : value) (s : string) : bool :=
  match v with
  | Str t => (t =? s)%string
  | _ => false
  end.

(** [key in v] for a string [key]: a key of a dict, an element of a list,
    a part of a string. *)
Definition contains (v : value) (key : string) : Py.result bool :=
  match v with
  | Obj kv => Py.Ok (match assoc key kv with Some _ => true | None => false end)
  | Arr l => Py.Ok (existsb (fun x => eq_str x key) l)
  | Str s => Py.Ok (match String.index 0 key s with Some _ => true | None => false end)
  | _ => Py.Raise (Py.OtherException
                     ("argument of type '" ++ type_name v ++ "' is not iterable"))
  end.

(** [v[key]] for a string [key]. *)
Definition getitem (v : value) (key : string) : Py.result value :=
  match v with
  | Obj kv =>
      match assoc key kv with
      | Some x => Py.Ok x
      | None => Py.Raise (Py.OtherException ("'" ++ key ++ "'"))
      end
  | Arr _ => Py.Raise (Py.OtherException
                         "list indices must be integers or slices, not str")
  | Str _ => Py.Raise (Py.OtherException
                         "string indices must be integers, not 'str'")
  | _ => Py.Raise (Py.OtherException
                     ("'" ++ type_name v ++ "' object is not subscriptable"))
  end.

End Json.

(** ** hashlib.md5 (RFC 1321) *)

Module Md5.

Definition add32 (a b : Z) : Z := (a + b) mod 2 ^ 32.

Definition not32 (x : Z) : Z := Z.lxor x 0xFFFFFFFF.

Definition rotl32 (x c : Z) : Z :=
  Z.lor (Z.shiftl x c mod 2 ^ 32) (Z.shiftr x (32 - c)).

Definition K : list Z :=
  [ 0xd76aa478; 0xe8c7b756; 0x242070db; 0xc1bdceee;
    0xf57c0faf; 0x4787c62a; 0xa8304613; 0xfd469501;
    0x698098d8; 0x8b44f7af; 0xffff5bb1; 0x895cd7be;
    0x6b901122; 0xfd987193; 0xa679438e; 0x49b40821;
    0xf61e2562; 0xc040b340; 0x265e5a51; 0xe9b6c7aa;
    0xd62f105d; 0x02441453; 0xd8a1e681; 0xe7d3fbc8;
    0x21e1cde6; 0xc33707d6; 0xf4d50d87; 0x455a14ed;
    0xa9e3e905; 0xfcefa3f8; 0x676f02d9; 0x8d2a4c8a;
    0xfffa3942; 0x8771f681; 0x6d9d6122; 0xfde5380c;
    0xa4beea44; 0x4bdecfa9; 0xf6bb4b60; 0xbebfbc70;
    0x289b7ec6; 0xeaa127fa; 0xd4ef3085; 0x04881d05;
    0xd9d4d039; 0xe6db99e5; 0x1fa27cf8; 0xc4ac5665;
    0xf4292244; 0x432aff97; 0xab9423a7; 0xfc93a039;
    0x655b59c3; 0x8f0ccc92; 0xffeff47d; 0x85845dd1;
    0x6fa87e4f; 0xfe2ce6e0; 0xa3014314; 0x4e0811a1;
    0xf7537e82; 0xbd3af235; 0x2ad7d2bb; 0xeb86d391 ].

Definition shifts : list Z :=
  [ 7; 12; 17; 22; 7; 12; 17; 22; 7; 12; 17; 22; 7; 12; 17; 22;
    5; 9; 14; 20; 5; 9; 14; 20; 5; 9; 14; 20; 5; 9; 14; 20;
    4; 11; 16; 23; 4; 11; 16; 23; 4; 11; 16; 23; 4; 11; 16; 23;
    6; 10; 15; 21; 6; 10; 15; 21; 6; 10; 15; 21; 6; 10; 15; 21 ].

Definition regs : Type := (Z * Z * Z * Z)%type.

Definition init : regs := (0x67452301, 0xefcdab89, 0x98badcfe, 0x10325476).

Definition round (M : list Z) (r : regs) (i : nat) : regs :=
  let '(a, b, c, d) := r in
  let '(f, g) :=
    if (i <? 16)%nat then
      (Z.lor (Z.land b c) (Z.land (not32 b) d), i)
    else if (i <? 32)%nat then
      (Z.lor (Z.land d b) (Z.land (not32 d) c), ((5 * i + 1) mod 16)%nat)
    else if (i <? 48)%nat then
      (Z.lxor b (Z.lxor c d), ((3 * i + 5) mod 16)%nat)
    else
      (Z.lxor c (Z.lor b (not32 d)), ((7 * i) mod 16)%nat) in
  let f' := add32 (add32 (add32 f a) (nth i K 0)) (nth g M 0) in
  (d, add32 b (rotl32 f' (nth i shifts 0)), b, c).

(** Little-endian 32-bit words of a 64-byte chunk. *)
Fixpoint words (n : nat) (bs : list Z) : list Z :=
  match n with
  | O => []
  | S n' =>
      match bs with
      | b0 :: b1 :: b2 :: b3 :: rest =>
          (b0 + 2 ^ 8 * b1 + 2 ^ 16 * b2 + 2 ^ 24 * b3) :: words n' rest
      | _ => []
      end
  end.

Definition compress (r : regs) (chunk : list Z) : regs :=
  let M := words 16 chunk in
  let '(a, b, c, d) := fold_left (round M) (seq 0 64) r in
  let '(a0, b0, c0, d0) := r in
  (add32 a0 a, add32 b0 b, add32 c0 c, add32 d0 d).

Fixpoint chunks (n : nat) (bs : list Z) : list (list Z) :=
  match n with
  | O => []
  | S n' => firstn 64 bs :: chunks n' (skipn 64 bs)
  end.

Definition le_bytes (n : nat) (x : Z) : list Z :=
  map (fun i => (x / 2 ^ (8 * Z.of_nat i)) mod 256) (seq 0 n).

Definition pad (bs : list Z) : list Z :=
  let l := Z.of_nat (List.length bs) in
  (bs ++ [0x80] ++ repeat 0 (Z.to_nat ((55 - l) mod 64))
      ++ le_bytes 8 ((8 * l) mod 2 ^ 64))%list.

Definition digest_regs (bs : list Z) : regs :=
  let p := pad bs in
  fold_left compress (chunks (List.length p / 64) p) init.

Definition hex_digit (n : Z) : ascii :=
  nth (Z.to_nat n) (list_ascii_of_string "0123456789abcdef") "0"%char.

Definition hex_byte (b : Z) : string :=
  String (hex_digit (b / 16)) (String (hex_digit (b mod 16)) "").

Definition hex_word (w : Z) : string :=
  match le_bytes 4 w with
  | [b0; b1; b2; b3] => hex_byte b0 ++ hex_byte b1 ++ hex_byte b2 ++ hex_byte b3
  | _ => ""
  end.

Definition bytes_of_string (s : string) : list Z :=
  map (fun c => Z.of_nat (nat_of_ascii c)) (list_ascii_of_string s).

(** [hashlib.md5(data).hexdigest()], [data] being the bytes of [s]. *)
Definition hexdigest (s : string) : string :=
  let '(a, b, c, d) := digest_regs (bytes_of_string s) in
  hex_word a ++ hex_word b ++ hex_word c ++ hex_word d.

End Md5.

(** ** openai_compatible_api.py: the quantized-hash fallback *)

Module OpenAICompat.

(** An integer operand of a float division is converted to a float; the
    operands here are bytes, far below 2^53, so the conversion is exact. *)
Definition float_of_int (n : Z) : float := PrimFloat.of_uint63 (Uint63.of_Z n).

(** [b / 127.5 - 1.0] *)
Definition unit_of_byte (b : Z) : float :=
  (float_of_int b / 127.5 - 1.0)%float.

(** Line 53: the window of the digest at offset [i]. *)
Definition hex_slice (hex_digest : string) (i : Z) : string :=
  if (i + 8 <=? Py.len hex_digest)%Z then Py.slice hex_digest i (i + 8)
  else Py.slice_from hex_digest i
         ++ Py.str_mul "0" (8 - (Py.len hex_digest - i)).

(** Lines 54-57: [int(hex_slice, 16)], 0 on [ValueError]. *)
Definition hash_val (hex_digest : string) (i : Z) : Z :=
  match Py.int16 (hex_slice hex_digest i) with
  | Some v => v
  | None => 0
  end.

(** Lines 59-64: the four floats one window contributes. *)
Definition block (h : Z) : list float :=
  [ unit_of_byte (Z.land (Z.shiftr h 24) 0xFF);
    unit_of_byte (Z.land (Z.shiftr h 16) 0xFF);
    unit_of_byte (Z.land (Z.shiftr h 8) 0xFF);
    unit_of_byte (Z.land h 0xFF) ].

Definition embedding_of_digest (hex_digest : string) : list float :=
  let embedding :=
    flat_map (fun i => block (hash_val hex_digest i)) (Py.range 0 2560 4) in
  firstn 2560 embedding.

(** [get_fallback_embeddings(text)]; the [print] of line 44 is not
    modelled. *)
Definition get_fallback_embeddings (text : string) : list float :=
  embedding_of_digest (Md5.hexdigest text).

End OpenAICompat.

(** ** embedding_service.py *)

(** The arithmetic the service does on vector components.  The program
    runs it on binary64 floats ([ieee754]); [exact] is the same arithmetic
    on real numbers, used to say what normalisation achieves when rounding
    is left out. *)
Class Arith (F : Type) : Type := {
  zero : F;
  add : F -> F -> F;
  mul : F -> F -> F;
  div : F -> F -> F;
  sqrt : F -> F
}.

#[export] Instance ieee754 : Arith float := {
  zero := 0%float;
  add := PrimFloat.add;
  mul := PrimFloat.mul;
  div := PrimFloat.div;
  sqrt := PrimFloat.sqrt
}.

#[export] Instance exact : Arith R := {
  zero := 0%R;
  add := Rplus;
  mul := Rmult;
  div := Rdiv;
  sqrt := R_sqrt.sqrt
}.

Module Np.

Section Linalg.
Context {F : Type} `{Arith F}.

(** [np.linalg.norm(v)] of a one-dimensional array: the square root of the
    dot product of [v] with itself (accumulated left to right here; numpy
    leaves the order to BLAS). *)
Definition linalg_norm (v : list F) : F :=
  sqrt (fold_left (fun acc x => add acc (mul x x)) v zero).

(** [v / c]: every component divided by the scalar.  On floats a zero
    divisor gives [nan] or an infinity and a warning, never an exception. *)
Definition div_scalar (v : list F) (c : F) : list F :=
  map (fun x => div x c) v.

End Linalg.

End Np.

Module EmbeddingService.

(** The module-level variables the functions declare [global]. *)
Record globals : Type := {
  model_type : string;
  model_device : string;
  (** only ever assigned 2560 or a [len(...)], hence a [nat] *)
  QWEN3_EMBEDDING_DIM : nat
}.

(** Lines 45-46 and 177. *)
Definition initial_globals : globals :=
  {| model_type := "sentence_transformers";
     model_device := "cpu";
     QWEN3_EMBEDDING_DIM := 2560 |}.

(** What a POST to Ollama's /api/embeddings comes to, as far as the
    program looks at it. *)
Inductive ollama_reply (F : Type) : Type :=
| RequestFailed (msg : string)
    (** [requests.post] or [raise_for_status] raised a [RequestException] *)
| BodyWithoutEmbedding
    (** a JSON object without the key "embedding" *)
| BodyEmbedding (v : list F)
    (** a JSON object whose "embedding" is the list of numbers [v] *)
| BodyUnusable (msg : string).
    (** anything else (a body that is no object, an "embedding" that is no
        list of numbers): some operation on it raises a [TypeError] or the
        like *)
Arguments RequestFailed {F} msg.
Arguments BodyWithoutEmbedding {F}.
Arguments BodyEmbedding {F} v.
Arguments BodyUnusable {F} msg.

(** What the test POST of [load_model] comes to: an exception of
    [requests.post], [raise_for_status] or [response.json()], or the
    decoded body. *)
Inductive probe_reply : Type :=
| ProbeFailed (e : Py.exn)
| ProbeBody (test_result : Json.value).

Record EmbeddingRequest : Type := {
  text : string;
  model_name : option string
}.

(** [processing_time_ms], a wall-clock reading, is left out. *)
Record EmbeddingResponse (F : Type) : Type := {
  embedding : list F;
  model : string;
  dimension : Z
}.
Arguments embedding {F} _.
Arguments model {F} _.
Arguments dimension {F} _.

Section Service.
Context {F : Type} `{Arith F}.

(** numpy's global generator: its state, [np.random.seed(seed)], which
    replaces the state whatever it was, and [np.random.normal(0, 0.1, n)],
    which draws [n] samples and advances the state. *)
Variable rng : Type.
Variable np_random_seed : Z -> rng.
Variable np_random_normal : rng -> nat -> list F * rng.

(** The environment variable MODEL_NAME (line 52). *)
Variable MODEL_NAME : string.

(** Lines 96-111.  The state of numpy's generator is threaded through. *)
Definition deterministic_embedding (text : string) (dimension : Z) (g : rng)
  : Py.result (list F) * rng :=
  let hexdigest := Md5.hexdigest text in
  match Py.int16 (Py.slice hexdigest 0 8) with
  | None => (Py.Raise (Py.OtherException "invalid literal for int() with base 16"), g)
  | Some seed =>
      let g1 := np_random_seed seed in
      if (dimension <? 0)%Z then
        (Py.Raise (Py.OtherException "negative dimensions are not allowed"), g1)
      else
        let '(vector, g2) := np_random_normal g1 (Z.to_nat dimension) in
        (Py.Ok (Np.div_scalar vector (Np.linalg_norm vector)), g2)
  end.

(** Lines 212-218. *)
Definition reconcile (target_dim : nat) (embedding_vector : list F) : list F :=
  if (target_dim <? List.length embedding_vector)%nat then
    firstn target_dim embedding_vector
  else if (List.length embedding_vector <? target_dim)%nat then
    (embedding_vector
       ++ repeat zero (target_dim - List.length embedding_vector))%list
  else embedding_vector.

(** Lines 186-234: the body of the [try]. *)
Definition get_embeddings_try (st : globals) (ollama : string -> ollama_reply F)
    (text : string) (g : rng) : Py.result (list F) * rng :=
  let '(r, g1) :=
    if (model_type st =? "ollama_qwen3")%string then
      match ollama text with
      | RequestFailed m => (Py.Raise (Py.RequestException m), g)
      | BodyUnusable m => (Py.Raise (Py.OtherException m), g)
      | BodyWithoutEmbedding =>
          (Py.Raise (Py.OtherException "No embedding returned from Ollama API"), g)
      | BodyEmbedding embedding_vector =>
          (Py.Ok (reconcile (QWEN3_EMBEDDING_DIM st) embedding_vector), g)
      end
    else deterministic_embedding text 2560 g in
  match r with
  | Py.Ok embedding_vector =>
      (Py.Ok (Np.div_scalar embedding_vector (Np.linalg_norm embedding_vector)), g1)
  | Py.Raise e => (Py.Raise e, g1)
  end.

(** Lines 179-245. *)
Definition get_embeddings (st : globals) (ollama : string -> ollama_reply F)
    (text : string) (g : rng) : Py.result (list F) * rng :=
  if negb (model_type st =? "ollama_qwen3")%string then
    (Py.Raise (Py.HTTPException 503 "Ollama Qwen3 model not loaded"), g)
  else
    match get_embeddings_try st ollama text g with
    | (Py.Ok embedding_final, g1) => (Py.Ok embedding_final, g1)
    | (Py.Raise (Py.RequestException _), g1) =>
        deterministic_embedding text 2560 g1
    | (Py.Raise _, g1) =>
        deterministic_embedding text 2560 g1
    end.

(** Lines 288-309: the handler of POST /embed. *)
Definition create_embedding (st : globals) (ollama : string -> ollama_reply F)
    (request : EmbeddingRequest) (g : rng)
  : Py.result (EmbeddingResponse F) * rng :=
  match get_embeddings st ollama (text request) g with
  | (Py.Ok e, g1) =>
      (Py.Ok {| embedding := e;
                model := match model_name request with
                         | Some m =>
                             if (m =? "")%string
                             then MODEL_NAME ++ "_" ++ model_type st
                             else m
                         | None => MODEL_NAME ++ "_" ++ model_type st
                         end;
                dimension := Z.of_nat (List.length e) |}, g1)
  | (Py.Raise e, g1) =>
      (Py.Raise (Py.HTTPException 500 (Py.str_of_exn e)), g1)
  end.

(** Lines 119-174 (the second [load_model], which replaces the first).
    [version] is the outcome of GET /api/version ([Some msg] when the
    request or its status check raised a [RequestException]), [probe] is the
    reply to the test embedding of "test", [cuda] is
    [torch.cuda.is_available()].  Of the probe's embedding only its [len]
    is taken. *)
Definition load_model (version : option string) (probe : probe_reply)
    (cuda : bool) (st : globals) : Py.result globals :=
  let connection_failed m :=
    Py.Raise (Py.OtherException ("Ollama API connection failed: " ++ m)) in
  let verification_failed m :=
    Py.Raise (Py.OtherException ("Qwen3 model verification failed: " ++ m)) in
  match version with
  | Some m => connection_failed m
  | None =>
      match probe with
      | ProbeFailed (Py.RequestException m) => connection_failed m
      | ProbeFailed e => verification_failed (Py.str_of_exn e)
      | ProbeBody test_result =>
          match Json.contains test_result "embedding" with
          | Py.Raise e => verification_failed (Py.str_of_exn e)
          | Py.Ok false =>
              verification_failed "No embedding returned from test call"
          | Py.Ok true =>
              match Json.getitem test_result "embedding" with
              | Py.Raise e => verification_failed (Py.str_of_exn e)
              | Py.Ok embedding =>
                  match Json.len embedding with
                  | Py.Raise e => verification_failed (Py.str_of_exn e)
                  | Py.Ok embedding_dim =>
                      Py.Ok {| model_type := "ollama_qwen3";
                               model_device := if cuda then "cuda" else "cpu";
                               QWEN3_EMBEDDING_DIM := Z.to_nat embedding_dim |}
                  end
              end
          end
      end
  end.

(** Lines 247-255: a failed probe is logged and the globals stay as they
    were. *)
Definition startup_event (version : option string) (probe : probe_reply)
    (cuda : bool) (st : globals) : globals :=
  match load_model version probe cuda st with
  | Py.Ok st' => st'
  | Py.Raise _ => st
  end.

End Service.

(** The status line of the HTTP response FastAPI makes of a handler's
    outcome. *)
Definition http_status {A : Type} (r : Py.result A) : Z :=
  match r with
  | Py.Ok _ => 200
  | Py.Raise (Py.HTTPException c _) => c
  | Py.Raise _ => 500
  end.

End EmbeddingService.

(** ** The outside world of the two stdio bridges *)

Module Mcp.

Record http_request : Type := {
  verb : string;
  url : string;
  body : option Json.value
}.

(** What an aiohttp request followed by [await response.json()] comes to:
    an exception (connection refused, a body that is not JSON ...) or the
    decoded body. *)
Inductive http_reply : Type :=
| HttpError (msg : string)
| HttpJson (data : Json.value).

(** What [json.loads(text)] comes to: the value decoded, the
    [json.JSONDecodeError] raised for a text that is not JSON, or another
    exception ([RecursionError] for a text nested deeper than the
    interpreter's limit, [ValueError] for an integer literal with more
    digits than the interpreter converts). *)
Inductive loads_result : Type :=
| Loaded (v : Json.value)
| JSONDecodeError
| LoadsRaised (e : Py.exn).

(** Everything the bridges take from outside the repository. *)
Class Outside : Type := {
  (** the state of the services behind HTTP and of the clock *)
  world : Type;
  http : http_request -> world -> http_reply * world;
  (** [datetime.now().isoformat()] *)
  now_isoformat : world -> string * world;
  json_loads : string -> loads_result;
  json_dumps : Json.value -> string;
  (** [str(v)] of a value that is not a string, as an f-string prints it *)
  str_of_value : Json.value -> string
}.

Section Monad.
Context `{Outside}.

(** The state a bridge runs in: the outside world, and the requests it
    has sent so far (oldest first). *)
Record state : Type := {
  outside : world;
  sent : list http_request
}.

(** A computation that may raise and that acts on the state; what it did
    before it raised stays done. *)
Definition M (A : Type) : Type := state -> Py.result A * state.

Definition ret {A : Type} (a : A) : M A := fun s => (Py.Ok a, s).

Definition bind {A B : Type} (m : M A) (k : A -> M B) : M B :=
  fun s =>
    match m s with
    | (Py.Ok a, s') => k a s'
    | (Py.Raise e, s') => (Py.Raise e, s')
    end.

Definition lift {A : Type} (r : Py.result A) : M A := fun s => (r, s).

(** [try: m  except Exception as e: handler e] *)
Definition try_except {A : Type} (m : M A) (handler : Py.exn -> M A) : M A :=
  fun s =>
    match m s with
    | (Py.Ok a, s') => (Py.Ok a, s')
    | (Py.Raise e, s') => handler e s'
    end.

(** One request through an [aiohttp.ClientSession], its body decoded. *)
Definition request_json (v u : string) (b : option Json.value) : M Json.value :=
  fun s =>
    let q := {| verb := v; url := u; body := b |} in
    let '(reply, w) := http q (outside s) in
    let s' := {| outside := w; sent := (sent s ++ [q])%list |} in
    match reply with
    | HttpError msg => (Py.Raise (Py.OtherException msg), s')
    | HttpJson data => (Py.Ok data, s')
    end.

Definition now : M Json.value :=
  fun s =>
    let '(t, w) := now_isoformat (outside s) in
    (Py.Ok (Json.Str t), {| outside := w; sent := sent s |}).

(** [f'{v}'] *)
Definition format (v : Json.value) : string :=
  match v with
  | Json.Str s => s
  | _ => str_of_value v
  end.

(** The body of the [try] of [main] once the line is parsed: lines 161-171
    of qdrant_mcp_server.py, 109-119 of localai_mcp_server.py.  The result
    is the line printed. *)
Definition respond (handle_request : Json.value -> Json.value -> M Json.value)
    (request : Json.value) : M string :=
  bind (lift (Json.get request "method" (Json.Str ""))) (fun method =>
  bind (lift (Json.get request "params" (Json.Obj []))) (fun params =>
  bind (handle_request method params) (fun result =>
  bind (lift (Json.get request "id" Json.Null)) (fun id =>
  ret (json_dumps (Json.Obj [("jsonrpc", Json.Str "2.0");
                             ("id", id);
                             ("result", result)])))))).

(** The line printed by the last [except] clause of [main]. *)
Definition error_response (e : Py.exn) : string :=
  json_dumps (Json.Obj [("jsonrpc", Json.Str "2.0");
                        ("id", Json.Null);
                        ("error", Json.Obj [("message", Json.Str (Py.str_of_exn e))])]).

(** The loop of [main], which the two servers share word for word.
    [stdin] lists what the successive calls of [readline] return; once the
    list is used up [readline] returns the empty string (end of input).
    The result is the lines printed on standard output, in order. *)
Fixpoint main_loop (handle_request : Json.value -> Json.value -> M Json.value)
    (stdin : list string) (s : state) : list string * state :=
  match stdin with
  | [] => ([], s)
  | line :: rest =>
      if (line =? "")%string then ([], s)
      else
        match json_loads (Py.strip line) with
        | JSONDecodeError => main_loop handle_request rest s
        | LoadsRaised e =>
            let '(later, s2) := main_loop handle_request rest s in
            (error_response e :: later, s2)
        | Loaded request =>
            let '(r, s1) := respond handle_request request s in
            let printed :=
              match r with
              | Py.Ok out => out
              | Py.Raise e => error_response e
              end in
            let '(later, s2) := main_loop handle_request rest s1 in
            (printed :: later, s2)
        end
  end.

End Monad.

Declare Scope mcp_scope.
Delimit Scope mcp_scope with mcp.
Notation "x <- m ;; k" := (bind m (fun x => k))
  (at level 61, m at next level, right associativity) : mcp_scope.

(** [{'error': msg}] *)
Definition error_dict (msg : string) : Json.value :=
  Json.Obj [("error", Json.Str msg)].

End Mcp.

(** ** localai_mcp_server.py *)

Module LocalAI.
Import Mcp.
Local Open Scope mcp_scope.

Section Server.
Context `{Outside}.

(** Line 16. *)
Definition base_url : string := "http://localhost:8000".

(** [len(embeddings[0].get('embedding', [])) if embeddings else 0] *)
Definition first_dimension (embeddings : Json.value) : M Json.value :=
  if Json.truthy embeddings then
    e0 <- lift (Json.item0 embeddings) ;;
    v <- lift (Json.get e0 "embedding" (Json.Arr [])) ;;
    n <- lift (Json.len v) ;;
    ret (Json.Int n)
  else ret (Json.Int 0).

(** Lines 33-46. *)
Definition health_check : M Json.value :=
  try_except
    (data <- request_json "GET" (base_url ++ "/health") None ;;
     ts <- now ;;
     ret (Json.Obj [("status", Json.Str "ok");
                    ("service", Json.Str "localai_embedding_service");
                    ("endpoint", Json.Str base_url);
                    ("health_data", data);
                    ("timestamp", ts)]))
    (fun e => ret (error_dict ("Health check failed: " ++ Py.str_of_exn e))).

(** Lines 48-63. *)
Definition generate_embeddings (texts : Json.value) : M Json.value :=
  try_except
    (let payload := Json.Obj [("texts", texts)] in
     data <- request_json "POST" (base_url ++ "/embeddings") (Some payload) ;;
     embeddings <- lift (Json.get data "embeddings" (Json.Arr [])) ;;
     count <- lift (Json.len embeddings) ;;
     dim <- first_dimension embeddings ;;
     model <- lift (Json.get data "model" (Json.Str "unknown")) ;;
     ts <- now ;;
     ret (Json.Obj [("embeddings", embeddings);
                    ("count", Json.Int count);
                    ("dimension", dim);
                    ("model", model);
                    ("timestamp", ts)]))
    (fun e => ret (error_dict ("Generate embeddings failed: " ++ Py.str_of_exn e))).

(** Lines 65-80. *)
Definition generate_single_embedding (text : Json.value) : M Json.value :=
  try_except
    (let payload := Json.Obj [("texts", Json.Arr [text])] in
     data <- request_json "POST" (base_url ++ "/embeddings") (Some payload) ;;
     embeddings <- lift (Json.get data "embeddings" (Json.Arr [])) ;;
     embedding <-
       (if Json.truthy embeddings then
          e0 <- lift (Json.item0 embeddings) ;;
          lift (Json.get e0 "embedding" (Json.Arr []))
        else ret (Json.Arr [])) ;;
     dim <- first_dimension embeddings ;;
     model <- lift (Json.get data "model" (Json.Str "unknown")) ;;
     ts <- now ;;
     ret (Json.Obj [("embedding", embedding);
                    ("text", text);
                    ("dimension", dim);
                    ("model", model);
                    ("timestamp", ts)]))
    (fun e => ret (error_dict
                     ("Generate single embedding failed: " ++ Py.str_of_exn e))).

(** Lines 82-94. *)
Definition get_models : M Json.value :=
  try_except
    (data <- request_json "GET" (base_url ++ "/models") None ;;
     models <- lift (Json.get data "models" (Json.Arr [])) ;;
     current <- lift (Json.get data "current_model" (Json.Str "unknown")) ;;
     ts <- now ;;
     ret (Json.Obj [("models", models);
                    ("current_model", current);
                    ("status", Json.Str "ok");
                    ("timestamp", ts)]))
    (fun e => ret (error_dict ("Get models failed: " ++ Py.str_of_exn e))).

(** The methods the [if]/[elif] chain of [handle_request] knows. *)
Definition methods : list string :=
  ["embedding_health"; "embedding_generate"; "embedding_generate_single";
   "embedding_models"].

(** Lines 20-29: the body of the [try] of [handle_request]. *)
Definition handle_request_try (method params : Json.value) : M Json.value :=
  if Json.eq_str method "embedding_health" then health_check
  else if Json.eq_str method "embedding_generate" then
    texts <- lift (Json.get params "texts" (Json.Arr [])) ;;
    generate_embeddings texts
  else if Json.eq_str method "embedding_generate_single" then
    text <- lift (Json.get params "text" (Json.Str "")) ;;
    generate_single_embedding text
  else if Json.eq_str method "embedding_models" then get_models
  else ret (error_dict ("Unknown method: " ++ format method)).

(** Lines 18-31. *)
Definition handle_request (method params : Json.value) : M Json.value :=
  try_except (handle_request_try method params)
    (fun e => ret (error_dict (Py.str_of_exn e))).

(** Lines 96-130. *)
Definition main (stdin : list string) (s : state) : list string * state :=
  main_loop handle_request stdin s.

End Server.
End LocalAI.

(** ** qdrant_mcp_server.py *)

Module Qdrant.
Import Mcp.
Local Open Scope mcp_scope.

Section Server.
Context `{Outside}.

(** Lines 16-17. *)
Definition base_url : string := "http://localhost:6333".
Definition collection_name : string := "ai_communication_vectors".

(** [len(data.get('result', {}).get('collections', []))] and its operand. *)
Definition collections_of (data : Json.value) : M Json.value :=
  r <- lift (Json.get data "result" (Json.Obj [])) ;;
  lift (Json.get r "collections" (Json.Arr [])).

(** Lines 38-51. *)
Definition health_check : M Json.value :=
  try_except
    (data <- request_json "GET" (base_url ++ "/collections") None ;;
     c <- collections_of data ;;
     n <- lift (Json.len c) ;;
     ts <- now ;;
     ret (Json.Obj [("status", Json.Str "ok");
                    ("service", Json.Str "qdrant_vector_db");
                    ("endpoint", Json.Str base_url);
                    ("collections_count", Json.Int n);
                    ("timestamp", ts)]))
    (fun e => ret (error_dict ("Health check failed: " ++ Py.str_of_exn e))).

(** Lines 53-64. *)
Definition list_collections : M Json.value :=
  try_except
    (data <- request_json "GET" (base_url ++ "/collections") None ;;
     c <- collections_of data ;;
     c' <- collections_of data ;;
     n <- lift (Json.len c') ;;
     ret (Json.Obj [("collections", c);
                    ("count", Json.Int n);
                    ("status", Json.Str "ok")]))
    (fun e => ret (error_dict ("List collections failed: " ++ Py.str_of_exn e))).

(** Lines 66-84. *)
Definition create_collection (name : Json.value) : M Json.value :=
  try_except
    (let payload :=
       Json.Obj [("vectors", Json.Obj [("size", Json.Int 384);
                                       ("distance", Json.Str "Cosine")])] in
     data <- request_json "PUT" (base_url ++ "/collections/" ++ format name)
               (Some payload) ;;
     status <- lift (Json.get data "status" (Json.Str "unknown")) ;;
     result <- lift (Json.get data "result" (Json.Obj [])) ;;
     ts <- now ;;
     ret (Json.Obj [("collection", name);
                    ("status", status);
                    ("result", result);
                    ("created_at", ts)]))
    (fun e => ret (error_dict ("Create collection failed: " ++ Py.str_of_exn e))).

(** Lines 91-97: the loop over [enumerate(zip(vectors, metadata))], [i]
    being the index of the first pair. *)
Fixpoint points_from (i : Z) (pairs : list (Json.value * Json.value))
  : list Json.value :=
  match pairs with
  | [] => []
  | (vector, meta) :: rest =>
      Json.Obj [("id", Json.Int (i + 1)); ("vector", vector); ("payload", meta)]
        :: points_from (i + 1) rest
  end.

(** Lines 88-97: the points one call sends. *)
Definition build_points (vectors metadata : Json.value)
  : Py.result (list Json.value) :=
  match
    (match metadata with
     | Json.Null =>
         match Json.len vectors with
         | Py.Ok n => Py.Ok (Json.Arr (repeat (Json.Obj []) (Z.to_nat n)))
         | Py.Raise e => Py.Raise e
         end
     | _ => Py.Ok metadata
     end)
  with
  | Py.Raise e => Py.Raise e
  | Py.Ok metadata' =>
      match Json.zip vectors metadata' with
      | Py.Raise e => Py.Raise e
      | Py.Ok pairs => Py.Ok (points_from 0 pairs)
      end
  end.

Definition points_url : string :=
  base_url ++ "/collections/" ++ collection_name ++ "/points".

(** Lines 86-111; [metadata] is [Json.Null] when the caller passes [None]
    or leaves the argument out. *)
Definition insert_vectors (vectors metadata : Json.value) : M Json.value :=
  try_except
    (points <- lift (build_points vectors metadata) ;;
     let payload := Json.Obj [("points", Json.Arr points)] in
     data <- request_json "PUT" points_url (Some payload) ;;
     n <- lift (Json.len vectors) ;;
     status <- lift (Json.get data "status" (Json.Str "unknown")) ;;
     result <- lift (Json.get data "result" (Json.Obj [])) ;;
     ts <- now ;;
     ret (Json.Obj [("inserted_count", Json.Int n);
                    ("collection", Json.Str collection_name);
                    ("status", status);
                    ("result", result);
                    ("timestamp", ts)]))
    (fun e => ret (error_dict ("Insert vectors failed: " ++ Py.str_of_exn e))).

(** Lines 113-133. *)
Definition search_vectors (query_vector limit : Json.value) : M Json.value :=
  try_except
    (let payload := Json.Obj [("vector", query_vector);
                              ("limit", limit);
                              ("with_payload", Json.Bool true)] in
     data <- request_json "POST"
               (base_url ++ "/collections/" ++ collection_name ++ "/points/search")
               (Some payload) ;;
     results <- lift (Json.get data "result" (Json.Arr [])) ;;
     found <- lift (Json.len results) ;;
     dim <- lift (Json.len query_vector) ;;
     ts <- now ;;
     ret (Json.Obj [("search_results", results);
                    ("found_count", Json.Int found);
                    ("query_vector_dimension", Json.Int dim);
                    ("limit", limit);
                    ("collection", Json.Str collection_name);
                    ("timestamp", ts)]))
    (fun e => ret (error_dict ("Search vectors failed: " ++ Py.str_of_exn e))).

(** Lines 135-146. *)
Definition get_collections_info : M Json.value :=
  try_except
    (data <- request_json "GET" (base_url ++ "/collections/" ++ collection_name)
               None ;;
     info <- lift (Json.get data "result" (Json.Obj [])) ;;
     ts <- now ;;
     ret (Json.Obj [("collection_info", info);
                    ("status", Json.Str "ok");
                    ("timestamp", ts)]))
    (fun e => ret (error_dict
                     ("Get collections info failed: " ++ Py.str_of_exn e))).

(** The methods the [if]/[elif] chain of [handle_request] knows. *)
Definition methods : list string :=
  ["qdrant_health"; "qdrant_collections"; "qdrant_create_collection";
   "qdrant_insert_vectors"; "qdrant_search"; "qdrant_collections_info"].

(** Lines 21-34: the body of the [try] of [handle_request]. *)
Definition handle_request_try (method params : Json.value) : M Json.value :=
  if Json.eq_str method "qdrant_health" then health_check
  else if Json.eq_str method "qdrant_collections" then list_collections
  else if Json.eq_str method "qdrant_create_collection" then
    name <- lift (Json.get params "collection_name" (Json.Str collection_name)) ;;
    create_collection name
  else if Json.eq_str method "qdrant_insert_vectors" then
    vectors <- lift (Json.get params "vectors" (Json.Arr [])) ;;
    metadata <- lift (Json.get params "metadata" (Json.Arr [])) ;;
    insert_vectors vectors metadata
  else if Json.eq_str method "qdrant_search" then
    query_vector <- lift (Json.get params "query_vector" (Json.Arr [])) ;;
    limit <- lift (Json.get params "limit" (Json.Int 5)) ;;
    search_vectors query_vector limit
  else if Json.eq_str method "qdrant_collections_info" then get_collections_info
  else ret (error_dict ("Unknown method: " ++ format method)).

(** Lines 19-36. *)
Definition handle_request (method params : Json.value) : M Json.value :=
  try_except (handle_request_try method params)
    (fun e => ret (error_dict (Py.str_of_exn e))).

(** Lines 148-182. *)
Definition main (stdin : list string) (s : state) : list string * state :=
  main_loop handle_request stdin s.

End Server.
End Qdrant.

(** ** The specification's reading of the quantized-hash fallback *)

Module QuantizedHashSpec.

(** The 32-bit value of an 8-character window, 0 when it is no number. *)
Definition window_value (w : string) : Z :=
  match Py.int16 w with
  | Some v => v
  | None => 0
  end.

(** The window of block [k] when an exhausted digest is continued with the
    character "0". *)
Definition padded_window (hex_digest : string) (k : nat) : string :=
  string_of_list_ascii
    (map (fun t => nth (4 * k + t) (list_ascii_of_string hex_digest) "0"%char)
         (seq 0 8)).

(** The window of block [k] when an exhausted digest is recycled, that is
    read again from its start. *)
Definition cyclic_window (hex_digest : string) (k : nat) : string :=
  string_of_list_ascii
    (map (fun t => nth ((4 * k + t) mod String.length hex_digest)
                       (list_ascii_of_string hex_digest) "0"%char)
         (seq 0 8)).

(** Byte [j] of a 32-bit value, counted from the most significant. *)
Definition byte_of (v : Z) (j : nat) : Z :=
  (v / 256 ^ (3 - Z.of_nat j)) mod 256.

(** Component [n] of the vector: byte [n mod 4] of the value of window
    [n / 4], mapped from [0, 255] to [-1, 1] by [byte / 127.5 - 1.0]. *)
Definition component (window : string -> nat -> string) (hex_digest : string)
    (n : nat) : float :=
  OpenAICompat.unit_of_byte
    (byte_of (window_value (window hex_digest (n / 4)%nat)) (n mod 4)%nat).

(** The 2560 components. *)
Definition quantized (window : string -> nat -> string) (hex_digest : string)
  : list float :=
  map (component window hex_digest) (seq 0 2560).

(** The same vector laid out as the program builds it, block by block. *)
Definition by_blocks (window : string -> nat -> string) (hex_digest : string)
  : list float :=
  flat_map (fun k => OpenAICompat.block (window_value (window hex_digest k)))
           (seq 0 640).

(** [-1 <= x <= 1] *)
Definition in_unit_interval (x : float) : Prop :=
  PrimFloat.leb (-1)%float x = true /\ PrimFloat.leb x 1%float = true.

End QuantizedHashSpec.

(** ** Stand-ins for the outside world, to run the model on examples *)

Module Demo.

(** A generator in place of numpy's: a linear congruential sequence scaled
    into [-0.5, 0.5).  Only its interface matters to the examples. *)
Definition rng : Type := Z.

Definition np_random_seed (seed : Z) : rng := seed.

Definition sample (g : Z) : float :=
  (OpenAICompat.float_of_int ((1103515245 * g + 12345) mod 1000) / 1000 - 0.5)%float.

Definition np_random_normal (g : rng) (n : nat) : list float * rng :=
  (map (fun i => sample (g + Z.of_nat i)) (seq 0 n), g + Z.of_nat n).

(** A backend that cannot be reached. *)
Definition unreachable (_ : string) : EmbeddingService.ollama_reply float :=
  EmbeddingService.RequestFailed "connection refused".

(** A backend that answers the first request of a batch with a vector and
    cannot be reached from then on. *)
Definition going_down (k : nat) : string -> EmbeddingService.ollama_reply float :=
  match k with
  | O => fun _ => EmbeddingService.BodyEmbedding [3%float; 4%float]
  | S _ => unreachable
  end.

(** The body of a start-up probe whose embedding is the list of numbers
    [v], and a probe that cannot reach the backend. *)
Definition probe (v : list float) : EmbeddingService.probe_reply :=
  EmbeddingService.ProbeBody
    (Json.Obj [("embedding", Json.Arr (map Json.Float v))]).

Definition probe_down : EmbeddingService.probe_reply :=
  EmbeddingService.ProbeFailed (Py.RequestException "down").

(** A backend that answers every text with the zero vector of length 2. *)
Definition zero_backend (_ : string) : EmbeddingService.ollama_reply float :=
  EmbeddingService.BodyEmbedding [0%float; 0%float].

(** An outside world for the bridges: every HTTP request is answered with
    [{"status": "ok", "result": {}}], the clock stands still, the only
    text [json.loads] accepts is the request [request_line], and on a text
    that opens 100000 lists or more and holds nothing else, as [deep] does,
    it raises the [RecursionError] of the interpreter.  [json.dumps] is cut
    down to what the examples look at: the one entry of [result] or of
    [error]. *)
Definition quote : string := String (ascii_of_nat 34) "".

Definition request_line : string :=
  "{" ++ quote ++ "id" ++ quote ++ ": 1, "
      ++ quote ++ "method" ++ quote ++ ": " ++ quote ++ "bogus" ++ quote ++ "}".

Definition request_value : Json.value :=
  Json.Obj [("id", Json.Int 1); ("method", Json.Str "bogus")].

Definition deep : string := Py.str_mul "[" 100000.

Fixpoint only_opens (s : string) : bool :=
  match s with
  | EmptyString => true
  | String c s' => (c =? "[")%char && only_opens s'
  end.

Definition too_deep (s : string) : bool :=
  (100000 <=? Py.len s)%Z && only_opens s.

Definition newline : string := String (ascii_of_nat 10) "".

Definition outside : Mcp.Outside := {|
  Mcp.world := unit;
  Mcp.http := fun _ w =>
    (Mcp.HttpJson (Json.Obj [("status", Json.Str "ok"); ("result", Json.Obj [])]), w);
  Mcp.now_isoformat := fun w => ("2026-01-01T00:00:00", w);
  Mcp.json_loads := fun s =>
    if (s =? request_line)%string then Mcp.Loaded request_value
    else if too_deep s then
      Mcp.LoadsRaised
        (Py.OtherException
           "maximum recursion depth exceeded while decoding a JSON array from a unicode string")
    else Mcp.JSONDecodeError;
  Mcp.json_dumps := fun v =>
    match Json.get v "result" Json.Null with
    | Py.Ok (Json.Obj [(k, Json.Str m)]) => k ++ "=" ++ m
    | _ =>
        match Json.get v "error" Json.Null with
        | Py.Ok (Json.Obj [(k, Json.Str m)]) => k ++ "=" ++ m
        | _ => "?"
        end
    end;
  Mcp.str_of_value := fun v => Json.type_name v
|}.

Definition start : @Mcp.state outside := @Mcp.Build_state outside tt [].

End Demo.

(** ** embedding_service.py: the other endpoints *)

Module EmbeddingEndpoints.
Import EmbeddingService.

(** Line 44: the module never assigns it, so it stays [None]. *)
Definition embedding_model : option unit := None.

(** [embedding_model is not None or model_type == "deterministic"]
    (lines 267 and 284). *)
Definition model_loaded (st : globals) : bool :=
  match embedding_model with
  | Some _ => true
  | None => (model_type st =? "deterministic")%string
  end.

Record HealthResponse : Type := {
  status : string;
  loaded : bool;
  device : string
}.

(** Lines 270-286: GET /health.  [cuda] is [torch.cuda.is_available()]. *)
Definition health_check (st : globals) (cuda : bool) : HealthResponse :=
  let actual_device :=
    if String.prefix "sentence_transformers" (model_type st) then
      if cuda then "cuda" else "cpu"
    else model_device st in
  {| status := "healthy";
     loaded := model_loaded st;
     device := actual_device |}.

(** Lines 257-268: GET /. *)
Definition root (MODEL_NAME : string) (st : globals) : Json.value :=
  Json.Obj [("service", Json.Str "Qwen3 Embedding Service - GGUF");
            ("version", Json.Str "1.0.0");
            ("model", Json.Str MODEL_NAME);
            ("model_type", Json.Str (model_type st));
            ("device", Json.Str (model_device st));
            ("status", Json.Str "running");
            ("model_loaded", Json.Bool (model_loaded st))].

Section Batch.
Context {F : Type} `{Arith F}.
Variable rng : Type.
Variable np_random_seed : Z -> rng.
Variable np_random_normal : rng -> nat -> list F * rng.
Variable MODEL_NAME : string.

(** Lines 311-318: POST /embed_batch.  The requests are served one after
    the other, each by a call of [create_embedding], which posts to the
    backend anew: [ollama k] is the backend as it answers while the request
    at position [k] of the batch is served, whatever it was sent before.
    The first exception ends the loop and nothing is returned. *)
Fixpoint create_embeddings_batch (st : globals)
    (ollama : nat -> string -> ollama_reply F)
    (requests : list EmbeddingRequest)
    (g : rng) : Py.result (list (EmbeddingResponse F)) * rng :=
  match requests with
  | [] => (Py.Ok [], g)
  | request :: rest =>
      match create_embedding rng np_random_seed np_random_normal MODEL_NAME
              st (ollama 0%nat) request g with
      | (Py.Raise e, g1) => (Py.Raise e, g1)
      | (Py.Ok response, g1) =>
          match create_embeddings_batch st (fun k => ollama (S k)) rest g1 with
          | (Py.Ok responses, g2) => (Py.Ok (response :: responses), g2)
          | (Py.Raise e, g2) => (Py.Raise e, g2)
          end
      end
  end.

End Batch.

End EmbeddingEndpoints.

(** ** openai_compatible_api.py: the endpoints *)

Module OpenAIApi.

(** The fallback vector as the JSON list the endpoint returns. *)
Definition fallback_value (text : string) : Json.value :=
  Json.Arr (map Json.Float (OpenAICompat.get_fallback_embeddings text)).

(** Lines 28-36, the body of the [try].  [embed_service text] is what the
    POST of [{"text": text}] to the embedding service's /embed comes to:
    [Mcp.HttpError] when [requests.post], [raise_for_status] (a status of
    400 or more) or [response.json()] raised, the decoded body otherwise. *)
Definition get_embeddings_try (embed_service : string -> Mcp.http_reply)
    (text : string) : Py.result Json.value :=
  match embed_service text with
  | Mcp.HttpError msg => Py.Raise (Py.RequestException msg)
  | Mcp.HttpJson data => Json.get data "embedding" (Json.Arr [])
  end.

(** Lines 26-40. *)
Definition get_embeddings (embed_service : string -> Mcp.http_reply)
    (text : string) : Json.value :=
  match get_embeddings_try embed_service text with
  | Py.Ok v => v
  | Py.Raise _ => fallback_value text
  end.

Record OpenAIEmbeddingRequest : Type := {
  input : string;
  model : string;
  encoding_format : option string
}.

(** Lines 126-163: POST /embeddings; POST /v1/embeddings (lines 169-172)
    returns what this returns. *)
Definition create_embeddings_openai (embed_service : string -> Mcp.http_reply)
    (request : OpenAIEmbeddingRequest) : Py.result Json.value :=
  let embedding_vector := get_embeddings embed_service (input request) in
  let consistent_model_name := "Qwen/Qwen3-Embedding-4B-GGUF" in
  let tokens := Z.of_nat (List.length (Py.split (input request))) in
  Py.Ok (Json.Obj
           [("object", Json.Str "list");
            ("data", Json.Arr [Json.Obj [("object", Json.Str "embedding");
                                         ("embedding", embedding_vector);
                                         ("index", Json.Int 0)]]);
            ("model", Json.Str consistent_model_name);
            ("usage", Json.Obj [("prompt_tokens", Json.Int tokens);
                                ("total_tokens", Json.Int tokens)])]).

Definition create_embeddings_v1 := create_embeddings_openai.

End OpenAIApi.

(** ** Vocabulary for what the bridges do *)

Module Observe.
Import Mcp.

Section Traces.
Context `{Outside}.

(** The line is one a line is printed for: [json.loads] accepts it, or
    raises something other than [json.JSONDecodeError]. *)
Definition answered (line : string) : bool :=
  match json_loads (Py.strip line) with
  | JSONDecodeError => false
  | _ => true
  end.

(** A computation that sends nothing. *)
Definition quiet {A : Type} (m : M A) : Prop :=
  forall s, sent (snd (m s)) = sent s.

(** A computation that sends at most one request, after those already
    sent. *)
Definition at_most_one {A : Type} (m : M A) : Prop :=
  forall s,
    sent (snd (m s)) = sent s \/
    exists q, sent (snd (m s)) = (sent s ++ [q])%list.

End Traces.

(** [params.get(key, default)] on an object. *)
Definition param (kv : list (string * Json.value)) (key : string)
    (default : Json.value) : Json.value :=
  match Json.assoc key kv with
  | Some v => v
  | None => default
  end.

Definition get_request (u : string) : http_request :=
  {| verb := "GET"; url := u; body := None |}.

Definition search_request (query_vector limit : Json.value) : http_request :=
  {| verb := "POST";
     url := "http://localhost:6333/collections/ai_communication_vectors/points/search";
     body := Some (Json.Obj [("vector", query_vector);
                             ("limit", limit);
                             ("with_payload", Json.Bool true)]) |}.

Definition collections_request : http_request :=
  get_request "http://localhost:6333/collections".

Definition embeddings_request (texts : Json.value) : http_request :=
  {| verb := "POST"; url := "http://localhost:8000/embeddings";
     body := Some (Json.Obj [("texts", texts)]) |}.

End Observe.

(** ** A second stand-in: services that cannot be reached *)

Module DemoDown.

(** Every HTTP request fails with "connection refused", and the only line
    [json.loads] accepts is "[]", the empty list. *)
Definition outside : Mcp.Outside := {|
  Mcp.world := unit;
  Mcp.http := fun _ w => (Mcp.HttpError "connection refused", w);
  Mcp.now_isoformat := fun w => ("2026-01-01T00:00:00", w);
  Mcp.json_loads := fun s =>
    if (s =? "[]")%string then Mcp.Loaded (Json.Arr []) else Mcp.JSONDecodeError;
  Mcp.json_dumps := fun v =>
    match Json.get v "error" Json.Null with
    | Py.Ok (Json.Obj [(k, Json.Str m)]) => k ++ "=" ++ m
    | _ => "?"
    end;
  Mcp.str_of_value := fun v => Json.type_name v
|}.

Definition start : @Mcp.state outside := @Mcp.Build_state outside tt [].

End DemoDown.

Set Warnings "-inexact-float".

(** * Properties *)

(** ** MD5 test vectors (RFC 1321, appendix A.5, and hashlib) *)

Example md5_empty : Md5.hexdigest "" = "d41d8cd98f00b204e9800998ecf8427e".
Proof. vm_compute. reflexivity. Qed.

Example md5_abc : Md5.hexdigest "abc" = "900150983cd24fb0d6963f7d28e17f72".
Proof. vm_compute. reflexivity. Qed.

Example md5_hello_world :
  Md5.hexdigest "hello world" = "5eb63bbbe01eeed093cb22bb8f5acdc3".
Proof. vm_compute. reflexivity. Qed.

Example md5_two_blocks :
  Md5.hexdigest (Py.str_repeat "a" 64) = "014842d480b571495a4a0363793f7367".
Proof. vm_compute. reflexivity. Qed.

Example md5_pad_boundary :
  Md5.hexdigest (Py.str_repeat "a" 56) = "3b0c8ac703f828b04c6c197006d17218".
Proof. vm_compute. reflexivity. Qed.

(** ** Strings *)

Section StringFacts.

Lemma str_length_app (s t : string) :
  String.length (s ++ t) = (String.length s + String.length t)%nat.
Proof. induction s as [|c s IH]; simpl; [reflexivity | now rewrite IH]. Qed.

Lemma substring_past_end (s : string) :
  forall n m, (String.length s <= n)%nat -> substring n m s = "".
Proof.
  induction s as [|c s IH]; intros n m Hn.
  - destruct n, m; reflexivity.
  - destruct n as [|n]; simpl in Hn; [lia|].
    simpl. apply IH. lia.
Qed.

Lemma substring_prefix (s t : string) :
  substring 0 (String.length s) (s ++ t) = s.
Proof. induction s as [|c s IH]; simpl; [now destruct t | now rewrite IH]. Qed.

Lemma length_list_ascii (s : string) :
  List.length (list_ascii_of_string s) = String.length s.
Proof. induction s as [|c s IH]; simpl; [reflexivity | now rewrite IH]. Qed.

Lemma int16_acc_app (s t : string) :
  forall acc,
    Py.int16_acc acc (s ++ t) =
    match Py.int16_acc acc s with
    | Some a => Py.int16_acc a t
    | None => None
    end.
Proof.
  induction s as [|c s IH]; intros acc; simpl; [reflexivity|].
  destruct (Py.hex_value c); [apply IH | reflexivity].
Qed.

Lemma int16_acc_zeros (n : nat) :
  Py.int16_acc 0 (Py.str_repeat "0" n) = Some 0.
Proof. induction n as [|n IH]; simpl; [reflexivity | exact IH]. Qed.

Lemma int16_zeros (n : nat) :
  (0 < n)%nat -> Py.int16 (Py.str_repeat "0" n) = Some 0.
Proof.
  destruct n as [|n]; [lia|]. intros _.
  change (Py.int16 (Py.str_repeat "0" (S n)))
    with (Py.int16_acc 0 (Py.str_repeat "0" (S n))).
  apply int16_acc_zeros.
Qed.

End StringFacts.

(** ** The shape of an MD5 digest *)

Section DigestFacts.

Lemma le_bytes4 (w : Z) :
  Md5.le_bytes 4 w =
  [ (w / 2 ^ 0) mod 256; (w / 2 ^ 8) mod 256;
    (w / 2 ^ 16) mod 256; (w / 2 ^ 24) mod 256 ].
Proof. reflexivity. Qed.

Lemma hex_word_length (w : Z) : String.length (Md5.hex_word w) = 8%nat.
Proof. reflexivity. Qed.

Lemma hexdigest_length (text : string) :
  String.length (Md5.hexdigest text) = 32%nat.
Proof.
  unfold Md5.hexdigest.
  destruct (Md5.digest_regs (Md5.bytes_of_string text)) as [[[a b] c] d].
  rewrite !str_length_app, !hex_word_length. reflexivity.
Qed.

Lemma hex_value_hex_digit (n : Z) :
  0 <= n < 16 -> Py.hex_value (Md5.hex_digit n) = Some n.
Proof.
  intros Hn. rewrite <- (Z2Nat.id n) by lia.
  assert (Hk : (Z.to_nat n < 16)%nat) by lia.
  revert Hk. generalize (Z.to_nat n) as k. intros k Hk.
  do 16 (destruct k as [|k]; [reflexivity|]). lia.
Qed.

Lemma int16_acc_hex_byte (b acc : Z) (s : string) :
  0 <= b < 256 ->
  Py.int16_acc acc (Md5.hex_byte b ++ s) = Py.int16_acc (256 * acc + b) s.
Proof.
  intros Hb. unfold Md5.hex_byte. cbn [append Py.int16_acc].
  rewrite !hex_value_hex_digit.
  - f_equal. pose proof (Z.div_mod b 16 ltac:(lia)). lia.
  - apply Z.mod_pos_bound. lia.
  - split; [apply Z.div_pos; lia | apply Z.div_lt_upper_bound; lia].
Qed.

(** The first eight characters of a digest always read as a number below
    2^32: [int(hexdigest[:8], 16)] cannot raise. *)
Lemma hexdigest_seed (text : string) :
  exists seed,
    Py.int16 (Py.slice (Md5.hexdigest text) 0 8) = Some seed /\
    0 <= seed < 2 ^ 32.
Proof.
  unfold Md5.hexdigest.
  destruct (Md5.digest_regs (Md5.bytes_of_string text)) as [[[a b] c] d].
  unfold Py.slice. change (Z.to_nat 0) with 0%nat.
  change (Z.to_nat (8 - 0)) with (String.length (Md5.hex_word a)).
  rewrite substring_prefix.
  assert (B : forall i, 0 <= (a / 2 ^ i) mod 256 < 256)
    by (intros i; apply Z.mod_pos_bound; lia).
  exists (256 * (256 * (256 * (256 * 0 + (a / 2 ^ 0) mod 256)
                         + (a / 2 ^ 8) mod 256)
                  + (a / 2 ^ 16) mod 256)
          + (a / 2 ^ 24) mod 256).
  split.
  - unfold Md5.hex_word. rewrite le_bytes4.
    change (Py.int16 ?s) with (Py.int16_acc 0 s).
    rewrite 3!int16_acc_hex_byte by apply B.
    match goal with
    | |- context [Py.int16_acc ?acc (Md5.hex_byte ?x)] =>
        change (Py.int16_acc acc (Md5.hex_byte x))
          with (Py.int16_acc acc (Md5.hex_byte x ++ ""))
    end.
    rewrite int16_acc_hex_byte by apply B. reflexivity.
  - pose proof (B 0). pose proof (B 8). pose proof (B 16). pose proof (B 24).
    lia.
Qed.

Lemma hex_byte_hex (b : Z) (c : ascii) :
  0 <= b < 256 ->
  In c (list_ascii_of_string (Md5.hex_byte b)) ->
  exists v, Py.hex_value c = Some v.
Proof.
  intros Hb [E|[E|[]]]; subst c; eexists; apply hex_value_hex_digit.
  - split; [apply Z.div_pos; lia | apply Z.div_lt_upper_bound; lia].
  - apply Z.mod_pos_bound. lia.
Qed.

Lemma list_ascii_app (s t : string) :
  list_ascii_of_string (s ++ t)
  = (list_ascii_of_string s ++ list_ascii_of_string t)%list.
Proof. induction s as [|c s IH]; simpl; [reflexivity | now rewrite IH]. Qed.

Lemma hex_word_hex (w : Z) (c : ascii) :
  In c (list_ascii_of_string (Md5.hex_word w)) ->
  exists v, Py.hex_value c = Some v.
Proof.
  unfold Md5.hex_word. rewrite le_bytes4, !list_ascii_app, !in_app_iff.
  assert (B : forall i, 0 <= (w / 2 ^ i) mod 256 < 256)
    by (intros i; apply Z.mod_pos_bound; lia).
  intros [Hc|[Hc|[Hc|Hc]]]; eapply hex_byte_hex; try exact Hc; apply B.
Qed.

(** Every character of a digest is a hexadecimal digit: the conversions
    [int(..., 16)] of the program are only ever applied to digits and
    "0" padding. *)
Lemma hexdigest_hex (text : string) (c : ascii) :
  In c (list_ascii_of_string (Md5.hexdigest text)) ->
  exists v, Py.hex_value c = Some v.
Proof.
  unfold Md5.hexdigest.
  destruct (Md5.digest_regs (Md5.bytes_of_string text)) as [[[a b] c0] d].
  rewrite !list_ascii_app, !in_app_iff.
  intros [Hc|[Hc|[Hc|Hc]]]; eapply hex_word_hex; exact Hc.
Qed.

End DigestFacts.

(** ** The quantized-hash fallback *)

Section QuantizedHash.
Import OpenAICompat QuantizedHashSpec.

Lemma unit_of_byte_range (b : Z) :
  0 <= b < 256 -> in_unit_interval (unit_of_byte b).
Proof.
  intros Hb.
  assert (H : forallb (fun n => PrimFloat.leb (-1)%float (unit_of_byte (Z.of_nat n))
                                && PrimFloat.leb (unit_of_byte (Z.of_nat n)) 1%float)
                      (seq 0 256) = true)
    by (vm_compute; reflexivity).
  rewrite forallb_forall in H. specialize (H (Z.to_nat b)).
  rewrite Z2Nat.id in H by lia.
  apply andb_true_iff. apply H. apply in_seq. lia.
Qed.

Lemma land_255_range (x : Z) : 0 <= Z.land x 0xFF < 256.
Proof.
  change 0xFF with (Z.ones 8). rewrite Z.land_ones by lia.
  apply Z.mod_pos_bound. reflexivity.
Qed.

Lemma block_range (h : Z) : Forall in_unit_interval (block h).
Proof.
  unfold block. repeat constructor; apply unit_of_byte_range, land_255_range.
Qed.

Lemma block_length (h : Z) : List.length (block h) = 4%nat.
Proof. reflexivity. Qed.

Lemma block_zero : block 0 = repeat (-1)%float 4.
Proof. vm_compute. reflexivity. Qed.

(** A multiple of 2^16 has its two low bytes zero. *)
Lemma low_bytes_zero (v : Z) :
  Z.land (Z.shiftr (65536 * v) 8) 0xFF = 0 /\ Z.land (65536 * v) 0xFF = 0.
Proof.
  change 0xFF with (Z.ones 8). rewrite !Z.land_ones by lia.
  rewrite Z.shiftr_div_pow2 by lia.
  replace (65536 * v) with (256 * v * 2 ^ 8) by lia.
  rewrite Z.div_mul by lia. split.
  - replace (256 * v) with (v * 2 ^ 8) by lia. apply Z.mod_mul. lia.
  - apply Z.mod_mul. lia.
Qed.

Lemma flat_map_map {A B C : Type} (f : B -> list C) (g : A -> B) (l : list A) :
  flat_map f (map g l) = flat_map (fun x => f (g x)) l.
Proof. induction l as [|x l IH]; simpl; [reflexivity | now rewrite IH]. Qed.

Lemma flat_map_blocks_length {A : Type} (f : A -> list float) (l : list A) :
  (forall x, List.length (f x) = 4%nat) ->
  List.length (flat_map f l) = (4 * List.length l)%nat.
Proof.
  intros Hf. induction l as [|x l IH]; [reflexivity|].
  simpl flat_map. rewrite length_app, Hf, IH. simpl List.length. lia.
Qed.

Lemma range_2560 :
  Py.range 0 2560 4 = map (fun k => 4 * Z.of_nat k) (seq 0 640).
Proof. reflexivity. Qed.

(** The 32 characters of a digest, named. *)
Ltac name_chars d Hlen :=
  do 32 (destruct d as [|? d]; [discriminate Hlen|];
         simpl in Hlen; apply eq_add_S in Hlen);
  destruct d; [clear Hlen | discriminate Hlen].

(** Past the end of the digest the program's window is a run of "0"
    characters, whatever its length, and reads as 0. *)
Lemma hash_val_exhausted (d : string) (k : nat) :
  String.length d = 32%nat -> (8 <= k)%nat ->
  hash_val d (4 * Z.of_nat k) = 0.
Proof.
  intros Hlen Hk. unfold hash_val, hex_slice, Py.len. rewrite Hlen.
  destruct (Z.leb_spec (4 * Z.of_nat k + 8) (Z.of_nat 32)) as [E|E]; [lia|].
  unfold Py.slice_from. rewrite substring_past_end by lia.
  cbn [append]. unfold Py.str_mul. rewrite int16_zeros by lia. reflexivity.
Qed.

Lemma padded_window_exhausted (d : string) (k : nat) :
  String.length d = 32%nat -> (8 <= k)%nat ->
  padded_window d k = "00000000".
Proof.
  intros Hlen Hk. unfold padded_window. cbn [map seq].
  rewrite !nth_overflow by (rewrite length_list_ascii; lia). reflexivity.
Qed.

(** The program's window value is the value of the "0"-padded window, for
    every block. *)
Lemma hash_val_padded (d : string) (k : nat) :
  String.length d = 32%nat ->
  hash_val d (4 * Z.of_nat k) = window_value (padded_window d k).
Proof.
  intros Hlen. destruct (Nat.lt_ge_cases k 8) as [Hk|Hk].
  - name_chars d Hlen.
    do 8 (destruct k as [|k]; [reflexivity|]). lia.
  - rewrite hash_val_exhausted, padded_window_exhausted by assumption.
    reflexivity.
Qed.

Lemma embedding_of_digest_padded (d : string) :
  String.length d = 32%nat ->
  embedding_of_digest d = by_blocks padded_window d.
Proof.
  intros Hlen. unfold embedding_of_digest, by_blocks.
  rewrite range_2560, flat_map_map.
  rewrite firstn_all2.
  - apply flat_map_ext. intros k. now rewrite hash_val_padded.
  - rewrite flat_map_blocks_length by (intros; apply block_length).
    rewrite length_seq. lia.
Qed.

Lemma by_blocks_length (w : string -> nat -> string) (d : string) :
  List.length (by_blocks w d) = 2560%nat.
Proof.
  unfold by_blocks.
  rewrite flat_map_blocks_length by (intros; apply block_length).
  rewrite length_seq. reflexivity.
Qed.

Lemma by_blocks_range (w : string -> nat -> string) (d : string) :
  Forall in_unit_interval (by_blocks w d).
Proof.
  unfold by_blocks. apply Forall_flat_map, Forall_forall.
  intros k _. apply block_range.
Qed.

Lemma exhausted_blocks (d : string) :
  String.length d = 32%nat ->
  forall n a, (8 <= a)%nat ->
    flat_map (fun k => block (window_value (padded_window d k))) (seq a n)
    = repeat (-1)%float (4 * n).
Proof.
  intros Hlen. induction n as [|n IH]; intros a Ha; [reflexivity|].
  cbn [seq flat_map]. rewrite IH by lia.
  rewrite padded_window_exhausted by assumption.
  replace (4 * S n)%nat with (4 + 4 * n)%nat by lia.
  rewrite repeat_app. f_equal.
Qed.

(** The last block that reaches the digest: its two low bytes come from
    the padding. *)
Lemma last_window_low_bytes (d : string) :
  String.length d = 32%nat ->
  exists v, window_value (padded_window d 7) = 65536 * v.
Proof.
  intros Hlen. name_chars d Hlen.
  unfold padded_window, window_value. cbn [map seq list_ascii_of_string nth Nat.add Nat.mul string_of_list_ascii].
  unfold Py.int16. cbn [Py.int16_acc].
  repeat match goal with
         | |- context [Py.hex_value ?c] =>
             is_var c; destruct (Py.hex_value c); [|exists 0; reflexivity]
         end.
  change (Py.hex_value "0") with (Some 0). cbv beta iota.
  match goal with
  | |- exists v, 16 * (16 * (16 * (16 * ?x + 0) + 0) + 0) + 0 = _ =>
      exists x; lia
  end.
Qed.

Lemma by_blocks_padded_tail (d : string) :
  String.length d = 32%nat ->
  skipn 30 (by_blocks padded_window d) = repeat (-1)%float 2530.
Proof.
  intros Hlen. unfold by_blocks.
  change (seq 0 640) with (seq 0 7 ++ [7%nat] ++ seq 8 632)%list.
  rewrite !flat_map_app, (exhausted_blocks d Hlen 632 8) by lia.
  rewrite skipn_app.
  rewrite flat_map_blocks_length by (intros; apply block_length).
  rewrite skipn_all2
    by (rewrite flat_map_blocks_length by (intros; apply block_length);
        rewrite length_seq; lia).
  rewrite length_seq. cbn [app flat_map Nat.mul Nat.add Nat.sub].
  destruct (last_window_low_bytes d Hlen) as [v Hv]. rewrite Hv.
  unfold block. cbn [skipn app].
  destruct (low_bytes_zero v) as [H1 H2]. rewrite H1, H2.
  reflexivity.
Qed.

(** Shifting and masking picks the bytes of a value. *)
Lemma shift_mask_byte (v : Z) (j : nat) :
  (j < 4)%nat ->
  Z.land (Z.shiftr v (8 * (3 - Z.of_nat j))) 0xFF = byte_of v j.
Proof.
  intros Hj. unfold byte_of.
  change 0xFF with (Z.ones 8). rewrite Z.land_ones by lia.
  rewrite Z.shiftr_div_pow2 by lia.
  replace (2 ^ (8 * (3 - Z.of_nat j))) with (256 ^ (3 - Z.of_nat j)); [reflexivity|].
  change 256 with (2 ^ 8). rewrite <- Z.pow_mul_r by lia. reflexivity.
Qed.

Lemma block_components (v : Z) :
  block v = map (fun j => unit_of_byte (byte_of v j)) (seq 0 4).
Proof.
  unfold block. cbn [map seq].
  rewrite <- (shift_mask_byte v 0), <- (shift_mask_byte v 1),
          <- (shift_mask_byte v 2), <- (shift_mask_byte v 3) by lia.
  cbn [Z.of_nat Z.sub Z.mul Pos.of_succ_nat Pos.succ].
  rewrite Z.shiftr_0_r. reflexivity.
Qed.

Lemma blocks_as_components (w : string -> nat -> string) (d : string) :
  forall n a,
    flat_map (fun k => block (window_value (w d k))) (seq a n)
    = map (component w d) (seq (4 * a) (4 * n)).
Proof.
  induction n as [|n IH]; intros a; [reflexivity|].
  cbn [seq flat_map]. rewrite IH, block_components.
  replace (4 * S n)%nat with (4 + 4 * n)%nat by lia.
  rewrite seq_app, map_app. f_equal.
  - cbn [seq map]. unfold component.
    replace ((4 * a) / 4)%nat with a by (apply Nat.div_unique with 0%nat; lia).
    replace (S (4 * a) / 4)%nat with a by (apply Nat.div_unique with 1%nat; lia).
    replace (S (S (4 * a)) / 4)%nat with a by (apply Nat.div_unique with 2%nat; lia).
    replace (S (S (S (4 * a))) / 4)%nat with a by (apply Nat.div_unique with 3%nat; lia).
    replace ((4 * a) mod 4)%nat with 0%nat by (apply Nat.mod_unique with a; lia).
    replace (S (4 * a) mod 4)%nat with 1%nat by (apply Nat.mod_unique with a; lia).
    replace (S (S (4 * a)) mod 4)%nat with 2%nat by (apply Nat.mod_unique with a; lia).
    replace (S (S (S (4 * a))) mod 4)%nat with 3%nat by (apply Nat.mod_unique with a; lia).
    reflexivity.
  - f_equal. f_equal. lia.
Qed.

Lemma by_blocks_quantized (w : string -> nat -> string) (d : string) :
  by_blocks w d = quantized w d.
Proof. unfold by_blocks, quantized. now rewrite blocks_as_components. Qed.

End QuantizedHash.

Section QuantizedHashProperties.
Import OpenAICompat QuantizedHashSpec.

(** C7, as amended.  For every text the quantized-hash fallback returns
    exactly 2560 floats, each in [-1, 1]; component [n] is byte [n mod 4]
    (most significant first) of the 32-bit value read from the window of
    block [n / 4], mapped by [byte / 127.5 - 1.0]; the window of block [k]
    is the eight characters of the digest from offset [4 k] on, and where
    the digest is exhausted it is continued with the character "0" (it is
    not recycled). *)
Theorem quantized_hash_fallback_zero_padded (text : string) :
  List.length (get_fallback_embeddings text) = 2560%nat /\
  Forall in_unit_interval (get_fallback_embeddings text) /\
  get_fallback_embeddings text = quantized padded_window (Md5.hexdigest text).
Proof.
  unfold get_fallback_embeddings.
  rewrite embedding_of_digest_padded by apply hexdigest_length.
  split; [apply by_blocks_length|].
  split; [apply by_blocks_range|].
  apply by_blocks_quantized.
Qed.

(** C7, as stated, fails.  For the text "hello world" (digest
    5eb63bbbe01eeed093cb22bb8f5acdc3) a recycled digest would make
    component 30 the image of the byte 0x5e, the digest's first; the
    program returns -1.0 there. *)
Lemma quantized_hash_fallback_not_recycled :
  nth 30 (get_fallback_embeddings "hello world") 0%float = (-1)%float /\
  nth 30 (quantized cyclic_window (Md5.hexdigest "hello world")) 0%float
    = unit_of_byte 0x5e /\
  get_fallback_embeddings "hello world"
    <> quantized cyclic_window (Md5.hexdigest "hello world").
Proof.
  split; [vm_compute; reflexivity|].
  split; [vm_compute; reflexivity|].
  intros H.
  apply (f_equal (fun l => PrimFloat.eqb (nth 30 l 0%float) (-1)%float)) in H.
  vm_compute in H. discriminate H.
Qed.

(** C10.  For every text the quantized-hash fallback has 2560 components
    and those at index 30 to 2559 are exactly -1.0: the digest has 32
    characters and reaches the first 30 components only, so the vectors of
    any two texts agree on their last 2530 components. *)
Theorem fallback_constant_beyond_digest (text : string) :
  String.length (Md5.hexdigest text) = 32%nat /\
  List.length (get_fallback_embeddings text) = 2560%nat /\
  skipn 30 (get_fallback_embeddings text) = repeat (-1)%float 2530 /\
  forall text',
    skipn 30 (get_fallback_embeddings text')
    = skipn 30 (get_fallback_embeddings text).
Proof.
  assert (T : forall t,
             skipn 30 (get_fallback_embeddings t) = repeat (-1)%float 2530).
  { intros t. unfold get_fallback_embeddings.
    rewrite embedding_of_digest_padded by apply hexdigest_length.
    apply by_blocks_padded_tail, hexdigest_length. }
  split; [apply hexdigest_length|].
  split.
  - unfold get_fallback_embeddings.
    rewrite embedding_of_digest_padded by apply hexdigest_length.
    apply by_blocks_length.
  - split; [apply T|]. intros t'. now rewrite !T.
Qed.

End QuantizedHashProperties.

(** ** Normalisation *)

Section ExactNorm.
Local Open Scope R_scope.

Abbreviation sumsq acc v := (fold_left (fun a x => a + x * x) v acc) (only parsing).

Lemma sumsq_acc (v : list R) : forall acc, sumsq acc v = acc + sumsq 0 v.
Proof.
  induction v as [|x v IH]; intros acc; simpl.
  - lra.
  - rewrite IH, (IH (0 + x * x)). lra.
Qed.

Lemma sumsq_nonneg (v : list R) : 0 <= sumsq 0 v.
Proof.
  induction v as [|x v IH]; simpl.
  - lra.
  - rewrite sumsq_acc. pose proof (Rle_0_sqr x) as Hx.
    unfold Rsqr in Hx. lra.
Qed.

Lemma sumsq_div (c : R) (v : list R) :
  c <> 0 -> sumsq 0 (map (fun x => x / c) v) = sumsq 0 v / (c * c).
Proof.
  intros Hc. induction v as [|x v IH]; simpl.
  - unfold Rdiv. lra.
  - rewrite sumsq_acc, (sumsq_acc v), IH. field. exact Hc.
Qed.

(** In exact arithmetic a vector divided by its non-zero norm has norm 1. *)
Lemma exact_unit_norm (raw : list R) :
  Np.linalg_norm raw <> 0 ->
  Np.linalg_norm (Np.div_scalar raw (Np.linalg_norm raw)) = 1.
Proof.
  unfold Np.linalg_norm, Np.div_scalar.
  cbn [sqrt add mul div zero exact].
  set (n := R_sqrt.sqrt (sumsq 0 raw)). intros Hn.
  rewrite sumsq_div by exact Hn.
  assert (Hsq : n * n = sumsq 0 raw) by (apply sqrt_def, sumsq_nonneg).
  rewrite Hsq.
  assert (Hs : sumsq 0 raw <> 0).
  { intros E. apply Hn. unfold n. rewrite E. apply sqrt_0. }
  unfold Rdiv. rewrite Rinv_r by exact Hs. apply sqrt_1.
Qed.

End ExactNorm.

Section FloatNorm.

Lemma float_sumsq_zeros (n : nat) :
  fold_left (fun acc x => PrimFloat.add acc (PrimFloat.mul x x))
            (repeat 0%float n) 0%float = 0%float.
Proof.
  induction n as [|n IH]; [reflexivity|].
  cbn [repeat fold_left].
  change (PrimFloat.add 0 (PrimFloat.mul 0 0)) with 0%float. exact IH.
Qed.

(** On floats a vector of zeros divided by its norm is a vector of NaNs,
    of the same length. *)
Lemma float_zero_vector_nan (n : nat) :
  Np.div_scalar (repeat 0%float n) (Np.linalg_norm (repeat 0%float n))
  = repeat nan n.
Proof.
  unfold Np.linalg_norm, Np.div_scalar.
  cbn [sqrt add mul div zero ieee754].
  rewrite float_sumsq_zeros.
  change (PrimFloat.sqrt 0) with 0%float.
  induction n as [|n IH]; [reflexivity|].
  cbn [repeat map]. rewrite IH. reflexivity.
Qed.

Lemma nan_is_not_zero : nan <> 0%float.
Proof.
  intros E. apply (f_equal PrimFloat.is_nan) in E. vm_compute in E.
  discriminate E.
Qed.

End FloatNorm.

(** ** The embedding service *)

Section Resolution.
Import EmbeddingService.
Context {F : Type} `{Arith F}.
Variable rng : Type.
Variable np_random_seed : Z -> rng.
Variable np_random_normal : rng -> nat -> list F * rng.
Variable MODEL_NAME : string.

Local Abbreviation fallback :=
  (deterministic_embedding rng np_random_seed np_random_normal).
Local Abbreviation resolve :=
  (get_embeddings rng np_random_seed np_random_normal).
Local Abbreviation embed :=
  (create_embedding rng np_random_seed np_random_normal MODEL_NAME).

(** What the generator returns for a dimension that is not negative. *)
Lemma fallback_ok (text : string) (dimension : Z) (g : rng) :
  0 <= dimension ->
  exists seed,
    Py.int16 (Py.slice (Md5.hexdigest text) 0 8) = Some seed /\
    0 <= seed < 2 ^ 32 /\
    fallback text dimension g =
    (Py.Ok (Np.div_scalar
              (fst (np_random_normal (np_random_seed seed) (Z.to_nat dimension)))
              (Np.linalg_norm
                 (fst (np_random_normal (np_random_seed seed) (Z.to_nat dimension))))),
     snd (np_random_normal (np_random_seed seed) (Z.to_nat dimension))).
Proof.
  intros Hd. destruct (hexdigest_seed text) as [seed [Hs Hr]].
  exists seed. split; [exact Hs|]. split; [exact Hr|].
  unfold deterministic_embedding. rewrite Hs.
  destruct (Z.ltb_spec dimension 0) as [Hneg|_]; [lia|].
  destruct (np_random_normal (np_random_seed seed) (Z.to_nat dimension)).
  reflexivity.
Qed.

Lemma div_scalar_length (v : list F) (c : F) :
  List.length (Np.div_scalar v c) = List.length v.
Proof. unfold Np.div_scalar. apply length_map. Qed.

Lemma reconcile_length (d : nat) (v : list F) :
  List.length (reconcile d v) = d.
Proof.
  unfold reconcile.
  destruct (Nat.ltb_spec d (List.length v)).
  - rewrite length_firstn. lia.
  - destruct (Nat.ltb_spec (List.length v) d).
    + rewrite length_app, repeat_length. lia.
    + lia.
Qed.

(** With the backend marked ready, a reply that carries a vector is
    reconciled and divided by its norm; every other reply ends in the
    generator, called for 2560 components. *)
Lemma resolve_ready (st : globals) (ollama : string -> ollama_reply F)
    (text : string) (g : rng) :
  model_type st = "ollama_qwen3" ->
  resolve st ollama text g =
  match ollama text with
  | BodyEmbedding v =>
      (Py.Ok (Np.div_scalar (reconcile (QWEN3_EMBEDDING_DIM st) v)
                (Np.linalg_norm (reconcile (QWEN3_EMBEDDING_DIM st) v))), g)
  | _ => fallback text 2560 g
  end.
Proof.
  intros Hready. unfold get_embeddings, get_embeddings_try.
  rewrite Hready. cbn [String.eqb Ascii.eqb Bool.eqb negb].
  destruct (ollama text); reflexivity.
Qed.

Lemma resolve_not_ready (st : globals) (ollama : string -> ollama_reply F)
    (text : string) (g : rng) :
  model_type st <> "ollama_qwen3" ->
  resolve st ollama text g =
  (Py.Raise (Py.HTTPException 503 "Ollama Qwen3 model not loaded"), g).
Proof.
  intros Hnot. unfold get_embeddings.
  destruct (String.eqb_spec (model_type st) "ollama_qwen3") as [E|_];
    [contradiction | reflexivity].
Qed.

End Resolution.

Section ResolutionProperties.
Import EmbeddingService.
Context {F : Type} `{Arith F}.
Variable rng : Type.
Variable np_random_seed : Z -> rng.
Variable np_random_normal : rng -> nat -> list F * rng.
Variable MODEL_NAME : string.

Local Abbreviation fallback :=
  (deterministic_embedding rng np_random_seed np_random_normal).
Local Abbreviation resolve :=
  (get_embeddings rng np_random_seed np_random_normal).
Local Abbreviation embed :=
  (create_embedding rng np_random_seed np_random_normal MODEL_NAME).

(** C1, as amended.  When the backend is marked ready ([model_type] is
    "ollama_qwen3"), [get_embeddings] never raises: it returns a vector,
    which is the deterministic fallback vector of 2560 components whenever
    the backend call does not deliver one, and /embed answers 200.  When the
    backend is not marked ready, [get_embeddings] raises the HTTP error 503
    without computing a fallback, and /embed answers with a 5xx status. *)
Theorem resolution_degrades_only_when_ready
    (st : globals) (ollama : string -> ollama_reply F)
    (request : EmbeddingRequest) (g : rng) :
  (model_type st = "ollama_qwen3" ->
     (exists v g', resolve st ollama (text request) g = (Py.Ok v, g')) /\
     ((forall v, ollama (text request) <> BodyEmbedding v) ->
        resolve st ollama (text request) g = fallback (text request) 2560 g) /\
     http_status (fst (embed st ollama request g)) = 200) /\
  (model_type st <> "ollama_qwen3" ->
     resolve st ollama (text request) g
       = (Py.Raise (Py.HTTPException 503 "Ollama Qwen3 model not loaded"), g) /\
     500 <= http_status (fst (embed st ollama request g)) < 600).
Proof.
  split.
  - intros Hready.
    assert (Hok : exists v g', resolve st ollama (text request) g = (Py.Ok v, g')).
    { rewrite resolve_ready by exact Hready.
      destruct (fallback_ok rng np_random_seed np_random_normal
                  (text request) 2560 g ltac:(lia)) as [seed [_ [_ Hf]]].
      destruct (ollama (text request)); eauto. }
    split; [exact Hok|]. split.
    + intros Hfail. rewrite resolve_ready by exact Hready.
      destruct (ollama (text request)) as [m| |v|m]; try reflexivity.
      exfalso. exact (Hfail v eq_refl).
    + destruct Hok as [v [g' Hv]]. unfold create_embedding. rewrite Hv.
      reflexivity.
  - intros Hnot. split; [now apply resolve_not_ready|].
    unfold create_embedding. rewrite resolve_not_ready by exact Hnot.
    cbn [fst http_status]. lia.
Qed.

(** Where the dimension is reconciled.  With the backend marked ready,
    /embed answers with a vector and reports its length as the dimension.
    When the backend call delivers a vector, that length is the target
    dimension [d] recorded at start-up: a longer vector is cut to its first
    [d] components, a shorter one is padded with zeros.  When it does not,
    the vector is the generator's, asked for 2560 components and returned
    as generated, so it has length [d] when [d] is 2560.  The start-up
    probe records the [len] of the probe's embedding as [d]; a failed probe
    leaves the globals as they were. *)
Theorem resolved_dimension
    (st : globals) (ollama : string -> ollama_reply F)
    (request : EmbeddingRequest) (g : rng)
    (normal_length :
       forall g n, List.length (fst (np_random_normal g n)) = n)
    (ready : model_type st = "ollama_qwen3") :
  (exists r g',
     embed st ollama request g = (Py.Ok r, g') /\
     dimension r = Z.of_nat (List.length (embedding r)) /\
     (forall v, ollama (text request) = BodyEmbedding v ->
        List.length (embedding r) = QWEN3_EMBEDDING_DIM st /\
        embedding r
          = Np.div_scalar (reconcile (QWEN3_EMBEDDING_DIM st) v)
              (Np.linalg_norm (reconcile (QWEN3_EMBEDDING_DIM st) v))) /\
     ((forall v, ollama (text request) <> BodyEmbedding v) ->
        QWEN3_EMBEDDING_DIM st = 2560%nat ->
        List.length (embedding r) = QWEN3_EMBEDDING_DIM st /\
        (Py.Ok (embedding r), g') = fallback (text request) 2560 g)) /\
  (forall d v,
     ((d < List.length v)%nat -> reconcile d v = firstn d v) /\
     ((List.length v < d)%nat ->
        reconcile d v = (v ++ repeat zero (d - List.length v))%list) /\
     (List.length v = d -> reconcile d v = v)) /\
  (forall cuda st0,
     (forall kv embedding n,
        Json.assoc "embedding" kv = Some embedding ->
        Json.len embedding = Py.Ok n ->
        QWEN3_EMBEDDING_DIM
          (startup_event None (ProbeBody (Json.Obj kv)) cuda st0)
        = Z.to_nat n) /\
     (forall m probe, startup_event (Some m) probe cuda st0 = st0) /\
     (forall e, startup_event None (ProbeFailed e) cuda st0 = st0)).
Proof.
  split; [|split].
  - unfold create_embedding. rewrite resolve_ready by exact ready.
    destruct (ollama (text request)) as [m| |v|m] eqn:E.
    1,2,4:
      destruct (fallback_ok rng np_random_seed np_random_normal
                  (text request) 2560 g ltac:(lia)) as [seed [_ [_ Hf]]];
      rewrite Hf; eexists; eexists; split; [reflexivity|];
      cbn [embedding dimension]; split; [reflexivity|]; split;
      [ intros v Hv; discriminate Hv
      | intros _ Hd; split; [|reflexivity];
        rewrite div_scalar_length, normal_length, Hd; reflexivity ].
    eexists; eexists; split; [reflexivity|].
    cbn [embedding dimension]. split; [reflexivity|]. split.
    + intros v' Hv'. injection Hv' as <-.
      rewrite div_scalar_length, reconcile_length. split; reflexivity.
    + intros Hfail _. exfalso. exact (Hfail v eq_refl).
  - intros d v. unfold reconcile. repeat split.
    + intros Hlt. destruct (Nat.ltb_spec d (List.length v)); [reflexivity | lia].
    + intros Hlt. destruct (Nat.ltb_spec d (List.length v)); [lia|].
      destruct (Nat.ltb_spec (List.length v) d); [reflexivity | lia].
    + intros Heq. destruct (Nat.ltb_spec d (List.length v)); [lia|].
      destruct (Nat.ltb_spec (List.length v) d); [lia | reflexivity].
  - intros cuda st0. split; [|split].
    + intros kv embedding n Hkv Hn.
      unfold startup_event, load_model.
      cbn [Json.contains Json.getitem]. now rewrite Hkv, Hn.
    + reflexivity.
    + intros e. now destruct e.
Qed.

(** C4.  The deterministic fallback generator returns the same outcome for
    a text and a dimension whatever state numpy's generator is in when it is
    called: the first 8 hexadecimal characters of the MD5 digest of the
    text's UTF-8 encoding always read as a seed below 2^32, the generator is
    seeded with it, and for a dimension that is not negative the vector is
    the [dimension] samples drawn from that seed, divided by their norm. *)
Theorem deterministic_embedding_deterministic
    (text : string) (dimension : Z) (g1 g2 : rng) :
  fst (fallback text dimension g1) = fst (fallback text dimension g2) /\
  exists seed,
    Py.int16 (Py.slice (Md5.hexdigest text) 0 8) = Some seed /\
    0 <= seed < 2 ^ 32 /\
    (0 <= dimension ->
     fst (fallback text dimension g1)
     = Py.Ok (Np.div_scalar
                (fst (np_random_normal (np_random_seed seed) (Z.to_nat dimension)))
                (Np.linalg_norm
                   (fst (np_random_normal (np_random_seed seed)
                           (Z.to_nat dimension)))))).
Proof.
  destruct (hexdigest_seed text) as [seed [Hs Hr]]. split.
  - unfold deterministic_embedding. rewrite Hs.
    destruct (dimension <? 0)%Z; [reflexivity|].
    destruct (np_random_normal (np_random_seed seed) (Z.to_nat dimension)).
    reflexivity.
  - exists seed. split; [exact Hs|]. split; [exact Hr|]. intros Hd.
    destruct (fallback_ok rng np_random_seed np_random_normal text dimension g1 Hd)
      as [seed' [Hs' [_ Hf]]].
    rewrite Hs in Hs'. injection Hs' as <-. rewrite Hf. reflexivity.
Qed.

End ResolutionProperties.

Section ResolutionExamples.
Import EmbeddingService.

Local Abbreviation demo_resolve :=
  (get_embeddings (F := float) Demo.rng Demo.np_random_seed Demo.np_random_normal).
Local Abbreviation demo_embed :=
  (create_embedding (F := float) Demo.rng Demo.np_random_seed
     Demo.np_random_normal "sentence-transformers/all-MiniLM-L6-v2").

Lemma demo_normal_length (g : Demo.rng) (n : nat) :
  List.length (fst (Demo.np_random_normal g n)) = n.
Proof. unfold Demo.np_random_normal. cbn [fst]. now rewrite length_map, length_seq. Qed.

(** C1, as stated, fails.  After a start-up probe that could not reach the
    backend the service is not marked ready; [get_embeddings] then raises
    the HTTP error 503 instead of returning a fallback vector, and /embed
    answers 500. *)
Lemma not_ready_embed_answers_5xx :
  model_type (startup_event (Some "down") Demo.probe_down false
                initial_globals)
    <> "ollama_qwen3" /\
  fst (demo_resolve
         (startup_event (Some "down") Demo.probe_down false
            initial_globals)
         Demo.unreachable "hello world" 0)
    = Py.Raise (Py.HTTPException 503 "Ollama Qwen3 model not loaded") /\
  http_status
    (fst (demo_embed
            (startup_event (Some "down") Demo.probe_down false
            initial_globals)
            Demo.unreachable {| text := "hello world"; model_name := None |} 0))
    = 500.
Proof.
  split; [discriminate|]. split; reflexivity.
Qed.

(** C2, as stated, fails.  The probe recorded the dimension 2 and the
    backend answers with the zero vector: its norm is zero, the division is
    carried out all the same, and the vector returned holds NaNs, not the
    zeros it was made from. *)
Lemma zero_vector_comes_back_as_nan :
  Np.linalg_norm [0%float; 0%float] = 0%float /\
  fst (demo_resolve
         (startup_event None (Demo.probe [0%float; 0%float]) false
            initial_globals)
         Demo.zero_backend "hello world" 0)
    = Py.Ok [nan; nan] /\
  [nan; nan] <> [0%float; 0%float].
Proof.
  split; [reflexivity|]. split; [reflexivity|].
  intros E. apply (f_equal (fun l => nth 0 l 0%float)) in E.
  exact (nan_is_not_zero E).
Qed.

(** C3.  The claim asks for the target dimension whatever the probe
    recorded; the program misses it on its fallback path.  The probe
    recorded the dimension 4, the backend then cannot be reached, and
    /embed answers with the 2560 components both [except] clauses ask the
    generator for, where the path that succeeds reconciles to the recorded
    dimension. *)
Lemma fallback_ignores_probed_dimension :
  QWEN3_EMBEDDING_DIM
    (startup_event None
       (Demo.probe [1%float; 2%float; 3%float; 4%float]) false initial_globals)
    = 4%nat /\
  match
    fst (demo_embed
           (startup_event None
              (Demo.probe [1%float; 2%float; 3%float; 4%float]) false
              initial_globals)
           Demo.unreachable {| text := "hello world"; model_name := None |} 0)
  with
  | Py.Ok r => dimension r = 2560 /\ List.length (embedding r) = 2560%nat
  | Py.Raise _ => False
  end.
Proof.
  split; [reflexivity|]. vm_compute. split; reflexivity.
Qed.

(** A negative dimension is refused by [np.random.normal]. *)
Example negative_dimension_raises :
  fst (deterministic_embedding (F := float) Demo.rng Demo.np_random_seed
         Demo.np_random_normal "hello world" (-1) 0)
  = Py.Raise (Py.OtherException "negative dimensions are not allowed").
Proof. vm_compute. reflexivity. Qed.

(** The reconciliation applied: the probe recorded the dimension 4 and
    the backend delivers two components, which are padded to four. *)
Lemma resolved_dimension_witness :
  (forall g n, List.length (fst (Demo.np_random_normal g n)) = n) /\
  model_type (startup_event None
                (Demo.probe [1%float; 2%float; 3%float; 4%float]) false
                initial_globals) = "ollama_qwen3" /\
  exists r g',
    demo_embed
      (startup_event None (Demo.probe [1%float; 2%float; 3%float; 4%float])
         false initial_globals)
      Demo.zero_backend {| text := "hello world"; model_name := None |} 0
    = (Py.Ok r, g') /\
    dimension r = 4 /\
    List.length (embedding r) = 4%nat.
Proof.
  split; [exact demo_normal_length|]. split; [reflexivity|].
  destruct (resolved_dimension Demo.rng Demo.np_random_seed
              Demo.np_random_normal "sentence-transformers/all-MiniLM-L6-v2"
              (startup_event None
                 (Demo.probe [1%float; 2%float; 3%float; 4%float]) false
                 initial_globals)
              Demo.zero_backend {| text := "hello world"; model_name := None |} 0
              demo_normal_length eq_refl)
    as [[r [g' [Hr [Hd [Hv _]]]]] _].
  destruct (Hv [0%float; 0%float] eq_refl) as [Hl _].
  exists r, g'. split; [exact Hr|]. split; [|exact Hl].
  rewrite Hd, Hl. reflexivity.
Defined.

End ResolutionExamples.

(** C2, as amended.  Every vector [get_embeddings] and the generator
    return is the vector before normalisation divided, component by
    component, by its L2 norm; the division is not guarded.  In exact
    arithmetic the result has norm 1 whenever that norm is not zero.  On
    floats a vector of zeros comes back as a vector of NaNs of the same
    length: the division by zero raises nothing.  The generator returns a
    vector for every text and every dimension that is not negative. *)
Theorem normalisation_is_unguarded :
  (forall (F : Type) (A : Arith F) (rng : Type) (np_random_seed : Z -> rng)
          (np_random_normal : rng -> nat -> list F * rng)
          (st : EmbeddingService.globals)
          (ollama : string -> EmbeddingService.ollama_reply F)
          (text : string) (g : rng),
      (forall v,
          EmbeddingService.model_type st = "ollama_qwen3" ->
          ollama text = EmbeddingService.BodyEmbedding v ->
          fst (EmbeddingService.get_embeddings rng np_random_seed
                 np_random_normal st ollama text g)
          = Py.Ok (Np.div_scalar
                     (EmbeddingService.reconcile
                        (EmbeddingService.QWEN3_EMBEDDING_DIM st) v)
                     (Np.linalg_norm
                        (EmbeddingService.reconcile
                           (EmbeddingService.QWEN3_EMBEDDING_DIM st) v)))) /\
      (forall dimension,
          0 <= dimension ->
          exists vector g',
            fst (EmbeddingService.deterministic_embedding rng np_random_seed
                   np_random_normal text dimension g)
            = Py.Ok (Np.div_scalar vector (Np.linalg_norm vector)) /\
            (exists seed, np_random_normal (np_random_seed seed)
                            (Z.to_nat dimension) = (vector, g')))) /\
  (forall raw : list R,
      Np.linalg_norm raw <> 0%R ->
      Np.linalg_norm (Np.div_scalar raw (Np.linalg_norm raw)) = 1%R) /\
  (forall n : nat,
      Np.linalg_norm (repeat 0%float n) = 0%float /\
      Np.div_scalar (repeat 0%float n) (Np.linalg_norm (repeat 0%float n))
      = repeat nan n).
Proof.
  split; [|split].
  - intros F A rng seed normal st ollama text g. split.
    + intros v Hready Hv. rewrite resolve_ready by exact Hready.
      rewrite Hv. reflexivity.
    + intros d Hd.
      destruct (fallback_ok rng seed normal text d g Hd) as [s [_ [_ Hf]]].
      rewrite Hf. cbn [fst].
      exists (fst (normal (seed s) (Z.to_nat d))),
             (snd (normal (seed s) (Z.to_nat d))).
      split; [reflexivity|]. exists s. now destruct (normal (seed s) (Z.to_nat d)).
  - exact exact_unit_norm.
  - intros n. split; [|apply float_zero_vector_nan].
    unfold Np.linalg_norm. cbn [sqrt add mul zero ieee754].
    now rewrite float_sumsq_zeros.
Qed.

(** ** The stdio bridges *)

Section Bridge.
Import Mcp.
Context `{Outside}.

(** A [try] whose handler returns never raises. *)
Lemma try_except_total {A : Type} (m : M A) (handler : Py.exn -> A) (s : state) :
  exists r s', try_except m (fun e => ret (handler e)) s = (Py.Ok r, s').
Proof.
  unfold try_except, ret. destruct (m s) as [[a|e] s']; eauto.
Qed.

(** A [try] around a computation that does not raise is that computation. *)
Lemma try_except_ok {A : Type} (m : M A) (handler : Py.exn -> M A) (s : state)
    (a : A) (s' : state) :
  m s = (Py.Ok a, s') -> try_except m handler s = (Py.Ok a, s').
Proof. intros E. unfold try_except. now rewrite E. Qed.

Lemma bind_ok {A B : Type} (m : M A) (k : A -> M B) (s s' : state) (a : A) :
  m s = (Py.Ok a, s') -> bind m k s = k a s'.
Proof. intros E. unfold bind. now rewrite E. Qed.

Lemma localai_total (method params : Json.value) (s : state) :
  exists r s', LocalAI.handle_request method params s = (Py.Ok r, s').
Proof. apply try_except_total. Qed.

Lemma qdrant_total (method params : Json.value) (s : state) :
  exists r s', Qdrant.handle_request method params s = (Py.Ok r, s').
Proof. apply try_except_total. Qed.

(** The line printed for a request that parsed to an object is made of
    the request's [id] and of what the handler returned. *)
Lemma respond_answers (handle : Json.value -> Json.value -> M Json.value)
    (kv : list (string * Json.value)) (s s' : state) (r : Json.value) :
  handle (Observe.param kv "method" (Json.Str ""))
         (Observe.param kv "params" (Json.Obj [])) s = (Py.Ok r, s') ->
  respond handle (Json.Obj kv) s =
  (Py.Ok (json_dumps (Json.Obj [("jsonrpc", Json.Str "2.0");
                                ("id", Observe.param kv "id" Json.Null);
                                ("result", r)])), s').
Proof.
  unfold Observe.param, respond, bind, lift, ret. cbn [Json.get].
  destruct (Json.assoc "method" kv) as [method|];
  destruct (Json.assoc "params" kv) as [params|];
  destruct (Json.assoc "id" kv) as [id|];
  intros E; rewrite E; reflexivity.
Qed.

(** A line that is no JSON is passed over: nothing is printed for it and
    the loop goes on with the next line, in the same state. *)
Lemma main_loop_discards (handle : Json.value -> Json.value -> M Json.value)
    (line : string) (rest : list string) (s : state) :
  line <> "" -> json_loads (Py.strip line) = JSONDecodeError ->
  main_loop handle (line :: rest) s = main_loop handle rest s.
Proof.
  intros Hline Hbad. cbn [main_loop].
  destruct (String.eqb_spec line "") as [E|_]; [contradiction|].
  now rewrite Hbad.
Qed.

Lemma main_loop_skips (handle : Json.value -> Json.value -> M Json.value)
    (line : string) (after : list string) :
  line <> "" -> json_loads (Py.strip line) = JSONDecodeError ->
  forall (before : list string) (s : state),
    main_loop handle (before ++ line :: after) s
    = main_loop handle (before ++ after) s.
Proof.
  intros Hline Hbad. induction before as [|l before IH]; intros s.
  - apply main_loop_discards; assumption.
  - cbn [app main_loop]. destruct (l =? "")%string; [reflexivity|].
    destruct (json_loads (Py.strip l)) as [request| |e]; [|apply IH|].
    + destruct (respond handle request s) as [r s1]. now rewrite IH.
    + now rewrite IH.
Qed.

(** A line on which [json.loads] raises another exception is answered with
    an error line; the state stays as it was and the loop goes on. *)
Lemma main_loop_raised (handle : Json.value -> Json.value -> M Json.value)
    (line : string) (rest : list string) (s : state) (e : Py.exn) :
  line <> "" -> json_loads (Py.strip line) = LoadsRaised e ->
  main_loop handle (line :: rest) s
  = (error_response e :: fst (main_loop handle rest s),
     snd (main_loop handle rest s)).
Proof.
  intros Hline Hbad. cbn [main_loop].
  destruct (String.eqb_spec line "") as [E|_]; [contradiction|].
  rewrite Hbad. now destruct (main_loop handle rest s).
Qed.

(** A line that parses to an object gets its answer printed, and the loop
    goes on in the state the handler left. *)
Lemma main_loop_answers (handle : Json.value -> Json.value -> M Json.value)
    (line : string) (rest : list string) (kv : list (string * Json.value))
    (s s' : state) (r : Json.value) :
  line <> "" -> json_loads (Py.strip line) = Loaded (Json.Obj kv) ->
  handle (Observe.param kv "method" (Json.Str ""))
         (Observe.param kv "params" (Json.Obj [])) s = (Py.Ok r, s') ->
  main_loop handle (line :: rest) s =
  (json_dumps (Json.Obj [("jsonrpc", Json.Str "2.0");
                         ("id", Observe.param kv "id" Json.Null);
                         ("result", r)])
     :: fst (main_loop handle rest s'),
   snd (main_loop handle rest s')).
Proof.
  intros Hline Hgood Hr. cbn [main_loop].
  destruct (String.eqb_spec line "") as [E|_]; [contradiction|].
  rewrite Hgood, (respond_answers handle kv s s' r Hr).
  now destruct (main_loop handle rest s').
Qed.

(** The points of a call without metadata. *)
Lemma points_from_empty_metadata (l : list Json.value) :
  forall a : nat,
    Qdrant.points_from (Z.of_nat a)
      (combine l (repeat (Json.Obj []) (List.length l)))
    = map (fun p => Json.Obj [("id", Json.Int (Z.of_nat (fst p) + 1));
                              ("vector", snd p);
                              ("payload", Json.Obj [])])
          (combine (seq a (List.length l)) l).
Proof.
  induction l as [|v l IH]; intros a; [reflexivity|].
  cbn [List.length repeat combine seq Qdrant.points_from map fst snd].
  f_equal. rewrite <- IH. f_equal. lia.
Qed.

Lemma points_from_length (pairs : list (Json.value * Json.value)) :
  forall i, List.length (Qdrant.points_from i pairs) = List.length pairs.
Proof.
  induction pairs as [|[v m] pairs IH]; intros i; [reflexivity|].
  cbn [Qdrant.points_from List.length]. now rewrite IH.
Qed.

(** [insert_vectors] on two lists, when the store answers with an
    object. *)
Lemma insert_vectors_lists (lv lm : list Json.value) (s : state)
    (data : list (string * Json.value)) (w : world) :
  http {| verb := "PUT"; url := Qdrant.points_url;
          body := Some (Json.Obj
                          [("points",
                            Json.Arr (Qdrant.points_from 0 (combine lv lm)))]) |}
       (outside s) = (HttpJson (Json.Obj data), w) ->
  exists r s',
    Qdrant.insert_vectors (Json.Arr lv) (Json.Arr lm) s = (Py.Ok r, s') /\
    sent s' =
      (sent s ++
       [{| verb := "PUT"; url := Qdrant.points_url;
           body := Some (Json.Obj
                           [("points",
                             Json.Arr (Qdrant.points_from 0 (combine lv lm)))]) |}])%list /\
    Json.get r "inserted_count" Json.Null
      = Py.Ok (Json.Int (Z.of_nat (List.length lv))).
Proof.
  intros Hhttp.
  unfold Qdrant.insert_vectors, try_except, bind, lift, ret, request_json, now.
  cbn [Qdrant.build_points Json.zip Json.iter Json.len outside sent].
  rewrite Hhttp. cbn [Json.get outside sent].
  destruct (Json.assoc "status" data); destruct (Json.assoc "result" data);
    destruct (now_isoformat w) as [t w'];
    eexists; eexists; (split; [reflexivity|]); split; reflexivity.
Qed.

End Bridge.

Section BridgeProperties.
Import Mcp.
Context `{Outside}.

(** C5, as amended.  In both bridges a line on which [json.loads] raises
    [json.JSONDecodeError] produces no output and does not end the loop:
    the run goes on with what follows as if the line had not been there,
    wherever it stands in the input.  A line on which [json.loads] raises
    another exception is answered with an error line, and the loop goes on
    in the same state.  In both cases a valid request that follows at once
    receives its response: the line printed for it carries its [id] and
    what [handle_request] returned for its method and parameters. *)
Theorem malformed_line_is_discarded
    (line request : string) (rest : list string)
    (kv : list (string * Json.value)) (s : state)
    (not_eof : line <> "")
    (request_not_eof : request <> "")
    (valid_request : json_loads (Py.strip request) = Loaded (Json.Obj kv)) :
  (json_loads (Py.strip line) = JSONDecodeError ->
     (forall before after,
        LocalAI.main (before ++ line :: after) s
          = LocalAI.main (before ++ after) s /\
        Qdrant.main (before ++ line :: after) s
          = Qdrant.main (before ++ after) s /\
        LocalAI.main (line :: after) s = LocalAI.main after s /\
        Qdrant.main (line :: after) s = Qdrant.main after s) /\
     (exists r s',
        LocalAI.handle_request (Observe.param kv "method" (Json.Str ""))
          (Observe.param kv "params" (Json.Obj [])) s = (Py.Ok r, s') /\
        LocalAI.main (line :: request :: rest) s
        = (json_dumps (Json.Obj [("jsonrpc", Json.Str "2.0");
                                 ("id", Observe.param kv "id" Json.Null);
                                 ("result", r)])
             :: fst (LocalAI.main rest s'),
           snd (LocalAI.main rest s'))) /\
     (exists r s',
        Qdrant.handle_request (Observe.param kv "method" (Json.Str ""))
          (Observe.param kv "params" (Json.Obj [])) s = (Py.Ok r, s') /\
        Qdrant.main (line :: request :: rest) s
        = (json_dumps (Json.Obj [("jsonrpc", Json.Str "2.0");
                                 ("id", Observe.param kv "id" Json.Null);
                                 ("result", r)])
             :: fst (Qdrant.main rest s'),
           snd (Qdrant.main rest s')))) /\
  (forall e,
     json_loads (Py.strip line) = LoadsRaised e ->
     (forall after,
        LocalAI.main (line :: after) s
          = (error_response e :: fst (LocalAI.main after s),
             snd (LocalAI.main after s)) /\
        Qdrant.main (line :: after) s
          = (error_response e :: fst (Qdrant.main after s),
             snd (Qdrant.main after s))) /\
     (exists r s',
        LocalAI.handle_request (Observe.param kv "method" (Json.Str ""))
          (Observe.param kv "params" (Json.Obj [])) s = (Py.Ok r, s') /\
        LocalAI.main (line :: request :: rest) s
        = (error_response e
             :: json_dumps (Json.Obj [("jsonrpc", Json.Str "2.0");
                                      ("id", Observe.param kv "id" Json.Null);
                                      ("result", r)])
             :: fst (LocalAI.main rest s'),
           snd (LocalAI.main rest s'))) /\
     (exists r s',
        Qdrant.handle_request (Observe.param kv "method" (Json.Str ""))
          (Observe.param kv "params" (Json.Obj [])) s = (Py.Ok r, s') /\
        Qdrant.main (line :: request :: rest) s
        = (error_response e
             :: json_dumps (Json.Obj [("jsonrpc", Json.Str "2.0");
                                      ("id", Observe.param kv "id" Json.Null);
                                      ("result", r)])
             :: fst (Qdrant.main rest s'),
           snd (Qdrant.main rest s')))).
Proof.
  destruct (localai_total (Observe.param kv "method" (Json.Str ""))
              (Observe.param kv "params" (Json.Obj [])) s) as [rl [sl Hl]].
  destruct (qdrant_total (Observe.param kv "method" (Json.Str ""))
              (Observe.param kv "params" (Json.Obj [])) s) as [rq [sq Hq]].
  unfold LocalAI.main, Qdrant.main. split.
  - intros malformed. split; [|split].
    + intros before after.
      repeat split;
        first [ apply main_loop_skips; assumption
              | apply main_loop_discards; assumption ].
    + exists rl, sl. split; [exact Hl|].
      rewrite main_loop_discards by assumption.
      now apply main_loop_answers.
    + exists rq, sq. split; [exact Hq|].
      rewrite main_loop_discards by assumption.
      now apply main_loop_answers.
  - intros e raised. split; [|split].
    + intros after. split; now apply main_loop_raised.
    + exists rl, sl. split; [exact Hl|].
      rewrite (main_loop_raised _ line _ s e) by assumption.
      rewrite (main_loop_answers _ request rest kv s sl rl) by assumption.
      reflexivity.
    + exists rq, sq. split; [exact Hq|].
      rewrite (main_loop_raised _ line _ s e) by assumption.
      rewrite (main_loop_answers _ request rest kv s sq rq) by assumption.
      reflexivity.
Qed.

(** C6.  In both bridges a method name that the dispatcher does not know
    is answered with the dictionary [{"error": "Unknown method: <name>"}],
    without any request being sent.  Whatever the method and the
    parameters, an exception that comes out of the [if]/[elif] chain, from
    a handler or from the evaluation of its arguments, is caught by
    [handle_request] and comes back as the dictionary [{"error": str(e)}],
    and what the chain returns comes back as it is; so it is for parameters
    that are no object, whose [get] raises.  A request that parsed to an
    object is then answered with a line that carries its [id] and, as
    [result], the dictionary [handle_request] returned, and the loop goes on
    with the next line. *)
Theorem unknown_method_and_handler_errors
    (name : string) (method params : Json.value) (s : state) :
  (~ In name LocalAI.methods ->
   LocalAI.handle_request (Json.Str name) params s
   = (Py.Ok (Json.Obj [("error", Json.Str ("Unknown method: " ++ name))]), s)) /\
  (~ In name Qdrant.methods ->
   Qdrant.handle_request (Json.Str name) params s
   = (Py.Ok (Json.Obj [("error", Json.Str ("Unknown method: " ++ name))]), s)) /\
  (forall e s',
     LocalAI.handle_request_try method params s = (Py.Raise e, s') ->
     LocalAI.handle_request method params s
     = (Py.Ok (Json.Obj [("error", Json.Str (Py.str_of_exn e))]), s')) /\
  (forall e s',
     Qdrant.handle_request_try method params s = (Py.Raise e, s') ->
     Qdrant.handle_request method params s
     = (Py.Ok (Json.Obj [("error", Json.Str (Py.str_of_exn e))]), s')) /\
  (forall r s',
     LocalAI.handle_request_try method params s = (Py.Ok r, s') ->
     LocalAI.handle_request method params s = (Py.Ok r, s')) /\
  (forall r s',
     Qdrant.handle_request_try method params s = (Py.Ok r, s') ->
     Qdrant.handle_request method params s = (Py.Ok r, s')) /\
  ((forall kv, params <> Json.Obj kv) ->
   forall m,
     (In m ["embedding_generate"; "embedding_generate_single"] ->
      LocalAI.handle_request (Json.Str m) params s
      = (Py.Ok (Json.Obj [("error",
                           Json.Str ("'" ++ Json.type_name params
                                         ++ "' object has no attribute 'get'"))]),
         s)) /\
     (In m ["qdrant_create_collection"; "qdrant_insert_vectors";
            "qdrant_search"] ->
      Qdrant.handle_request (Json.Str m) params s
      = (Py.Ok (Json.Obj [("error",
                           Json.Str ("'" ++ Json.type_name params
                                         ++ "' object has no attribute 'get'"))]),
         s))) /\
  (forall line rest kv,
      line <> "" -> json_loads (Py.strip line) = Loaded (Json.Obj kv) ->
      (exists r s',
          LocalAI.handle_request (Observe.param kv "method" (Json.Str ""))
            (Observe.param kv "params" (Json.Obj [])) s = (Py.Ok r, s') /\
          LocalAI.main (line :: rest) s
          = (json_dumps (Json.Obj [("jsonrpc", Json.Str "2.0");
                                   ("id", Observe.param kv "id" Json.Null);
                                   ("result", r)])
               :: fst (LocalAI.main rest s'),
             snd (LocalAI.main rest s'))) /\
      (exists r s',
          Qdrant.handle_request (Observe.param kv "method" (Json.Str ""))
            (Observe.param kv "params" (Json.Obj [])) s = (Py.Ok r, s') /\
          Qdrant.main (line :: rest) s
          = (json_dumps (Json.Obj [("jsonrpc", Json.Str "2.0");
                                   ("id", Observe.param kv "id" Json.Null);
                                   ("result", r)])
               :: fst (Qdrant.main rest s'),
             snd (Qdrant.main rest s')))).
Proof.
  split; [|split; [|split; [|split; [|split; [|split; [|split]]]]]].
  - intros Hnot.
    unfold LocalAI.handle_request, LocalAI.handle_request_try, try_except, ret,
      error_dict.
    cbn [Json.eq_str format].
    repeat match goal with
           | |- context [(name =? ?m)%string] =>
               destruct (String.eqb_spec name m) as [E|_];
               [exfalso; apply Hnot; rewrite E; cbn; tauto|]
           end.
    reflexivity.
  - intros Hnot.
    unfold Qdrant.handle_request, Qdrant.handle_request_try, try_except, ret,
      error_dict.
    cbn [Json.eq_str format].
    repeat match goal with
           | |- context [(name =? ?m)%string] =>
               destruct (String.eqb_spec name m) as [E|_];
               [exfalso; apply Hnot; rewrite E; cbn; tauto|]
           end.
    reflexivity.
  - intros e s' E. unfold LocalAI.handle_request, try_except. now rewrite E.
  - intros e s' E. unfold Qdrant.handle_request, try_except. now rewrite E.
  - intros r s' E. unfold LocalAI.handle_request, try_except. now rewrite E.
  - intros r s' E. unfold Qdrant.handle_request, try_except. now rewrite E.
  - intros Hno m. split.
    + intros Hm.
      unfold LocalAI.handle_request, LocalAI.handle_request_try, try_except,
        bind, lift, ret, error_dict.
      destruct params; try (exfalso; exact (Hno _ eq_refl));
        cbn [In] in Hm;
        repeat (destruct Hm as [<-|Hm]; [reflexivity|]); contradiction.
    + intros Hm.
      unfold Qdrant.handle_request, Qdrant.handle_request_try, try_except,
        bind, lift, ret, error_dict.
      destruct params; try (exfalso; exact (Hno _ eq_refl));
        cbn [In] in Hm;
        repeat (destruct Hm as [<-|Hm]; [reflexivity|]); contradiction.
  - intros line rest kv Hline Hgood. split.
    + destruct (localai_total (Observe.param kv "method" (Json.Str ""))
                  (Observe.param kv "params" (Json.Obj [])) s) as [r [s' Hr]].
      exists r, s'. split; [exact Hr|].
      unfold LocalAI.main. now apply main_loop_answers.
    + destruct (qdrant_total (Observe.param kv "method" (Json.Str ""))
                  (Observe.param kv "params" (Json.Obj [])) s) as [r [s' Hr]].
      exists r, s'. split; [exact Hr|].
      unfold Qdrant.main. now apply main_loop_answers.
Qed.

(** C8.  [insert_vectors] called with a list of vectors and no metadata
    ([None]) sends one point per vector: the vector at position [i]
    (counted from 0) gets the identifier [i + 1] and the empty dictionary as
    its payload.  For [[[0.1, 0.2]]] that is the single point with
    identifier 1 and payload [{}]. *)
Theorem insert_vectors_positional_ids (l : list Json.value) (s : state) :
  Qdrant.build_points (Json.Arr l) Json.Null
  = Py.Ok (map (fun p => Json.Obj [("id", Json.Int (Z.of_nat (fst p) + 1));
                                   ("vector", snd p);
                                   ("payload", Json.Obj [])])
               (combine (seq 0 (List.length l)) l)) /\
  sent (snd (Qdrant.insert_vectors (Json.Arr l) Json.Null s))
  = (sent s ++
     [{| verb := "PUT"; url := Qdrant.points_url;
         body :=
           Some (Json.Obj
                   [("points",
                     Json.Arr
                       (map (fun p =>
                               Json.Obj [("id", Json.Int (Z.of_nat (fst p) + 1));
                                         ("vector", snd p);
                                         ("payload", Json.Obj [])])
                            (combine (seq 0 (List.length l)) l)))]) |}])%list /\
  Qdrant.build_points
    (Json.Arr [Json.Arr [Json.Float 0.1%float; Json.Float 0.2%float]]) Json.Null
  = Py.Ok [Json.Obj [("id", Json.Int 1);
                     ("vector", Json.Arr [Json.Float 0.1%float;
                                          Json.Float 0.2%float]);
                     ("payload", Json.Obj [])]].
Proof.
  assert (B : Qdrant.build_points (Json.Arr l) Json.Null
              = Py.Ok (map (fun p =>
                              Json.Obj [("id", Json.Int (Z.of_nat (fst p) + 1));
                                        ("vector", snd p);
                                        ("payload", Json.Obj [])])
                           (combine (seq 0 (List.length l)) l))).
  { unfold Qdrant.build_points. cbn [Json.len Json.zip Json.iter].
    rewrite Nat2Z.id. f_equal. apply (points_from_empty_metadata l 0). }
  split; [exact B|]. split; [|reflexivity].
  unfold Qdrant.insert_vectors, try_except, bind, lift, ret, request_json.
  rewrite B. cbn [outside sent].
  match goal with
  | |- context [http ?q (outside s)] => destruct (http q (outside s)) as [[m|data] w]
  end; cbn [sent snd]; [reflexivity|].
  cbn [Json.len].
  destruct (Json.get data "status" (Json.Str "unknown")); [|reflexivity].
  destruct (Json.get data "result" (Json.Obj [])); [|reflexivity].
  unfold now. cbn [outside sent]. destruct (now_isoformat w). reflexivity.
Qed.

(** C9.  When the parameters of a [qdrant_insert_vectors] request carry a
    list of vectors and no [metadata] key, the dispatcher calls
    [insert_vectors] with the empty list, not with [None]; the points built
    are then none.  In general the points built from two lists are as many
    as the shorter list has items, those points are what is sent, and the
    answer, once the store has replied with an object, reports the number
    of vectors as [inserted_count]. *)
Theorem omitted_metadata_sends_no_points
    (kv : list (string * Json.value)) (lv : list Json.value) (s : state)
    (vectors_given : Json.assoc "vectors" kv = Some (Json.Arr lv))
    (metadata_omitted : Json.assoc "metadata" kv = None) :
  Qdrant.handle_request (Json.Str "qdrant_insert_vectors") (Json.Obj kv) s
  = Qdrant.insert_vectors (Json.Arr lv) (Json.Arr []) s /\
  Qdrant.build_points (Json.Arr lv) (Json.Arr []) = Py.Ok [] /\
  forall lm : list Json.value,
  exists points,
    Qdrant.build_points (Json.Arr lv) (Json.Arr lm) = Py.Ok points /\
    List.length points = Nat.min (List.length lv) (List.length lm) /\
    forall data w,
      http {| verb := "PUT"; url := Qdrant.points_url;
              body := Some (Json.Obj [("points", Json.Arr points)]) |}
           (outside s) = (HttpJson (Json.Obj data), w) ->
      exists r s',
        Qdrant.insert_vectors (Json.Arr lv) (Json.Arr lm) s = (Py.Ok r, s') /\
        sent s' =
          (sent s ++
           [{| verb := "PUT"; url := Qdrant.points_url;
               body := Some (Json.Obj [("points", Json.Arr points)]) |}])%list /\
        Json.get r "inserted_count" Json.Null
          = Py.Ok (Json.Int (Z.of_nat (List.length lv))).
Proof.
  split; [|split].
  - unfold Qdrant.handle_request, Qdrant.handle_request_try.
    cbn [Json.eq_str String.eqb Ascii.eqb Bool.eqb].
    destruct (try_except_total
                (bind (lift (Qdrant.build_points (Json.Arr lv) (Json.Arr [])))
                   (fun points =>
                      bind (request_json "PUT" Qdrant.points_url
                              (Some (Json.Obj [("points", Json.Arr points)])))
                        (fun data =>
                           bind (lift (Json.len (Json.Arr lv))) (fun n =>
                           bind (lift (Json.get data "status" (Json.Str "unknown")))
                             (fun status =>
                           bind (lift (Json.get data "result" (Json.Obj [])))
                             (fun result =>
                           bind now (fun ts =>
                           ret (Json.Obj [("inserted_count", Json.Int n);
                                          ("collection", Json.Str Qdrant.collection_name);
                                          ("status", status);
                                          ("result", result);
                                          ("timestamp", ts)]))))))))
                (fun e => error_dict ("Insert vectors failed: " ++ Py.str_of_exn e))
                s) as [r [s' E]].
    change (Qdrant.insert_vectors (Json.Arr lv) (Json.Arr []) s = (Py.Ok r, s')) in E.
    rewrite E. apply try_except_ok.
    unfold bind at 1, lift at 1. cbn [Json.get]. rewrite vectors_given.
    unfold bind at 1, lift at 1. cbn [Json.get]. rewrite metadata_omitted.
    exact E.
  - unfold Qdrant.build_points. cbn [Json.zip Json.iter].
    now rewrite combine_nil.
  - intros lm. exists (Qdrant.points_from 0 (combine lv lm)).
    split; [reflexivity|]. split.
    + now rewrite points_from_length, length_combine.
    + intros data w Hhttp. now apply insert_vectors_lists with (data := data) (w := w).
Qed.

End BridgeProperties.

(** ** The properties at concrete inputs *)

Section BridgeExamples.
Import Mcp.

(** C5, as stated, fails.  The line that opens 100000 lists and closes
    none is not valid JSON; [json.loads] gives up on it with a
    [RecursionError], which is no [json.JSONDecodeError], and both bridges
    print an error line for it. *)
Lemma deep_line_is_answered :
  @LocalAI.main Demo.outside [Demo.deep ++ Demo.newline] Demo.start
  = (["message=maximum recursion depth exceeded while decoding a JSON array from a unicode string"],
     Demo.start) /\
  @Qdrant.main Demo.outside [Demo.deep ++ Demo.newline] Demo.start
  = (["message=maximum recursion depth exceeded while decoding a JSON array from a unicode string"],
     Demo.start).
Proof. split; vm_compute; reflexivity. Qed.

(** The amended C5 applied: a line of garbage, then a request. *)
Lemma malformed_line_is_discarded_witness :
  "garbage" <> "" /\
  @json_loads Demo.outside (Py.strip "garbage") = JSONDecodeError /\
  @json_loads Demo.outside (Py.strip Demo.request_line)
    = Loaded Demo.request_value /\
  exists r s',
    @Qdrant.handle_request Demo.outside (Json.Str "bogus") (Json.Obj [])
      Demo.start = (Py.Ok r, s') /\
    @Qdrant.main Demo.outside ["garbage"; Demo.request_line] Demo.start
    = ([@json_dumps Demo.outside
          (Json.Obj [("jsonrpc", Json.Str "2.0"); ("id", Json.Int 1);
                     ("result", r)])], s').
Proof.
  split; [discriminate|]. split; [reflexivity|]. split; [reflexivity|].
  exact (proj2 (proj2 (proj1
           (@malformed_line_is_discarded Demo.outside
              "garbage" Demo.request_line []
              [("id", Json.Int 1); ("method", Json.Str "bogus")] Demo.start
              ltac:(discriminate) ltac:(discriminate) eq_refl)
           eq_refl))).
Defined.

Example garbage_then_request :
  @Qdrant.main Demo.outside
     ["garbage" ++ Demo.newline; Demo.request_line ++ Demo.newline] Demo.start
  = (["error=Unknown method: bogus"], Demo.start).
Proof. vm_compute. reflexivity. Qed.

(** A line on which [json.loads] raises something else is answered, and
    so is the request after it. *)
Example deep_line_then_request :
  @LocalAI.main Demo.outside
     [Demo.deep ++ Demo.newline; Demo.request_line ++ Demo.newline] Demo.start
  = (["message=maximum recursion depth exceeded while decoding a JSON array from a unicode string";
      "error=Unknown method: bogus"],
     Demo.start).
Proof. vm_compute. reflexivity. Qed.

(** C6 applied: the method "bogus". *)
Lemma unknown_method_witness :
  @Qdrant.handle_request Demo.outside (Json.Str "bogus") (Json.Obj []) Demo.start
  = (Py.Ok (Json.Obj [("error", Json.Str "Unknown method: bogus")]), Demo.start).
Proof.
  apply (proj1 (proj2 (@unknown_method_and_handler_errors Demo.outside
                         "bogus" Json.Null (Json.Obj []) Demo.start))).
  cbn [Qdrant.methods In].
  intros [E|[E|[E|[E|[E|[E|[]]]]]]]; discriminate E.
Defined.

(** Parameters that are a list, not an object: the [AttributeError] of
    [params.get] comes back as an [error] field. *)
Example handler_exception_becomes_error :
  @Qdrant.handle_request Demo.outside (Json.Str "qdrant_insert_vectors")
     (Json.Arr []) Demo.start
  = (Py.Ok (Json.Obj [("error",
                       Json.Str "'list' object has no attribute 'get'")]),
     Demo.start).
Proof. reflexivity. Qed.

(** C9 applied: one vector, no [metadata] key. *)
Lemma omitted_metadata_sends_no_points_witness :
  @Qdrant.handle_request Demo.outside (Json.Str "qdrant_insert_vectors")
     (Json.Obj [("vectors", Json.Arr [Json.Arr [Json.Float 0.5%float]])])
     Demo.start
  = @Qdrant.insert_vectors Demo.outside
      (Json.Arr [Json.Arr [Json.Float 0.5%float]]) (Json.Arr []) Demo.start.
Proof.
  exact (proj1 (@omitted_metadata_sends_no_points Demo.outside
                  [("vectors", Json.Arr [Json.Arr [Json.Float 0.5%float]])]
                  [Json.Arr [Json.Float 0.5%float]] Demo.start eq_refl eq_refl)).
Defined.

Example omitted_metadata_run :
  @Qdrant.handle_request Demo.outside (Json.Str "qdrant_insert_vectors")
     (Json.Obj [("vectors", Json.Arr [Json.Arr [Json.Float 0.5%float]])])
     Demo.start
  = (Py.Ok (Json.Obj [("inserted_count", Json.Int 1);
                      ("collection", Json.Str "ai_communication_vectors");
                      ("status", Json.Str "ok");
                      ("result", Json.Obj []);
                      ("timestamp", Json.Str "2026-01-01T00:00:00")]),
     @Build_state Demo.outside tt
       [{| verb := "PUT";
           url := "http://localhost:6333/collections/ai_communication_vectors/points";
           body := Some (Json.Obj [("points", Json.Arr [])]) |}]).
Proof. reflexivity. Qed.

End BridgeExamples.

Section ResolutionWitnesses.
Import EmbeddingService.

(** C1 applied: a ready service whose backend cannot be reached answers
    200. *)
Lemma resolution_degrades_witness :
  http_status
    (fst (create_embedding (F := float) Demo.rng Demo.np_random_seed
            Demo.np_random_normal "sentence-transformers/all-MiniLM-L6-v2"
            (startup_event None (Demo.probe [1%float; 2%float]) false
               initial_globals)
            Demo.unreachable {| text := "hello world"; model_name := None |} 0))
  = 200.
Proof.
  apply (proj1 (@resolution_degrades_only_when_ready float ieee754 Demo.rng
                  Demo.np_random_seed Demo.np_random_normal
                  "sentence-transformers/all-MiniLM-L6-v2"
                  (startup_event None (Demo.probe [1%float; 2%float]) false
                     initial_globals)
                  Demo.unreachable
                  {| text := "hello world"; model_name := None |} 0)
               eq_refl).
Defined.

End ResolutionWitnesses.

(** * Further properties *)

(** ** The loop of the bridges, beyond single lines *)

Section Loop.
Import Mcp Observe.
Context `{Outside}.
Variable handle : Json.value -> Json.value -> M Json.value.

Lemma main_loop_app (l1 l2 : list string) :
  Forall (fun line => line <> "") l1 ->
  forall s,
    main_loop handle (l1 ++ l2) s
    = (fst (main_loop handle l1 s)
         ++ fst (main_loop handle l2 (snd (main_loop handle l1 s))),
       snd (main_loop handle l2 (snd (main_loop handle l1 s))))%list.
Proof.
  induction 1 as [|line l1 Hline _ IH]; intros s.
  - cbn [app main_loop fst snd]. now destruct (main_loop handle l2 s).
  - cbn [app main_loop].
    destruct (String.eqb_spec line "") as [E|_]; [contradiction|].
    destruct (json_loads (Py.strip line)) as [request| |e]; [|apply IH|].
    + destruct (respond handle request s) as [r s1].
      rewrite IH. destruct (main_loop handle l1 s1) as [o1 s2].
      cbn [fst snd]. reflexivity.
    + rewrite IH. destruct (main_loop handle l1 s) as [o1 s2].
      cbn [fst snd]. reflexivity.
Qed.

Lemma main_loop_eof (l1 l2 : list string) :
  forall s,
    main_loop handle (l1 ++ "" :: l2) s = main_loop handle l1 s.
Proof.
  induction l1 as [|line l1 IH]; intros s.
  - reflexivity.
  - cbn [app main_loop]. destruct (line =? "")%string; [reflexivity|].
    destruct (json_loads (Py.strip line)) as [request| |e]; [|apply IH|].
    + destruct (respond handle request s) as [r s1]. now rewrite IH.
    + now rewrite IH.
Qed.

Lemma main_loop_count (lines : list string) :
  Forall (fun line => line <> "") lines ->
  forall s,
    List.length (fst (main_loop handle lines s))
    = List.length (filter answered lines).
Proof.
  induction 1 as [|line lines Hline _ IH]; intros s; [reflexivity|].
  cbn [main_loop filter]. unfold answered at 1.
  destruct (String.eqb_spec line "") as [E|_]; [contradiction|].
  destruct (json_loads (Py.strip line)) as [request| |e]; [|apply IH|].
  - destruct (respond handle request s) as [r s1].
    specialize (IH s1). destruct (main_loop handle lines s1) as [later s2].
    cbn [fst List.length] in *. now rewrite IH.
  - specialize (IH s). destruct (main_loop handle lines s) as [later s2].
    cbn [fst List.length] in *. now rewrite IH.
Qed.

(** A request that parsed to something other than an object fails at
    [request.get]; the failure is reported on the [error] channel, with a
    null [id], and the state is untouched. *)
Lemma respond_not_object (request : Json.value) (s : state) :
  (forall kv, request <> Json.Obj kv) ->
  respond handle request s
  = (Py.Raise (Py.OtherException
                 ("'" ++ Json.type_name request
                      ++ "' object has no attribute 'get'")), s).
Proof.
  intros Hno. unfold respond, bind, lift.
  destruct request; try reflexivity. exfalso. exact (Hno kv eq_refl).
Qed.

Lemma main_loop_not_object (line : string) (rest : list string)
    (request : Json.value) (s : state) :
  line <> "" -> json_loads (Py.strip line) = Loaded request ->
  (forall kv, request <> Json.Obj kv) ->
  main_loop handle (line :: rest) s
  = (json_dumps
       (Json.Obj [("jsonrpc", Json.Str "2.0");
                  ("id", Json.Null);
                  ("error",
                   Json.Obj [("message",
                              Json.Str ("'" ++ Json.type_name request
                                            ++ "' object has no attribute 'get'"))])])
       :: fst (main_loop handle rest s),
     snd (main_loop handle rest s)).
Proof.
  intros Hline Hparse Hno. cbn [main_loop].
  destruct (String.eqb_spec line "") as [E|_]; [contradiction|].
  rewrite Hparse, respond_not_object by exact Hno.
  now destruct (main_loop handle rest s).
Qed.

End Loop.

(** ** What the handlers send *)

Create HintDb sends.

Section Sending.
Import Mcp Observe.
Context `{Outside}.

Lemma quiet_ret {A : Type} (a : A) : quiet (ret a).
Proof. intros s. reflexivity. Qed.

Lemma quiet_lift {A : Type} (r : Py.result A) : quiet (lift r).
Proof. intros s. reflexivity. Qed.

Lemma quiet_now : quiet now.
Proof. intros s. unfold now. now destruct (now_isoformat (outside s)). Qed.

Lemma quiet_bind {A B : Type} (m : M A) (k : A -> M B) :
  quiet m -> (forall a, quiet (k a)) -> quiet (bind m k).
Proof.
  intros Hm Hk s. unfold bind. specialize (Hm s).
  destruct (m s) as [[a|e] s1]; cbn [snd] in *; [|exact Hm].
  now rewrite Hk.
Qed.

Lemma quiet_at_most_one {A : Type} (m : M A) : quiet m -> at_most_one m.
Proof. intros Hm s. left. apply Hm. Qed.

Lemma request_json_one (v u : string) (b : option Json.value) :
  at_most_one (request_json v u b).
Proof.
  intros s. right. exists {| verb := v; url := u; body := b |}.
  unfold request_json. now destruct (http _ (outside s)) as [[m|data] w].
Qed.

Lemma at_most_one_bind_quiet {A B : Type} (m : M A) (k : A -> M B) :
  quiet m -> (forall a, at_most_one (k a)) -> at_most_one (bind m k).
Proof.
  intros Hm Hk s. unfold bind. specialize (Hm s).
  destruct (m s) as [[a|e] s1]; cbn [snd] in *; [|now left].
  rewrite <- Hm. apply Hk.
Qed.

Lemma at_most_one_then_quiet {A B : Type} (m : M A) (k : A -> M B) :
  at_most_one m -> (forall a, quiet (k a)) -> at_most_one (bind m k).
Proof.
  intros Hm Hk s. unfold bind. specialize (Hm s).
  destruct (m s) as [[a|e] s1]; cbn [snd] in *; [|exact Hm].
  pose proof (Hk a s1) as E.
  destruct Hm as [Hm|[q Hm]]; [left | right; exists q]; congruence.
Qed.

Lemma at_most_one_try {A : Type} (m : M A) (handler : Py.exn -> M A) :
  at_most_one m -> (forall e, quiet (handler e)) ->
  at_most_one (try_except m handler).
Proof.
  intros Hm Hh s. unfold try_except. specialize (Hm s).
  destruct (m s) as [[a|e] s1]; cbn [snd] in *; [exact Hm|].
  pose proof (Hh e s1) as E.
  destruct Hm as [Hm|[q Hm]]; [left | right; exists q]; congruence.
Qed.

#[local] Hint Resolve quiet_ret quiet_lift quiet_now quiet_bind
  request_json_one at_most_one_then_quiet at_most_one_bind_quiet
  at_most_one_try quiet_at_most_one : sends.
#[local] Hint Extern 1 (quiet (if ?b then _ else _)) => destruct b : sends.
#[local] Hint Extern 1 (at_most_one (if ?b then _ else _)) => destruct b : sends.
#[local] Hint Extern 1 (quiet (let _ := _ in _)) => cbv zeta : sends.
#[local] Hint Extern 1 (at_most_one (let _ := _ in _)) => cbv zeta : sends.

Lemma localai_first_dimension_quiet (e : Json.value) :
  quiet (LocalAI.first_dimension e).
Proof. unfold LocalAI.first_dimension. auto 10 with sends. Qed.

Lemma qdrant_collections_of_quiet (d : Json.value) :
  quiet (Qdrant.collections_of d).
Proof. unfold Qdrant.collections_of. auto 10 with sends. Qed.

#[local] Hint Resolve localai_first_dimension_quiet
  qdrant_collections_of_quiet : sends.

Lemma localai_at_most_one (method params : Json.value) :
  at_most_one (LocalAI.handle_request method params).
Proof.
  unfold LocalAI.handle_request, LocalAI.handle_request_try, LocalAI.health_check,
    LocalAI.generate_embeddings, LocalAI.generate_single_embedding,
    LocalAI.get_models.
  auto 20 with sends.
Qed.

Lemma qdrant_at_most_one (method params : Json.value) :
  at_most_one (Qdrant.handle_request method params).
Proof.
  unfold Qdrant.handle_request, Qdrant.handle_request_try,
    Qdrant.health_check, Qdrant.list_collections,
    Qdrant.create_collection, Qdrant.insert_vectors, Qdrant.search_vectors,
    Qdrant.get_collections_info.
  auto 20 with sends.
Qed.

End Sending.

(** ** What the handlers answer *)

Section Answers.
Import Mcp Observe.
Context `{Outside}.

(** Unfold the monad and one handler's body. *)
Ltac run :=
  unfold try_except, bind, lift, ret, request_json, now, error_dict;
  cbn [outside sent fst snd].

(** Replace the reply to the request that is about to be sent. *)
Ltac reply_with E :=
  match goal with
  | |- context [http ?q (outside ?s)] => rewrite E
  end; cbn [outside sent fst snd].

Ltac tick :=
  match goal with
  | |- context [now_isoformat ?w] => destruct (now_isoformat w)
  end; cbn [outside sent fst snd].

Lemma qdrant_reads (params : Json.value) (s : state) :
  sent (snd (Qdrant.handle_request (Json.Str "qdrant_health") params s))
  = (sent s ++ [get_request "http://localhost:6333/collections"])%list /\
  sent (snd (Qdrant.handle_request (Json.Str "qdrant_collections") params s))
  = (sent s ++ [get_request "http://localhost:6333/collections"])%list /\
  sent (snd (Qdrant.handle_request (Json.Str "qdrant_collections_info") params s))
  = (sent s
       ++ [get_request
             "http://localhost:6333/collections/ai_communication_vectors"])%list.
Proof.
  unfold Qdrant.handle_request, Qdrant.handle_request_try,
    Qdrant.health_check, Qdrant.list_collections,
    Qdrant.get_collections_info, Qdrant.collections_of.
  cbn [Json.eq_str String.eqb Ascii.eqb Bool.eqb]. run.
  repeat split;
    match goal with
    | |- context [http ?q (outside s)] =>
        destruct (http q (outside s)) as [[m|data] w]
    end; cbn [outside sent fst snd]; try reflexivity;
    repeat match goal with
           | |- context [match ?r with Py.Ok _ => _ | Py.Raise _ => _ end] =>
               destruct r; cbn [outside sent fst snd]
           | |- context [now_isoformat ?w] =>
               destruct (now_isoformat w); cbn [outside sent fst snd]
           end; reflexivity.
Qed.

Lemma localai_reads (params : Json.value) (s : state) :
  sent (snd (LocalAI.handle_request (Json.Str "embedding_health") params s))
  = (sent s ++ [get_request "http://localhost:8000/health"])%list /\
  sent (snd (LocalAI.handle_request (Json.Str "embedding_models") params s))
  = (sent s ++ [get_request "http://localhost:8000/models"])%list.
Proof.
  unfold LocalAI.handle_request, LocalAI.handle_request_try,
    LocalAI.health_check, LocalAI.get_models.
  cbn [Json.eq_str String.eqb Ascii.eqb Bool.eqb]. run.
  repeat split;
    match goal with
    | |- context [http ?q (outside s)] =>
        destruct (http q (outside s)) as [[m|data] w]
    end; cbn [outside sent fst snd]; try reflexivity;
    repeat match goal with
           | |- context [match ?r with Py.Ok _ => _ | Py.Raise _ => _ end] =>
               destruct r; cbn [outside sent fst snd]
           | |- context [now_isoformat ?w] =>
               destruct (now_isoformat w); cbn [outside sent fst snd]
           end; reflexivity.
Qed.

(** When the service cannot be reached, every handler answers with its own
    error message. *)
Ltac fails down :=
  run;
  match goal with
  | |- context [http ?q (outside ?s)] =>
      let w := fresh "w" in let E := fresh "E" in
      destruct (down q) as [w E]; rewrite E
  end; reflexivity.

(** X7.  When the vector store cannot be reached, every method of the
    Qdrant bridge answers with a dictionary whose [error] field is the
    method's own prefix followed by the cause; nothing is raised. *)
Theorem qdrant_handlers_report_unreachable_store
    (s : state) (m : string) (kv : list (string * Json.value))
    (lv lm : list Json.value)
    (down : forall q, exists w, http q (outside s) = (HttpError m, w)) :
  fst (Qdrant.handle_request (Json.Str "qdrant_health") (Json.Obj kv) s)
    = Py.Ok (error_dict ("Health check failed: " ++ m)) /\
  fst (Qdrant.handle_request (Json.Str "qdrant_collections") (Json.Obj kv) s)
    = Py.Ok (error_dict ("List collections failed: " ++ m)) /\
  fst (Qdrant.handle_request (Json.Str "qdrant_create_collection") (Json.Obj kv) s)
    = Py.Ok (error_dict ("Create collection failed: " ++ m)) /\
  fst (Qdrant.insert_vectors (Json.Arr lv) (Json.Arr lm) s)
    = Py.Ok (error_dict ("Insert vectors failed: " ++ m)) /\
  fst (Qdrant.handle_request (Json.Str "qdrant_search") (Json.Obj kv) s)
    = Py.Ok (error_dict ("Search vectors failed: " ++ m)) /\
  fst (Qdrant.handle_request (Json.Str "qdrant_collections_info") (Json.Obj kv) s)
    = Py.Ok (error_dict ("Get collections info failed: " ++ m)).
Proof.
  unfold Qdrant.handle_request, Qdrant.handle_request_try,
    Qdrant.health_check, Qdrant.list_collections,
    Qdrant.create_collection, Qdrant.insert_vectors, Qdrant.search_vectors,
    Qdrant.get_collections_info, Qdrant.build_points.
  cbn [Json.eq_str String.eqb Ascii.eqb Bool.eqb Json.get Json.zip Json.iter].
  repeat split.
  - fails down.
  - fails down.
  - destruct (Json.assoc "collection_name" kv); fails down.
  - fails down.
  - destruct (Json.assoc "query_vector" kv); destruct (Json.assoc "limit" kv);
      fails down.
  - fails down.
Qed.

(** X8.  When the embedding service cannot be reached, every method of
    the LocalAI bridge answers with a dictionary whose [error] field is the
    method's own prefix followed by the cause; nothing is raised. *)
Theorem localai_handlers_report_unreachable_service
    (s : state) (m : string) (kv : list (string * Json.value))
    (down : forall q, exists w, http q (outside s) = (HttpError m, w)) :
  fst (LocalAI.handle_request (Json.Str "embedding_health") (Json.Obj kv) s)
    = Py.Ok (error_dict ("Health check failed: " ++ m)) /\
  fst (LocalAI.handle_request (Json.Str "embedding_generate") (Json.Obj kv) s)
    = Py.Ok (error_dict ("Generate embeddings failed: " ++ m)) /\
  fst (LocalAI.handle_request (Json.Str "embedding_generate_single") (Json.Obj kv) s)
    = Py.Ok (error_dict ("Generate single embedding failed: " ++ m)) /\
  fst (LocalAI.handle_request (Json.Str "embedding_models") (Json.Obj kv) s)
    = Py.Ok (error_dict ("Get models failed: " ++ m)).
Proof.
  unfold LocalAI.handle_request, LocalAI.handle_request_try, LocalAI.health_check,
    LocalAI.generate_embeddings, LocalAI.generate_single_embedding,
    LocalAI.get_models.
  cbn [Json.eq_str String.eqb Ascii.eqb Bool.eqb Json.get].
  repeat split.
  - fails down.
  - destruct (Json.assoc "texts" kv); fails down.
  - destruct (Json.assoc "text" kv); fails down.
  - fails down.
Qed.

End Answers.

Section Contents.
Import Mcp Observe.
Context `{Outside}.

Ltac run :=
  unfold try_except, bind, lift, ret, request_json, now, error_dict;
  cbn [outside sent fst snd].

Ltac tick :=
  match goal with
  | |- context [now_isoformat ?w] => destruct (now_isoformat w)
  end; cbn [outside sent fst snd].

(** X9.  [qdrant_search] sends the query with the limit given, 5 when
    none is given, and an empty query vector when none is given.  When the
    store replies with an object, the answer carries the store's [result]
    as it is (the empty list when the key is missing), its length as
    [found_count] whatever the limit was, the length of the query vector,
    and the limit. *)
Theorem search_reports_store_results
    (kv d : list (string * Json.value)) (s : state) (w : world) (n k : Z)
    (replied :
       http (search_request (param kv "query_vector" (Json.Arr []))
                            (param kv "limit" (Json.Int 5)))
            (outside s) = (HttpJson (Json.Obj d), w))
    (query_sized : Json.len (param kv "query_vector" (Json.Arr [])) = Py.Ok n)
    (result_sized : Json.len (param d "result" (Json.Arr [])) = Py.Ok k) :
  exists r s',
    Qdrant.handle_request (Json.Str "qdrant_search") (Json.Obj kv) s
      = (Py.Ok r, s') /\
    sent s' = (sent s ++ [search_request (param kv "query_vector" (Json.Arr []))
                                         (param kv "limit" (Json.Int 5))])%list /\
    Json.get r "search_results" Json.Null
      = Py.Ok (param d "result" (Json.Arr [])) /\
    Json.get r "found_count" Json.Null = Py.Ok (Json.Int k) /\
    Json.get r "query_vector_dimension" Json.Null = Py.Ok (Json.Int n) /\
    Json.get r "limit" Json.Null = Py.Ok (param kv "limit" (Json.Int 5)).
Proof.
  unfold param, search_request in *.
  unfold Qdrant.handle_request, Qdrant.handle_request_try, Qdrant.search_vectors, Qdrant.base_url,
    Qdrant.collection_name.
  cbn [Json.eq_str String.eqb Ascii.eqb Bool.eqb Json.get append]. run.
  destruct (Json.assoc "query_vector" kv) as [qv|];
    destruct (Json.assoc "limit" kv) as [lim|];
    cbn [outside sent fst snd]; rewrite replied;
    cbn [outside sent fst snd Json.get];
    destruct (Json.assoc "result" d) as [res|];
    cbn [Json.len List.length Z.of_nat] in result_sized, query_sized |- *;
    try (injection result_sized as <-); try (injection query_sized as <-);
    rewrite ?result_sized, ?query_sized; cbn [outside sent fst snd]; tick;
    eexists; eexists; (split; [reflexivity|]); repeat split.
Qed.

(** X10.  [qdrant_health] and [qdrant_collections] count the collections
    the store lists; a missing [result] or [collections] key counts as
    none.  A [result] that is present but null is an error: the defaults
    only stand in for missing keys. *)
Theorem collections_count_and_null_result
    (d : list (string * Json.value)) (s : state) (w : world)
    (replied : http collections_request (outside s) = (HttpJson (Json.Obj d), w)) :
  (forall cs,
     param d "result" (Json.Obj []) = Json.Obj cs ->
     forall n,
       Json.len (param cs "collections" (Json.Arr [])) = Py.Ok n ->
       (exists r s',
          Qdrant.health_check s = (Py.Ok r, s') /\
          Json.get r "collections_count" Json.Null = Py.Ok (Json.Int n)) /\
       fst (Qdrant.list_collections s)
         = Py.Ok (Json.Obj [("collections", param cs "collections" (Json.Arr []));
                            ("count", Json.Int n);
                            ("status", Json.Str "ok")])) /\
  (Json.assoc "result" d = Some Json.Null ->
     fst (Qdrant.health_check s)
       = Py.Ok (error_dict
                  "Health check failed: 'NoneType' object has no attribute 'get'") /\
     fst (Qdrant.list_collections s)
       = Py.Ok (error_dict
                  "List collections failed: 'NoneType' object has no attribute 'get'")).
Proof.
  unfold collections_request, get_request in *.
  unfold Qdrant.health_check, Qdrant.list_collections, Qdrant.collections_of,
    Qdrant.base_url. cbn [append]. run. rewrite replied.
  cbn [outside sent fst snd Json.get]. split.
  - unfold param. intros cs Hres n Hn.
    destruct (Json.assoc "result" d) as [res|].
    + subst res. cbn [Json.get outside sent fst snd].
      destruct (Json.assoc "collections" cs) as [c|];
        cbn [outside sent fst snd]; rewrite Hn; cbn [outside sent fst snd];
        (split; [tick; eexists; eexists; split; reflexivity | reflexivity]).
    + injection Hres as <-. cbn [Json.get Json.assoc outside sent fst snd] in *.
      rewrite Hn. cbn [outside sent fst snd].
      split; [tick; eexists; eexists; split; reflexivity | reflexivity].
  - intros Hnull. rewrite Hnull. split; reflexivity.
Qed.

(** X11.  [generate_embeddings] reports as [count] the number of
    embeddings the service returned and as [dimension] the length of the
    first one alone; when the service returns none, or no [embeddings] key,
    both are 0 and the answer is not an error. *)
Theorem generate_embeddings_counts
    (texts : Json.value) (d : list (string * Json.value)) (s : state)
    (w : world)
    (replied :
       http (embeddings_request texts) (outside s) = (HttpJson (Json.Obj d), w)) :
  (param d "embeddings" (Json.Arr []) = Json.Arr [] ->
     exists r s',
       LocalAI.generate_embeddings texts s = (Py.Ok r, s') /\
       Json.get r "embeddings" Json.Null = Py.Ok (Json.Arr []) /\
       Json.get r "count" Json.Null = Py.Ok (Json.Int 0) /\
       Json.get r "dimension" Json.Null = Py.Ok (Json.Int 0)) /\
  (forall e0 rest v,
     Json.assoc "embeddings" d = Some (Json.Arr (Json.Obj e0 :: rest)) ->
     Json.assoc "embedding" e0 = Some (Json.Arr v) ->
     exists r s',
       LocalAI.generate_embeddings texts s = (Py.Ok r, s') /\
       Json.get r "count" Json.Null
         = Py.Ok (Json.Int (Z.of_nat (S (List.length rest)))) /\
       Json.get r "dimension" Json.Null
         = Py.Ok (Json.Int (Z.of_nat (List.length v)))).
Proof.
  unfold embeddings_request, param in *.
  unfold LocalAI.generate_embeddings, LocalAI.first_dimension, LocalAI.base_url.
  cbn [append]. run. rewrite replied. cbn [outside sent fst snd Json.get]. split.
  - intros Hnone.
    destruct (Json.assoc "embeddings" d) as [e|]; [subst e|];
      cbn [Json.len Json.truthy List.length Z.of_nat outside sent fst snd];
      destruct (Json.assoc "model" d); cbn [outside sent fst snd]; tick;
      eexists; eexists; repeat split.
  - intros e0 rest v He Hv. rewrite He.
    cbn [Json.len Json.truthy Json.item0 Json.get outside sent fst snd].
    rewrite Hv. cbn [Json.len outside sent fst snd].
    destruct (Json.assoc "model" d); cbn [outside sent fst snd]; tick;
      eexists; eexists; repeat split.
Qed.

(** X12.  [generate_single_embedding] sends its text as a list of one
    text and answers with the first embedding returned, whatever follows
    it, together with its length and the text as given; when the service
    returns no embedding the answer is the empty list with dimension 0, not
    an error. *)
Theorem single_embedding_takes_first
    (text : Json.value) (d : list (string * Json.value)) (s : state)
    (w : world)
    (replied :
       http (embeddings_request (Json.Arr [text])) (outside s)
       = (HttpJson (Json.Obj d), w)) :
  (param d "embeddings" (Json.Arr []) = Json.Arr [] ->
     exists r s',
       LocalAI.generate_single_embedding text s = (Py.Ok r, s') /\
       Json.get r "embedding" Json.Null = Py.Ok (Json.Arr []) /\
       Json.get r "dimension" Json.Null = Py.Ok (Json.Int 0) /\
       Json.get r "text" Json.Null = Py.Ok text) /\
  (forall e0 rest v,
     Json.assoc "embeddings" d = Some (Json.Arr (Json.Obj e0 :: rest)) ->
     Json.assoc "embedding" e0 = Some (Json.Arr v) ->
     exists r s',
       LocalAI.generate_single_embedding text s = (Py.Ok r, s') /\
       Json.get r "embedding" Json.Null = Py.Ok (Json.Arr v) /\
       Json.get r "dimension" Json.Null
         = Py.Ok (Json.Int (Z.of_nat (List.length v))) /\
       Json.get r "text" Json.Null = Py.Ok text).
Proof.
  unfold embeddings_request, param in *.
  unfold LocalAI.generate_single_embedding, LocalAI.first_dimension,
    LocalAI.base_url.
  cbn [append]. run. rewrite replied. cbn [outside sent fst snd Json.get]. split.
  - intros Hnone.
    destruct (Json.assoc "embeddings" d) as [e|]; [subst e|];
      cbn [Json.len Json.truthy List.length Z.of_nat outside sent fst snd];
      destruct (Json.assoc "model" d); cbn [outside sent fst snd]; tick;
      eexists; eexists; repeat split.
  - intros e0 rest v He Hv. rewrite He.
    cbn [Json.len Json.truthy Json.item0 Json.get outside sent fst snd].
    rewrite Hv. cbn [Json.len outside sent fst snd].
    destruct (Json.assoc "model" d); cbn [outside sent fst snd]; tick;
      eexists; eexists; repeat split.
Qed.

(** X13.  Vectors that cannot be iterated over (a number, a boolean,
    null) make [insert_vectors] answer with an error and send nothing to
    the store, with or without metadata: without metadata it is [len] that
    fails, with metadata it is the iteration. *)
Theorem insert_vectors_rejects_non_iterable
    (vectors metadata : Json.value) (s : state) (e : Py.exn)
    (not_iterable : Json.iter vectors = Py.Raise e) :
  exists msg,
    Qdrant.insert_vectors vectors metadata s
    = (Py.Ok (error_dict ("Insert vectors failed: " ++ msg)), s) /\
    (metadata = Json.Null ->
     msg = "object of type '" ++ Json.type_name vectors ++ "' has no len()") /\
    (metadata <> Json.Null -> msg = Py.str_of_exn e).
Proof.
  unfold Qdrant.insert_vectors, Qdrant.build_points, Json.zip. run.
  rewrite not_iterable.
  destruct vectors; try discriminate not_iterable;
    destruct metadata; eexists;
    (split; [reflexivity | split; [intros E | intros E];
                           first [reflexivity | discriminate E | contradiction]]).
Qed.

End Contents.

(** ** Further properties of the bridges *)

Section BridgeExtras.
Import Mcp Observe.
Context `{Outside}.

(** X1.  In both bridges the lines printed for an input are the lines
    printed for its first part followed by the lines printed for the rest,
    the rest being served in the state the first part left: requests are
    answered one at a time, in the order they arrive.  (No line of the
    first part is the empty read that ends the input.) *)
Theorem responses_follow_request_order
    (first rest : list string) (s : state)
    (no_eof : Forall (fun line => line <> "") first) :
  LocalAI.main (first ++ rest) s
  = (fst (LocalAI.main first s)
       ++ fst (LocalAI.main rest (snd (LocalAI.main first s))),
     snd (LocalAI.main rest (snd (LocalAI.main first s))))%list /\
  Qdrant.main (first ++ rest) s
  = (fst (Qdrant.main first s)
       ++ fst (Qdrant.main rest (snd (Qdrant.main first s))),
     snd (Qdrant.main rest (snd (Qdrant.main first s))))%list.
Proof.
  unfold LocalAI.main, Qdrant.main. split; now apply main_loop_app.
Qed.

(** X2.  In both bridges an empty read ends the loop: whatever would
    follow it is neither answered nor acted upon. *)
Theorem input_after_end_of_stream_is_ignored
    (before after : list string) (s : state) :
  LocalAI.main (before ++ "" :: after) s = LocalAI.main before s /\
  Qdrant.main (before ++ "" :: after) s = Qdrant.main before s.
Proof.
  unfold LocalAI.main, Qdrant.main. split; apply main_loop_eof.
Qed.

(** X3.  In both bridges exactly one line is printed for every input line
    on which [json.loads] does not raise [json.JSONDecodeError] (a response
    when it parses, an error line when it raises something else) and none
    for the others, so the number of lines printed is the number of such
    lines. *)
Theorem one_line_printed_per_parsed_request
    (lines : list string) (s : state)
    (no_eof : Forall (fun line => line <> "") lines) :
  List.length (fst (LocalAI.main lines s)) = List.length (filter answered lines) /\
  List.length (fst (Qdrant.main lines s)) = List.length (filter answered lines).
Proof.
  unfold LocalAI.main, Qdrant.main. split; now apply main_loop_count.
Qed.

(** X4.  In both bridges a line that parses to JSON that is not an object
    (a list, a number, a string ...) is answered on the [error] channel:
    the line printed has a null [id] and the message of the failed
    [request.get]; no handler runs, nothing is sent, and the loop goes on. *)
Theorem non_object_request_gets_transport_error
    (line : string) (rest : list string) (request : Json.value) (s : state)
    (not_eof : line <> "")
    (parsed : json_loads (Py.strip line) = Loaded request)
    (not_object : forall kv, request <> Json.Obj kv) :
  LocalAI.main (line :: rest) s
  = (json_dumps
       (Json.Obj [("jsonrpc", Json.Str "2.0");
                  ("id", Json.Null);
                  ("error",
                   Json.Obj [("message",
                              Json.Str ("'" ++ Json.type_name request
                                            ++ "' object has no attribute 'get'"))])])
       :: fst (LocalAI.main rest s),
     snd (LocalAI.main rest s)) /\
  Qdrant.main (line :: rest) s
  = (json_dumps
       (Json.Obj [("jsonrpc", Json.Str "2.0");
                  ("id", Json.Null);
                  ("error",
                   Json.Obj [("message",
                              Json.Str ("'" ++ Json.type_name request
                                            ++ "' object has no attribute 'get'"))])])
       :: fst (Qdrant.main rest s),
     snd (Qdrant.main rest s)).
Proof.
  unfold LocalAI.main, Qdrant.main.
  split; now apply main_loop_not_object.
Qed.

(** X5.  Whatever the method and the parameters, [handle_request] of
    either bridge sends at most one HTTP request: nothing is retried, and
    the requests sent before are left as they were. *)
Theorem handlers_send_at_most_one_request (method params : Json.value) :
  at_most_one (LocalAI.handle_request method params) /\
  at_most_one (Qdrant.handle_request method params).
Proof. split; [apply localai_at_most_one | apply qdrant_at_most_one]. Qed.

(** X6.  The status and listing methods only read: whatever the
    parameters and whatever the service replies, each sends exactly one GET
    without a body, to a fixed address. *)
Theorem read_methods_send_one_get (params : Json.value) (s : state) :
  sent (snd (Qdrant.handle_request (Json.Str "qdrant_health") params s))
  = (sent s ++ [get_request "http://localhost:6333/collections"])%list /\
  sent (snd (Qdrant.handle_request (Json.Str "qdrant_collections") params s))
  = (sent s ++ [get_request "http://localhost:6333/collections"])%list /\
  sent (snd (Qdrant.handle_request (Json.Str "qdrant_collections_info") params s))
  = (sent s
       ++ [get_request
             "http://localhost:6333/collections/ai_communication_vectors"])%list /\
  sent (snd (LocalAI.handle_request (Json.Str "embedding_health") params s))
  = (sent s ++ [get_request "http://localhost:8000/health"])%list /\
  sent (snd (LocalAI.handle_request (Json.Str "embedding_models") params s))
  = (sent s ++ [get_request "http://localhost:8000/models"])%list.
Proof.
  destruct (qdrant_reads params s) as [Q1 [Q2 Q3]].
  destruct (localai_reads params s) as [L1 L2].
  repeat split; assumption.
Qed.

End BridgeExtras.

(** ** The other endpoints of the embedding service *)

Section Endpoints.
Import EmbeddingService EmbeddingEndpoints.
Context {F : Type} `{Arith F}.
Variable rng : Type.
Variable np_random_seed : Z -> rng.
Variable np_random_normal : rng -> nat -> list F * rng.
Variable MODEL_NAME : string.

Local Abbreviation embed :=
  (create_embedding rng np_random_seed np_random_normal MODEL_NAME).
Local Abbreviation batch :=
  (create_embeddings_batch rng np_random_seed np_random_normal MODEL_NAME).

(** On a ready service the answer to a request does not depend on the
    state numpy's generator is in. *)
Lemma embed_ready (st : globals) (ollama : string -> ollama_reply F)
    (request : EmbeddingRequest) :
  model_type st = "ollama_qwen3" ->
  exists r,
    forall g, exists g', embed st ollama request g = (Py.Ok r, g').
Proof.
  intros Hready. unfold create_embedding.
  destruct (fallback_ok rng np_random_seed np_random_normal
              (text request) 2560 (np_random_seed 0) ltac:(lia))
    as [seed [Hs [_ _]]].
  assert (Hf : forall g,
             deterministic_embedding rng np_random_seed np_random_normal
               (text request) 2560 g
             = (Py.Ok (Np.div_scalar
                         (fst (np_random_normal (np_random_seed seed)
                                 (Z.to_nat 2560)))
                         (Np.linalg_norm
                            (fst (np_random_normal (np_random_seed seed)
                                    (Z.to_nat 2560))))),
                snd (np_random_normal (np_random_seed seed) (Z.to_nat 2560)))).
  { intros g.
    destruct (fallback_ok rng np_random_seed np_random_normal
                (text request) 2560 g ltac:(lia)) as [seed' [Hs' [_ Hg]]].
    rewrite Hs in Hs'. injection Hs' as <-. exact Hg. }
  destruct (ollama (text request)) as [m| |v|m] eqn:E;
    eexists; intros g; rewrite (resolve_ready _ _ _ _ _ _ g Hready), E, ?Hf;
    eexists; reflexivity.
Qed.

(** X14.  On a ready service /embed_batch answers with one response per
    request, in the order of the requests, and the response at each
    position is the one /embed gives for that request on its own against
    the backend as it answers at that position, whatever state numpy's
    generator is in: what the earlier requests of the batch did to the
    generator does not reach the later ones. *)
Theorem batch_on_ready_service
    (st : globals) (requests : list EmbeddingRequest)
    (ready : model_type st = "ollama_qwen3") :
  forall (ollama : nat -> string -> ollama_reply F) (g : rng),
  exists responses g',
    batch st ollama requests g = (Py.Ok responses, g') /\
    List.length responses = List.length requests /\
    forall k request,
      nth_error requests k = Some request ->
      exists response,
        nth_error responses k = Some response /\
        forall g0, fst (embed st (ollama k) request g0) = Py.Ok response.
Proof.
  induction requests as [|request rest IH]; intros ollama g.
  - exists [], g. repeat split. intros [|k] request Hk; discriminate Hk.
  - destruct (embed_ready st (ollama 0%nat) request ready) as [r Hr].
    destruct (Hr g) as [g1 Hg].
    destruct (IH (fun k => ollama (S k)) g1) as [rs [g2 [Hb [Hl Hall]]]].
    exists (r :: rs), g2. cbn [create_embeddings_batch].
    rewrite Hg, Hb. repeat split.
    + cbn [List.length]. now rewrite Hl.
    + intros [|k] request' Hk; cbn [nth_error] in *.
      * injection Hk as <-. exists r. split; [reflexivity|].
        intros g0. destruct (Hr g0) as [g' E]. now rewrite E.
      * exact (Hall k request' Hk).
Qed.

(** X15.  A batch stops at the first request that fails and returns
    nothing of what it had computed.  On a service that is not ready every
    batch with at least one request is answered 500 and leaves numpy's
    generator untouched, while the empty batch is answered with the empty
    list. *)
Theorem batch_on_not_ready_service
    (st : globals) (ollama : nat -> string -> ollama_reply F) (g : rng)
    (not_ready : model_type st <> "ollama_qwen3") :
  batch st ollama [] g = (Py.Ok [], g) /\
  (forall request rest,
     http_status (fst (batch st ollama (request :: rest) g)) = 500 /\
     snd (batch st ollama (request :: rest) g) = g) /\
  (forall st' before request rest responses g0 g1 g2 e,
     batch st' ollama before g0 = (Py.Ok responses, g1) ->
     embed st' (ollama (List.length before)) request g1 = (Py.Raise e, g2) ->
     batch st' ollama (before ++ request :: rest) g0 = (Py.Raise e, g2)).
Proof.
  split; [reflexivity|]. split.
  - intros request rest.
    cbn [create_embeddings_batch]. unfold create_embedding.
    rewrite resolve_not_ready by exact not_ready. split; reflexivity.
  - intros st' before. revert ollama.
    induction before as [|b before IH];
      intros ollama request rest responses g0 g1 g2 e Hb He.
    + cbn [create_embeddings_batch] in Hb. injection Hb as _ <-.
      cbn [app create_embeddings_batch List.length] in *. now rewrite He.
    + cbn [app create_embeddings_batch List.length] in *.
      destruct (embed st' (ollama 0%nat) b g0) as [[r|e0] g'];
        [|discriminate Hb].
      destruct (batch st' (fun k => ollama (S k)) before g') as [[rs|e1] g'']
        eqn:Hrest; [|discriminate Hb].
      injection Hb as _ <-.
      now rewrite (IH (fun k => ollama (S k)) request rest rs g' g'' g2 e Hrest He).
Qed.

(** Whatever the start-up probe comes to, the globals afterwards are the
    initial ones or the ready ones; they are the ready ones when the
    version check passed and the body of the probe is an object whose
    "embedding" has a [len]. *)
Lemma startup_outcomes (version : option string) (probe : probe_reply)
    (cuda : bool) :
  (version = None /\
   exists kv embedding n,
     probe = ProbeBody (Json.Obj kv) /\
     Json.assoc "embedding" kv = Some embedding /\
     Json.len embedding = Py.Ok n /\
     startup_event version probe cuda initial_globals
     = {| model_type := "ollama_qwen3";
          model_device := if cuda then "cuda" else "cpu";
          QWEN3_EMBEDDING_DIM := Z.to_nat n |}) \/
  ((version <> None \/
    forall kv embedding n,
      probe = ProbeBody (Json.Obj kv) ->
      Json.assoc "embedding" kv = Some embedding ->
      Json.len embedding <> Py.Ok n) /\
   startup_event version probe cuda initial_globals = initial_globals).
Proof.
  destruct version as [m|].
  { right. split; [left; discriminate | reflexivity]. }
  destruct probe as [e|test_result].
  { right. split; [right; discriminate | now destruct e]. }
  unfold startup_event, load_model.
  destruct test_result as [ |b|z|f|t|l|kv];
    try (right; split; [right; discriminate | reflexivity]).
  - right. split; [right; discriminate|].
    cbn [Json.contains Json.getitem]. now destruct (String.index 0 "embedding" t).
  - right. split; [right; discriminate|].
    cbn [Json.contains Json.getitem].
    now destruct (existsb (fun x => Json.eq_str x "embedding") l).
  - cbn [Json.contains Json.getitem].
    destruct (Json.assoc "embedding" kv) as [embedding|] eqn:Hkv.
    + destruct (Json.len embedding) as [n|e] eqn:Hn.
      * left. split; [reflexivity|]. exists kv, embedding, n. repeat split; assumption.
      * right. split; [|reflexivity]. right.
        intros kv' embedding' n' Hp Hkv' Hn'.
        injection Hp as <-. rewrite Hkv in Hkv'. injection Hkv' as <-.
        rewrite Hn in Hn'. discriminate Hn'.
    + right. split; [|reflexivity]. right.
      intros kv' embedding' n' Hp Hkv'.
      injection Hp as <-. rewrite Hkv in Hkv'. discriminate Hkv'.
Qed.

(** X16.  After start-up, whatever the probe came to, GET /health answers
    "healthy" with [model_loaded] false, and GET / reports [model_loaded]
    false as well: the flag is false even when the backend was found and
    the service is ready.  The service is ready exactly when the version
    check passed and the body of the probe is an object whose "embedding"
    has a [len], be it a list, a string or an object: the probe looks at
    nothing else. *)
Theorem health_never_reports_model_loaded
    (version : option string) (probe : probe_reply) (cuda now_cuda : bool) :
  status (health_check (startup_event version probe cuda initial_globals) now_cuda)
    = "healthy" /\
  loaded (health_check (startup_event version probe cuda initial_globals) now_cuda)
    = false /\
  Json.get (root MODEL_NAME (startup_event version probe cuda initial_globals))
    "model_loaded" Json.Null = Py.Ok (Json.Bool false) /\
  (model_type (startup_event version probe cuda initial_globals) = "ollama_qwen3"
   <-> version = None /\
       exists kv embedding n,
         probe = ProbeBody (Json.Obj kv) /\
         Json.assoc "embedding" kv = Some embedding /\
         Json.len embedding = Py.Ok n).
Proof.
  destruct (startup_outcomes version probe cuda)
    as [[Hv [kv [embedding [n [Hp [Hkv [Hn E]]]]]]]|[Hfail E]]; rewrite E.
  - split; [reflexivity|]. split; [reflexivity|]. split; [reflexivity|].
    split; [|reflexivity].
    intros _. split; [exact Hv|]. exists kv, embedding, n. repeat split; assumption.
  - split; [reflexivity|]. split; [reflexivity|]. split; [reflexivity|].
    split.
    + intros Hready. discriminate Hready.
    + intros [Hv [kv [embedding [n [Hp [Hkv Hn]]]]]].
      destruct Hfail as [Hfail|Hfail];
        [contradiction | exfalso; exact (Hfail kv embedding n Hp Hkv Hn)].
Qed.

(** A probe whose "embedding" is the string "abcd" marks the service ready,
    with the dimension 4. *)
Example string_probe_marks_ready :
  startup_event None
    (ProbeBody (Json.Obj [("embedding", Json.Str "abcd")])) false
    initial_globals
  = {| model_type := "ollama_qwen3";
       model_device := "cpu";
       QWEN3_EMBEDDING_DIM := 4 |}.
Proof. reflexivity. Qed.

(** X17.  Reconciling a vector to a dimension leaves the components it
    keeps as they were, and reconciling the result again changes nothing. *)
Theorem reconcile_is_idempotent (d : nat) (v : list F) :
  reconcile d (reconcile d v) = reconcile d v /\
  firstn (Nat.min d (List.length v)) (reconcile d v)
  = firstn (Nat.min d (List.length v)) v.
Proof.
  split.
  - unfold reconcile at 1. rewrite reconcile_length.
    now rewrite Nat.ltb_irrefl.
  - unfold reconcile.
    destruct (Nat.ltb_spec d (List.length v)) as [Hlt|Hge].
    + rewrite firstn_firstn. f_equal. lia.
    + destruct (Nat.ltb_spec (List.length v) d) as [Hlt|_]; [|reflexivity].
      rewrite firstn_app. replace (Nat.min d (List.length v) - List.length v)%nat
        with 0%nat by lia.
      cbn [firstn]. now rewrite app_nil_r.
Qed.

End Endpoints.

(** ** The OpenAI-compatible endpoints *)

Section OpenAI.
Import OpenAIApi QuantizedHashSpec.

(** The shape of the quantized-hash fallback, for every text. *)
Lemma fallback_shape (text : string) :
  List.length (OpenAICompat.get_fallback_embeddings text) = 2560%nat /\
  Forall in_unit_interval (OpenAICompat.get_fallback_embeddings text) /\
  skipn 30 (OpenAICompat.get_fallback_embeddings text) = repeat (-1)%float 2530.
Proof.
  unfold OpenAICompat.get_fallback_embeddings.
  rewrite embedding_of_digest_padded by apply hexdigest_length.
  split; [apply by_blocks_length|]. split; [apply by_blocks_range|].
  apply by_blocks_padded_tail, hexdigest_length.
Qed.

(** X18.  [get_embeddings] of the OpenAI wrapper returns the fallback
    vector when the call to the embedding service fails and when the body
    is JSON but no object.  When the body is an object it returns the value
    under "embedding" as it is, and the empty list, not the fallback, when
    that key is missing. *)
Theorem wrapper_get_embeddings_cases
    (embed_service : string -> Mcp.http_reply) (text : string) :
  (forall m, embed_service text = Mcp.HttpError m ->
     get_embeddings embed_service text = fallback_value text) /\
  (forall data, embed_service text = Mcp.HttpJson data ->
     (forall d, data <> Json.Obj d) ->
     get_embeddings embed_service text = fallback_value text) /\
  (forall d v, embed_service text = Mcp.HttpJson (Json.Obj d) ->
     Json.assoc "embedding" d = Some v ->
     get_embeddings embed_service text = v) /\
  (forall d, embed_service text = Mcp.HttpJson (Json.Obj d) ->
     Json.assoc "embedding" d = None ->
     get_embeddings embed_service text = Json.Arr []).
Proof.
  unfold get_embeddings, get_embeddings_try. repeat split.
  - intros m E. now rewrite E.
  - intros data E Hno. rewrite E.
    destruct data; try reflexivity. exfalso. exact (Hno kv eq_refl).
  - intros d v E Hv. rewrite E. cbn [Json.get]. now rewrite Hv.
  - intros d E Hv. rewrite E. cbn [Json.get]. now rewrite Hv.
Qed.

Lemma append_empty (s : string) : s ++ "" = s.
Proof. induction s as [|c s IH]; cbn [append]; [reflexivity | now rewrite IH]. Qed.

Lemma words_blank (l : list string) :
  Forall (fun ch => Py.is_space ch = true) l -> Py.words l = [].
Proof.
  induction 1 as [|ch l Hch _ IH]; [reflexivity|].
  cbn [Py.words]. now rewrite Hch.
Qed.

Lemma words_one (l : list string) :
  l <> [] ->
  Forall (fun ch => Py.is_space ch = false) l ->
  Py.words l = [Py.join l].
Proof.
  intros Hne Hl. induction Hl as [|ch l Hch Hl IH]; [contradiction|].
  cbn [Py.words]. rewrite Hch. destruct l as [|ch' l'].
  - cbn [Py.join fold_right]. now rewrite append_empty.
  - inversion Hl as [|? ? Hch' _]; subst. rewrite Hch'.
    rewrite IH by discriminate. reflexivity.
Qed.

Lemma chars_nonempty (s : string) : s <> "" -> Py.chars s <> [].
Proof.
  destruct s as [|c s]; [contradiction|]. intros _. cbn [Py.chars].
  destruct (Py.chars s) as [|ch rest]; [discriminate|].
  destruct (Py.continues ch); discriminate.
Qed.

(** X19.  When the embedding service is not ready, so that its /embed
    handler raises and the wrapper's call fails, POST /v1/embeddings still
    answers: the vector is the quantized-hash fallback of the input, with
    2560 components in [-1, 1] of which the last 2530 are -1.0, and the
    model named is the fixed one. *)
Theorem wrapper_degrades_to_quantized_fallback
    (F : Type) (A : Arith F) (rng : Type) (np_random_seed : Z -> rng)
    (np_random_normal : rng -> nat -> list F * rng) (MODEL_NAME : string)
    (st : EmbeddingService.globals)
    (ollama : string -> EmbeddingService.ollama_reply F)
    (embed_service : string -> Mcp.http_reply)
    (request : OpenAIEmbeddingRequest)
    (not_ready : EmbeddingService.model_type st <> "ollama_qwen3")
    (wired :
       forall text g e,
         fst (EmbeddingService.create_embedding rng np_random_seed
                np_random_normal MODEL_NAME st ollama
                {| EmbeddingService.text := text;
                   EmbeddingService.model_name := None |} g)
         = Py.Raise e ->
         exists m, embed_service text = Mcp.HttpError m) :
  exists r v,
    create_embeddings_v1 embed_service request = Py.Ok r /\
    Json.get r "data" Json.Null
      = Py.Ok (Json.Arr [Json.Obj [("object", Json.Str "embedding");
                                   ("embedding", Json.Arr (map Json.Float v));
                                   ("index", Json.Int 0)]]) /\
    Json.get r "model" Json.Null = Py.Ok (Json.Str "Qwen/Qwen3-Embedding-4B-GGUF") /\
    v = OpenAICompat.get_fallback_embeddings (input request) /\
    List.length v = 2560%nat /\
    Forall in_unit_interval v /\
    skipn 30 v = repeat (-1)%float 2530.
Proof.
  assert (Hraise :
            fst (EmbeddingService.create_embedding rng np_random_seed
                   np_random_normal MODEL_NAME st ollama
                   {| EmbeddingService.text := input request;
                      EmbeddingService.model_name := None |} (np_random_seed 0))
            = Py.Raise (Py.HTTPException 500
                          (Py.str_of_exn
                             (Py.HTTPException 503 "Ollama Qwen3 model not loaded")))).
  { unfold EmbeddingService.create_embedding.
    now rewrite resolve_not_ready by exact not_ready. }
  destruct (wired _ _ _ Hraise) as [m Hm].
  destruct (fallback_shape (input request)) as [Hl [Hr Ht]].
  eexists. exists (OpenAICompat.get_fallback_embeddings (input request)).
  unfold create_embeddings_v1, create_embeddings_openai.
  unfold get_embeddings, get_embeddings_try. rewrite Hm.
  split; [reflexivity|]. repeat split; assumption.
Qed.

(** X20.  The response of POST /embeddings names the same model whatever
    model and encoding the request asks for, and reports the same number
    for [prompt_tokens] and [total_tokens]: the number of words of the
    input, which is 0 for an input of white space only and 1 for an input
    that is not empty and holds no white space. *)
Theorem openai_response_usage
    (embed_service : string -> Mcp.http_reply) (request : OpenAIEmbeddingRequest) :
  (forall m e,
     create_embeddings_openai embed_service
       {| input := input request; model := m; encoding_format := e |}
     = create_embeddings_openai embed_service request) /\
  (exists r usage n,
     create_embeddings_openai embed_service request = Py.Ok r /\
     Json.get r "usage" Json.Null = Py.Ok usage /\
     Json.get usage "prompt_tokens" Json.Null = Py.Ok (Json.Int n) /\
     Json.get usage "total_tokens" Json.Null = Py.Ok (Json.Int n) /\
     n = Z.of_nat (List.length (Py.split (input request))) /\
     (Forall (fun ch => Py.is_space ch = true) (Py.chars (input request)) ->
      n = 0) /\
     (input request <> "" ->
      Forall (fun ch => Py.is_space ch = false) (Py.chars (input request)) ->
      n = 1)).
Proof.
  split; [reflexivity|].
  eexists. eexists. exists (Z.of_nat (List.length (Py.split (input request)))).
  unfold create_embeddings_openai.
  split; [reflexivity|]. split; [reflexivity|]. split; [reflexivity|].
  split; [reflexivity|]. split; [reflexivity|]. unfold Py.split. split.
  - intros Hb. now rewrite words_blank.
  - intros Hne Hw. rewrite words_one; [reflexivity | | exact Hw].
    now apply chars_nonempty.
Qed.

(** White space beyond ASCII: a no-break space (U+00A0) parts two words,
    and [strip] removes it and an ideographic space (U+3000), while the
    byte A0 inside another character (U+00E0) parts nothing. *)
Example split_at_no_break_space :
  Py.split ("a" ++ Py.chr 0xA0 ++ "b") = ["a"; "b"] /\
  Py.split ("a" ++ Py.chr 0xE0 ++ "b") = ["a" ++ Py.chr 0xE0 ++ "b"] /\
  Py.strip (Py.chr 0xA0 ++ "{}" ++ Py.chr 0x3000 ++ " ") = "{}".
Proof. vm_compute. repeat split. Qed.

End OpenAI.

(** ** The further properties at concrete inputs *)

Section BridgeExtrasExamples.
Import Mcp Observe.

Lemma demo_lines_not_eof :
  Forall (fun line => line <> "") ["garbage"; Demo.request_line].
Proof. repeat constructor; discriminate. Defined.

(** X1 applied: a line of garbage and a request, then a second request. *)
Lemma responses_follow_request_order_witness :
  Forall (fun line => line <> "") ["garbage"; Demo.request_line] /\
  @Qdrant.main Demo.outside
     (["garbage"; Demo.request_line] ++ [Demo.request_line]) Demo.start
  = (fst (@Qdrant.main Demo.outside ["garbage"; Demo.request_line] Demo.start)
       ++ fst (@Qdrant.main Demo.outside [Demo.request_line]
                 (snd (@Qdrant.main Demo.outside
                         ["garbage"; Demo.request_line] Demo.start))),
     snd (@Qdrant.main Demo.outside [Demo.request_line]
            (snd (@Qdrant.main Demo.outside
                    ["garbage"; Demo.request_line] Demo.start))))%list.
Proof.
  split; [exact demo_lines_not_eof|].
  exact (proj2 (@responses_follow_request_order Demo.outside
                  ["garbage"; Demo.request_line] [Demo.request_line]
                  Demo.start demo_lines_not_eof)).
Defined.

(** X3 applied: of a line of garbage and a request, one is answered. *)
Lemma one_line_printed_per_parsed_request_witness :
  Forall (fun line => line <> "") ["garbage"; Demo.request_line] /\
  List.length
    (fst (@LocalAI.main Demo.outside ["garbage"; Demo.request_line] Demo.start))
  = List.length (filter (@answered Demo.outside) ["garbage"; Demo.request_line]).
Proof.
  split; [exact demo_lines_not_eof|].
  exact (proj1 (@one_line_printed_per_parsed_request Demo.outside
                  ["garbage"; Demo.request_line] Demo.start
                  demo_lines_not_eof)).
Defined.

Example one_of_two_lines_answered :
  List.length
    (fst (@LocalAI.main Demo.outside ["garbage"; Demo.request_line] Demo.start))
  = 1%nat.
Proof. vm_compute. reflexivity. Qed.

Example two_of_three_lines_answered :
  List.length
    (fst (@LocalAI.main Demo.outside
            ["garbage"; Demo.deep ++ Demo.newline; Demo.request_line]
            Demo.start))
  = 2%nat.
Proof. vm_compute. reflexivity. Qed.

(** X4 applied: the line "[]". *)
Lemma non_object_request_gets_transport_error_witness :
  "[]" <> "" /\
  @json_loads DemoDown.outside (Py.strip "[]") = Loaded (Json.Arr []) /\
  (forall kv, Json.Arr [] <> Json.Obj kv) /\
  @Qdrant.main DemoDown.outside ["[]"] DemoDown.start
  = (["message='list' object has no attribute 'get'"], DemoDown.start).
Proof.
  split; [discriminate|]. split; [reflexivity|].
  split; [intros kv; discriminate|].
  exact (proj2 (@non_object_request_gets_transport_error DemoDown.outside
                  "[]" [] (Json.Arr []) DemoDown.start
                  ltac:(discriminate) eq_refl
                  (fun kv => ltac:(discriminate)))).
Defined.

Lemma demo_down (q : http_request) :
  exists w, @http DemoDown.outside q (outside DemoDown.start)
            = (HttpError "connection refused", w).
Proof. exists tt. reflexivity. Defined.

(** X7 applied: a store that refuses the connection. *)
Lemma qdrant_handlers_report_unreachable_store_witness :
  (forall q, exists w,
      @http DemoDown.outside q (outside DemoDown.start)
      = (HttpError "connection refused", w)) /\
  fst (@Qdrant.handle_request DemoDown.outside (Json.Str "qdrant_search")
         (Json.Obj []) DemoDown.start)
  = Py.Ok (error_dict "Search vectors failed: connection refused").
Proof.
  split; [exact demo_down|].
  exact (proj1 (proj2 (proj2 (proj2 (proj2
           (@qdrant_handlers_report_unreachable_store DemoDown.outside
              DemoDown.start "connection refused" [] [] [] demo_down)))))).
Defined.

(** X8 applied: an embedding service that refuses the connection. *)
Lemma localai_handlers_report_unreachable_service_witness :
  (forall q, exists w,
      @http DemoDown.outside q (outside DemoDown.start)
      = (HttpError "connection refused", w)) /\
  fst (@LocalAI.handle_request DemoDown.outside (Json.Str "embedding_health")
         (Json.Obj []) DemoDown.start)
  = Py.Ok (error_dict "Health check failed: connection refused").
Proof.
  split; [exact demo_down|].
  exact (proj1 (@localai_handlers_report_unreachable_service DemoDown.outside
                  DemoDown.start "connection refused" [] demo_down)).
Defined.

(** X9 applied: a query of one component against a store that answers
    with an empty [result] object. *)
Lemma search_reports_store_results_witness :
  exists r s',
    @Qdrant.handle_request Demo.outside (Json.Str "qdrant_search")
      (Json.Obj [("query_vector", Json.Arr [Json.Float 0.5%float])]) Demo.start
      = (Py.Ok r, s') /\
    Json.get r "found_count" Json.Null = Py.Ok (Json.Int 0) /\
    Json.get r "query_vector_dimension" Json.Null = Py.Ok (Json.Int 1) /\
    Json.get r "limit" Json.Null = Py.Ok (Json.Int 5).
Proof.
  destruct (@search_reports_store_results Demo.outside
              [("query_vector", Json.Arr [Json.Float 0.5%float])]
              [("status", Json.Str "ok"); ("result", Json.Obj [])]
              Demo.start tt 1 0 eq_refl eq_refl eq_refl)
    as [r [s' [Hr [_ [_ [Hf [Hq Hl]]]]]]].
  exists r, s'. repeat split; assumption.
Defined.

(** X10 applied: a store whose [result] lists no collections. *)
Lemma collections_count_and_null_result_witness :
  fst (@Qdrant.list_collections Demo.outside Demo.start)
  = Py.Ok (Json.Obj [("collections", Json.Arr []);
                     ("count", Json.Int 0);
                     ("status", Json.Str "ok")]).
Proof.
  exact (proj2 (proj1 (@collections_count_and_null_result Demo.outside
                         [("status", Json.Str "ok"); ("result", Json.Obj [])]
                         Demo.start tt eq_refl)
                  [] eq_refl 0 eq_refl)).
Defined.

(** X11 applied: a service whose reply has no [embeddings] key. *)
Lemma generate_embeddings_counts_witness :
  exists r s',
    @LocalAI.generate_embeddings Demo.outside (Json.Arr [Json.Str "hello"])
      Demo.start = (Py.Ok r, s') /\
    Json.get r "embeddings" Json.Null = Py.Ok (Json.Arr []) /\
    Json.get r "count" Json.Null = Py.Ok (Json.Int 0) /\
    Json.get r "dimension" Json.Null = Py.Ok (Json.Int 0).
Proof.
  exact (proj1 (@generate_embeddings_counts Demo.outside
                  (Json.Arr [Json.Str "hello"])
                  [("status", Json.Str "ok"); ("result", Json.Obj [])]
                  Demo.start tt eq_refl)
           eq_refl).
Defined.

(** X12 applied: the same service asked for one embedding. *)
Lemma single_embedding_takes_first_witness :
  exists r s',
    @LocalAI.generate_single_embedding Demo.outside (Json.Str "hello")
      Demo.start = (Py.Ok r, s') /\
    Json.get r "embedding" Json.Null = Py.Ok (Json.Arr []) /\
    Json.get r "dimension" Json.Null = Py.Ok (Json.Int 0) /\
    Json.get r "text" Json.Null = Py.Ok (Json.Str "hello").
Proof.
  exact (proj1 (@single_embedding_takes_first Demo.outside
                  (Json.Str "hello")
                  [("status", Json.Str "ok"); ("result", Json.Obj [])]
                  Demo.start tt eq_refl)
           eq_refl).
Defined.

(** X13 applied: the number 5 in place of the vectors. *)
Lemma insert_vectors_rejects_non_iterable_witness :
  exists msg,
    @Qdrant.insert_vectors Demo.outside (Json.Int 5) (Json.Arr []) Demo.start
    = (Py.Ok (error_dict ("Insert vectors failed: " ++ msg)), Demo.start) /\
    (Json.Arr [] = Json.Null ->
     msg = "object of type '" ++ Json.type_name (Json.Int 5) ++ "' has no len()") /\
    (Json.Arr [] <> Json.Null ->
     msg = Py.str_of_exn
             (Py.OtherException "'int' object is not iterable")).
Proof.
  exact (@insert_vectors_rejects_non_iterable Demo.outside
           (Json.Int 5) (Json.Arr []) Demo.start
           (Py.OtherException "'int' object is not iterable") eq_refl).
Defined.

Example insert_number_run :
  @Qdrant.insert_vectors Demo.outside (Json.Int 5) Json.Null Demo.start
  = (Py.Ok (error_dict
              "Insert vectors failed: object of type 'int' has no len()"),
     Demo.start).
Proof. reflexivity. Qed.

End BridgeExtrasExamples.

Section EndpointExtrasExamples.
Import EmbeddingService EmbeddingEndpoints.

(** X14 applied: two requests to a ready service whose backend answers
    the first and cannot be reached at the second. *)
Lemma batch_on_ready_service_witness :
  model_type (startup_event None
                (Demo.probe [1%float; 2%float]) false initial_globals)
  = "ollama_qwen3" /\
  exists responses g',
    create_embeddings_batch (F := float) Demo.rng Demo.np_random_seed
      Demo.np_random_normal "sentence-transformers/all-MiniLM-L6-v2"
      (startup_event None (Demo.probe [1%float; 2%float]) false
         initial_globals)
      Demo.going_down
      [{| text := "hello"; model_name := None |};
       {| text := "world"; model_name := None |}] 0
    = (Py.Ok responses, g') /\
    List.length responses = 2%nat.
Proof.
  split; [reflexivity|].
  destruct (@batch_on_ready_service float ieee754 Demo.rng Demo.np_random_seed
              Demo.np_random_normal "sentence-transformers/all-MiniLM-L6-v2"
              (startup_event None (Demo.probe [1%float; 2%float]) false
                 initial_globals)
              [{| text := "hello"; model_name := None |};
               {| text := "world"; model_name := None |}] eq_refl
              Demo.going_down 0)
    as [responses [g' [Hb [Hl _]]]].
  exists responses, g'. split; [exact Hb | exact Hl].
Defined.

(** The two responses of that batch: the backend's vector, normalised,
    and the 2560 components of the fallback. *)
Example batch_with_backend_going_down :
  match
    fst (create_embeddings_batch (F := float) Demo.rng Demo.np_random_seed
           Demo.np_random_normal "sentence-transformers/all-MiniLM-L6-v2"
           (startup_event None (Demo.probe [1%float; 2%float]) false
              initial_globals)
           Demo.going_down
           [{| text := "hello"; model_name := None |};
            {| text := "world"; model_name := None |}] 0)
  with
  | Py.Ok [first; second] =>
      embedding first = [0.6%float; 0.8%float] /\ dimension second = 2560
  | _ => False
  end.
Proof. vm_compute. split; reflexivity. Qed.

(** X15 applied: the service before start-up. *)
Lemma batch_on_not_ready_service_witness :
  model_type initial_globals <> "ollama_qwen3" /\
  http_status
    (fst (create_embeddings_batch (F := float) Demo.rng Demo.np_random_seed
            Demo.np_random_normal "sentence-transformers/all-MiniLM-L6-v2"
            initial_globals Demo.going_down
            [{| text := "hello"; model_name := None |}] 7))
  = 500.
Proof.
  split; [discriminate|].
  exact (proj1 (proj1 (proj2
           (@batch_on_not_ready_service float ieee754 Demo.rng
              Demo.np_random_seed Demo.np_random_normal
              "sentence-transformers/all-MiniLM-L6-v2"
              initial_globals Demo.going_down 7 ltac:(discriminate)))
           {| text := "hello"; model_name := None |} [])).
Defined.

End EndpointExtrasExamples.

Section OpenAIExtrasExamples.
Import OpenAIApi.

(** X19 applied: the service before start-up behind a wrapper whose call
    fails with the status line. *)
Lemma wrapper_degrades_to_quantized_fallback_witness :
  EmbeddingService.model_type EmbeddingService.initial_globals
    <> "ollama_qwen3" /\
  exists r,
    create_embeddings_v1 (fun _ => Mcp.HttpError "500 Server Error")
      {| input := "hello world"; model := "any"; encoding_format := None |}
    = Py.Ok r /\
    Json.get r "model" Json.Null
    = Py.Ok (Json.Str "Qwen/Qwen3-Embedding-4B-GGUF").
Proof.
  split; [discriminate|].
  destruct (@wrapper_degrades_to_quantized_fallback float ieee754 Demo.rng
              Demo.np_random_seed Demo.np_random_normal
              "sentence-transformers/all-MiniLM-L6-v2"
              EmbeddingService.initial_globals Demo.unreachable
              (fun _ => Mcp.HttpError "500 Server Error")
              {| input := "hello world"; model := "any";
                 encoding_format := None |}
              ltac:(discriminate)
              (fun _ _ _ _ => ex_intro _ "500 Server Error" eq_refl))
    as [r [v [Hr [_ [Hm _]]]]].
  exists r. split; [exact Hr | exact Hm].
Defined.

End OpenAIExtrasExamples.
